(** * Consensus engine of the executive team orchestrator

    A shallow embedding of [src/consensus/consensus_builder.py] and of the
    decision loop of [src/executive_team_orchestrator.py], with the
    properties of the consensus and conflict-resolution core proved about
    the embedded functions.

    Conventions of the embedding.
    - Python [float] values are exact rationals ([Q]); the decimal constants
      of the source ([0.6], [0.95], ...) are the rationals they denote.
      Comparisons are the boolean tests the source writes. Rounding and
      overflow are not modelled.
    - Strings are sequences of ASCII characters.
    - An [async def] is a computation that threads the state and may raise;
      [coroutine] gives its body the treatment of [StopIteration] that a
      coroutine has.
    - Python dictionaries keep insertion order, so a [dict] is an association
      list with unique keys ([Py.dict]).
    - pydantic models are records; the validation that a model constructor
      performs ([Field(..., ge=0.0, le=1.0)]) is a constructor function
      [new_...] that raises [ValidationError].
    - Timestamps and logging are left out: no property depends on them. *)

From Stdlib Require Import ZArith QArith Qminmax Qabs Lqa Lia.
From Stdlib Require Import List String Ascii Bool DecimalString.
From Stdlib Require Import Permutation Sorted.
Import ListNotations.

Local Open Scope string_scope.
Local Open Scope list_scope.
Local Open Scope Q_scope.

(** ** The Python constructs the source relies on *)

Module Py.

(** Comparisons of floats, as boolean tests. *)
Definition geb (x y : Q) : bool := Qle_bool y x.
Definition leb (x y : Q) : bool := Qle_bool x y.
Definition ltb (x y : Q) : bool := negb (Qle_bool y x).
Definition gtb (x y : Q) : bool := negb (Qle_bool x y).

(** [min(a, b)] and [max(a, b)] return the first of two equal arguments. *)
Definition min (a b : Q) : Q := if ltb b a then b else a.
Definition max (a b : Q) : Q := if gtb b a then b else a.

(** [sum(xs)]: a left fold starting from [0]. *)
Definition sum (xs : list Q) : Q := fold_left Qplus xs 0.

(** An integer count used as a float operand, and [len(xs)] as one. *)
Definition float (n : nat) : Q := inject_Z (Z.of_nat n).
Definition len {A} (xs : list A) : Q := float (List.length xs).

(** Insertion-ordered dictionaries with string keys. *)
Definition dict (V : Type) : Type := list (string * V).

Fixpoint get {V} (d : dict V) (k : string) : option V :=
  match d with
  | [] => None
  | (k', v) :: d' => if String.eqb k' k then Some v else get d' k
  end.

Definition get_default {V} (d : dict V) (k : string) (default : V) : V :=
  match get d k with Some v => v | None => default end.

Definition contains {V} (d : dict V) (k : string) : bool :=
  match get d k with Some _ => true | None => false end.

(** [d[k] = v]: an existing key keeps its position, a new key goes last. *)
Fixpoint set {V} (d : dict V) (k : string) (v : V) : dict V :=
  match d with
  | [] => [(k, v)]
  | (k', v') :: d' =>
      if String.eqb k' k then (k', v) :: d' else (k', v') :: set d' k v
  end.

Definition keys {V} (d : dict V) : list string := map fst d.
Definition values {V} (d : dict V) : list V := map snd d.
Definition items {V} (d : dict V) : list (string * V) := d.

(** [x in xs] for a list of strings. *)
Definition mem (x : string) (xs : list string) : bool :=
  existsb (String.eqb x) xs.

(** [s.lower()], on the ASCII letters. *)
Definition lower_ascii (c : ascii) : ascii :=
  let n := nat_of_ascii c in
  if (Nat.leb 65 n && Nat.leb n 90)%bool then ascii_of_nat (n + 32) else c.

Fixpoint lower (s : string) : string :=
  match s with
  | EmptyString => EmptyString
  | String c s' => String (lower_ascii c) (lower s')
  end.

(** [sep.join(xs)]. *)
Fixpoint join (sep : string) (xs : list string) : string :=
  match xs with
  | [] => ""
  | [x] => x
  | x :: xs' => (x ++ sep ++ join sep xs')%string
  end.

(** [str(n)] for a non-negative integer. *)
Definition str (n : nat) : string := NilZero.string_of_uint (Nat.to_uint n).

(** [sorted(xs, key=key, reverse=True)]: a stable sort in descending
    order of the key; equal keys keep their original order. *)
Fixpoint insert_desc {A} (key : A -> Q) (x : A) (sorted : list A) : list A :=
  match sorted with
  | [] => [x]
  | y :: ys =>
      if geb (key x) (key y) then x :: y :: ys
      else y :: insert_desc key x ys
  end.

Definition sorted_desc {A} (key : A -> Q) (xs : list A) : list A :=
  fold_right (fun x acc => insert_desc key x acc) [] xs.

(** [needle in hay] for two strings: [needle] occurs in [hay]. *)
Fixpoint in_str (needle hay : string) : bool :=
  (String.prefix needle hay
   || match hay with
      | EmptyString => false
      | String _ hay' => in_str needle hay'
      end)%bool.

(** Exceptions that the modelled code can raise. *)
Inductive exn : Type :=
| ValidationError (model field : string)
| ValueError (msg : string)
| StopIteration
| RuntimeError (msg : string)
| Exception (msg : string).

(** [0 <= x <= 1], the constraint [Field(..., ge=0.0, le=1.0)]. *)
Definition unit_interval (x : Q) : bool := (geb x 0 && leb x 1)%bool.

End Py.

(** ** [src/executive_agents/base_executive.py]: the recommendation *)

Module Executive.

(** A value of [domain_specific_analyses]: what the proposer stored, or one
    of the three annotations that conflict resolution attaches. *)
Inductive Analysis : Type :=
| ProposerAnalysis (payload : string)
| ConsensusModifications
    (integrated_suggestions : list string) (modification_note : string)
| WeightedVotingAdjustments
    (top_concerns_addressed : list string) (adjustment_note : string)
| StructuredDebateOutcome
    (supporting_args opposing_args : list string) (debate_outcome : string).

(** [ExecutiveRecommendation], with the fields the consensus core reads or
    writes; the other fields are carried along untouched. *)
Record ExecutiveRecommendation : Type := {
  title : string;
  summary : string;
  domain_specific_analyses : Py.dict Analysis;
  uncertainty_factors : list string
}.

Definition with_analysis (r : ExecutiveRecommendation) (k : string)
    (a : Analysis) : ExecutiveRecommendation :=
  {| title := title r;
     summary := summary r;
     domain_specific_analyses := Py.set (domain_specific_analyses r) k a;
     uncertainty_factors := uncertainty_factors r |}.

Definition with_uncertainty (r : ExecutiveRecommendation) (note : string)
    : ExecutiveRecommendation :=
  {| title := title r;
     summary := summary r;
     domain_specific_analyses := domain_specific_analyses r;
     uncertainty_factors := uncertainty_factors r ++ [note] |}.

End Executive.

(** ** [src/consensus/consensus_builder.py] *)

Module Consensus.
Import Executive.

Inductive ConsensusLevel : Type :=
| STRONG_CONSENSUS
| GENERAL_CONSENSUS
| MAJORITY_AGREEMENT
| DIVIDED_OPINION
| STRONG_DISAGREEMENT.

(** [ConsensusLevel.value]. *)
Definition ConsensusLevel_value (l : ConsensusLevel) : string :=
  match l with
  | STRONG_CONSENSUS => "strong_consensus"
  | GENERAL_CONSENSUS => "general_consensus"
  | MAJORITY_AGREEMENT => "majority_agreement"
  | DIVIDED_OPINION => "divided_opinion"
  | STRONG_DISAGREEMENT => "strong_disagreement"
  end.

(** [DecisionParticipation] is a [TypedDict]: building one checks nothing. *)
Record DecisionParticipation : Type := {
  executive_id : string;
  executive_role : string;
  participation_type : string;
  contribution_weight : Q;
  expertise_relevance : Q
}.

Record ConsensusEvaluation : Type := {
  recommendation_id : string;
  evaluator_id : string;
  evaluator_role : string;
  agreement_level : Q;
  concerns : list string;
  suggestions : list string;
  supporting_arguments : list string;
  expertise_level : Q;
  confidence : Q
}.

(** The constructor [ConsensusEvaluation(...)]: pydantic checks the three
    fields declared with [ge=0.0, le=1.0], in the order of declaration. *)
Definition new_ConsensusEvaluation
    (recommendation_id evaluator_id evaluator_role : string)
    (agreement_level : Q)
    (concerns suggestions supporting_arguments : list string)
    (expertise_level confidence : Q) : Py.exn + ConsensusEvaluation :=
  if negb (Py.unit_interval agreement_level) then
    inl (Py.ValidationError "ConsensusEvaluation" "agreement_level")
  else if negb (Py.unit_interval expertise_level) then
    inl (Py.ValidationError "ConsensusEvaluation" "expertise_level")
  else if negb (Py.unit_interval confidence) then
    inl (Py.ValidationError "ConsensusEvaluation" "confidence")
  else
    inr (Build_ConsensusEvaluation recommendation_id evaluator_id
           evaluator_role agreement_level concerns suggestions
           supporting_arguments expertise_level confidence).

Inductive Severity : Type := low | medium | high.

(** A conflict dictionary; the constructor is its ["type"] entry. *)
Inductive Conflict : Type :=
| shared_concern
    (description : string) (affected_executives : list string)
    (severity : Severity)
| polarized_opinion
    (description : string) (supporting opposing : list string)
    (severity : Severity)
| role_based
    (description : string) (supporting_role opposing_role : string)
    (agreement_difference : Q) (severity : Severity).

Definition conflict_type (c : Conflict) : string :=
  match c with
  | shared_concern _ _ _ => "shared_concern"
  | polarized_opinion _ _ _ _ => "polarized_opinion"
  | role_based _ _ _ _ _ => "role_based"
  end.

Definition conflict_severity (c : Conflict) : Severity :=
  match c with
  | shared_concern _ _ s => s
  | polarized_opinion _ _ _ s => s
  | role_based _ _ _ _ s => s
  end.

Definition is_high (s : Severity) : bool :=
  match s with high => true | _ => false end.

Record ConsensusOutcome : Type := {
  recommendation : ExecutiveRecommendation;
  consensus_level : ConsensusLevel;
  support_percentage : Q;
  supporting_executives : list string;
  opposing_executives : list string;
  abstaining_executives : list string;
  key_conflicts : list Conflict;
  resolution_method : string;
  modified_from_original : bool;
  modification_summary : option string
}.

(** The constructor [ConsensusOutcome(...)]: [support_percentage] is
    declared with [ge=0.0, le=1.0]. *)
Definition new_ConsensusOutcome
    (recommendation : ExecutiveRecommendation)
    (consensus_level : ConsensusLevel) (support_percentage : Q)
    (supporting_executives opposing_executives abstaining_executives
       : list string)
    (key_conflicts : list Conflict) (resolution_method : string)
    (modified_from_original : bool) (modification_summary : option string)
    : Py.exn + ConsensusOutcome :=
  if Py.unit_interval support_percentage then
    inr (Build_ConsensusOutcome recommendation consensus_level
           support_percentage supporting_executives opposing_executives
           abstaining_executives key_conflicts resolution_method
           modified_from_original modification_summary)
  else inl (Py.ValidationError "ConsensusOutcome" "support_percentage").

Inductive ConflictResolutionMethod : Type :=
| EVIDENCE_BASED
| WEIGHTED_VOTING
| DELPHI_METHOD
| COMPROMISE
| INTEGRATIVE
| ESCALATION
| STRUCTURED_DEBATE
| DIALECTICAL_INQUIRY.

Definition ConflictResolutionMethod_value (m : ConflictResolutionMethod)
    : string :=
  match m with
  | EVIDENCE_BASED => "evidence_based"
  | WEIGHTED_VOTING => "weighted_voting"
  | DELPHI_METHOD => "delphi_method"
  | COMPROMISE => "compromise"
  | INTEGRATIVE => "integrative"
  | ESCALATION => "escalation"
  | STRUCTURED_DEBATE => "structured_debate"
  | DIALECTICAL_INQUIRY => "dialectical_inquiry"
  end.

(** The attributes of a [ConsensusBuilder]; its [decision_history] is
    threaded through [build_consensus]. *)
Record ConsensusBuilder : Type := {
  consensus_threshold : Q;
  min_participation : Q;
  automatic_resolution_threshold : Q
}.

(** The dictionary that [_calculate_support_metrics] returns. *)
Record SupportMetrics : Type := {
  weighted_support : Q;
  unweighted_support : Q;
  participation_rate : Q;
  strong_support : nat;
  moderate_support : nat;
  neutral : nat;
  moderate_opposition : nat;
  strong_opposition : nat
}.

(** [len([e for e in xs if p(e)])]. *)
Definition count_where {A} (p : A -> bool) (xs : list A) : nat :=
  List.length (filter p xs).

(** The participation record of an evaluator: the first one whose
    [executive_id] is the evaluator's identifier. *)
Definition participation_info (participating : list DecisionParticipation)
    (e : ConsensusEvaluation) : option DecisionParticipation :=
  find (fun p => String.eqb (executive_id p) (evaluator_id e)) participating.

(** One turn of the weighting loop, on the pair of [weighted_agreements]
    and [total_weight]. *)
Definition weigh (participating : list DecisionParticipation)
    (acc : list Q * Q) (e : ConsensusEvaluation) : list Q * Q :=
  match participation_info participating e with
  | Some p =>
      let weight := expertise_relevance p * contribution_weight p in
      (fst acc ++ [agreement_level e * weight], snd acc + weight)
  | None => acc
  end.

Definition _calculate_support_metrics
    (evaluations : list ConsensusEvaluation)
    (participating_executives : list DecisionParticipation)
    : SupportMetrics :=
  match evaluations with
  | [] =>
      {| weighted_support := 0; unweighted_support := 0;
         participation_rate := 0;
         strong_support := 0; moderate_support := 0; neutral := 0;
         moderate_opposition := 0; strong_opposition := 0 |}
  | _ =>
      let strong_support :=
        count_where (fun e => Py.geb (agreement_level e) 0.8) evaluations in
      let moderate_support :=
        count_where (fun e => Py.leb 0.6 (agreement_level e)
                        && Py.ltb (agreement_level e) 0.8)%bool
          evaluations in
      let neutral :=
        count_where (fun e => Py.leb 0.4 (agreement_level e)
                        && Py.ltb (agreement_level e) 0.6)%bool
          evaluations in
      let moderate_opposition :=
        count_where (fun e => Py.leb 0.2 (agreement_level e)
                        && Py.ltb (agreement_level e) 0.4)%bool
          evaluations in
      let strong_opposition :=
        count_where (fun e => Py.ltb (agreement_level e) 0.2) evaluations in
      let total_evaluations := Py.len evaluations in
      let unweighted_support :=
        if Py.gtb total_evaluations 0
        then Py.sum (map agreement_level evaluations) / total_evaluations
        else 0 in
      let '(weighted_agreements, total_weight) :=
        fold_left (weigh participating_executives) evaluations ([], 0) in
      let weighted_support :=
        if Py.gtb total_weight 0
        then Py.sum weighted_agreements / total_weight
        else unweighted_support in
      let expected_participation := Py.len participating_executives in
      let participation_rate :=
        if Py.gtb expected_participation 0
        then total_evaluations / expected_participation
        else 1 in
      {| weighted_support := weighted_support;
         unweighted_support := unweighted_support;
         participation_rate := participation_rate;
         strong_support := strong_support;
         moderate_support := moderate_support;
         neutral := neutral;
         moderate_opposition := moderate_opposition;
         strong_opposition := strong_opposition |}
  end.

(** An entry of [concern_count]. *)
Record ConcernEntry : Type := {
  concern : string;
  count : nat;
  evaluators : list string
}.

(** The body of the inner loop over [evaluation.concerns]. *)
Definition note_concern (evaluator : string)
    (concern_count : Py.dict ConcernEntry) (c : string)
    : Py.dict ConcernEntry :=
  let concern_key := Py.lower c in
  match Py.get concern_count concern_key with
  | Some entry =>
      Py.set concern_count concern_key
        {| concern := concern entry;
           count := S (count entry);
           evaluators := evaluators entry ++ [evaluator] |}
  | None =>
      Py.set concern_count concern_key
        {| concern := c; count := 1; evaluators := [evaluator] |}
  end.

Definition count_concerns (evaluations : list ConsensusEvaluation)
    : Py.dict ConcernEntry :=
  fold_left
    (fun concern_count e =>
       fold_left (note_concern (evaluator_id e)) (concerns e) concern_count)
    evaluations [].

(** The dictionary that [_identify_conflicts] returns. *)
Record Conflicts : Type := {
  all_conflicts : list Conflict;
  critical_conflicts : list Conflict
}.

(** The body of the loop over [frequent_concerns], on the pair of
    [conflicts] and [critical_conflicts]. *)
Definition add_shared_concern (evaluations : list ConsensusEvaluation)
    (acc : list Conflict * list Conflict) (c : ConcernEntry)
    : list Conflict * list Conflict :=
  let conflict :=
    shared_concern (concern c) (evaluators c)
      (if Py.gtb (Py.float (count c)) (Py.len evaluations / 3)
       then medium else low) in
  (fst acc ++ [conflict],
   if Py.gtb (Py.float (count c)) (Py.len evaluations / 2)
   then snd acc ++ [conflict] else snd acc).

Definition supportive_of (evaluations : list ConsensusEvaluation)
    : list ConsensusEvaluation :=
  filter (fun e => Py.geb (agreement_level e) 0.7) evaluations.

Definition opposing_of (evaluations : list ConsensusEvaluation)
    : list ConsensusEvaluation :=
  filter (fun e => Py.leb (agreement_level e) 0.3) evaluations.

(** The polarization step: the conflict it appends to [conflicts] and to
    [critical_conflicts], if any. *)
Definition add_polarization (evaluations : list ConsensusEvaluation)
    (acc : list Conflict * list Conflict)
    : list Conflict * list Conflict :=
  let supportive := supportive_of evaluations in
  let opposing := opposing_of evaluations in
  match supportive, opposing with
  | _ :: _, _ :: _ =>
      let polarization_conflict :=
        polarized_opinion
          "Significant divide between supporting and opposing executives"
          (map evaluator_id supportive) (map evaluator_id opposing)
          (if (1 <? List.length supportive)%nat
              && (1 <? List.length opposing)%nat
           then high else medium)%bool in
      (fst acc ++ [polarization_conflict],
       if is_high (conflict_severity polarization_conflict)
       then snd acc ++ [polarization_conflict] else snd acc)
  | _, _ => acc
  end.

(** [role_groups]: the evaluations of each role, roles in order of first
    appearance. *)
Definition group_by_role (evaluations : list ConsensusEvaluation)
    : Py.dict (list ConsensusEvaluation) :=
  fold_left
    (fun role_groups e =>
       let role := evaluator_role e in
       let role_groups :=
         if negb (Py.contains role_groups role)
         then Py.set role_groups role [] else role_groups in
       Py.set role_groups role (Py.get_default role_groups role [] ++ [e]))
    evaluations [].

Definition avg_agreement (group : list ConsensusEvaluation) : Q :=
  Py.sum (map agreement_level group) / Py.len group.

Definition role_conflict (role1 role2 : string) (avg_agreement1
    avg_agreement2 : Q) : Conflict :=
  let supporting_role :=
    if Py.gtb avg_agreement1 avg_agreement2 then role1 else role2 in
  let opposing_role :=
    if Py.gtb avg_agreement1 avg_agreement2 then role2 else role1 in
  role_based
    ("Systematic disagreement between " ++ supporting_role ++ " and "
       ++ opposing_role ++ " roles")%string
    supporting_role opposing_role
    (Qabs (avg_agreement1 - avg_agreement2))
    (if Py.gtb (Qabs (avg_agreement1 - avg_agreement2)) 0.6
     then high else medium).

(** The two nested loops run over the keys of [role_groups]; here they run
    over its items, which pairs every key with [role_groups[key]]. *)
Definition _identify_role_conflicts (evaluations : list ConsensusEvaluation)
    : list Conflict :=
  let role_groups := group_by_role evaluations in
  if (1 <? List.length role_groups)%nat then
    flat_map
      (fun '(role1, group1) =>
         let avg_agreement1 := avg_agreement group1 in
         flat_map
           (fun '(role2, group2) =>
              if String.leb role2 role1 then []
              else
                let avg_agreement2 := avg_agreement group2 in
                if Py.gtb (Qabs (avg_agreement1 - avg_agreement2)) 0.4
                then [role_conflict role1 role2 avg_agreement1
                        avg_agreement2]
                else [])
           (Py.items role_groups))
      (Py.items role_groups)
  else [].

Definition _identify_conflicts (evaluations : list ConsensusEvaluation)
    : Conflicts :=
  if (List.length evaluations <? 2)%nat then
    {| all_conflicts := []; critical_conflicts := [] |}
  else
    let concern_count := count_concerns evaluations in
    let frequent_concerns :=
      filter (fun v => (1 <? count v)%nat) (Py.values concern_count) in
    let acc :=
      fold_left (add_shared_concern evaluations) frequent_concerns
        ([], []) in
    let acc := add_polarization evaluations acc in
    let role_conflicts := _identify_role_conflicts evaluations in
    {| all_conflicts := fst acc ++ role_conflicts;
       critical_conflicts :=
         snd acc
         ++ filter (fun c => is_high (conflict_severity c)) role_conflicts |}.

Definition _determine_consensus_level (support_percentage : Q)
    : ConsensusLevel :=
  if Py.geb support_percentage 0.9 then STRONG_CONSENSUS
  else if Py.geb support_percentage 0.75 then GENERAL_CONSENSUS
  else if Py.geb support_percentage 0.6 then MAJORITY_AGREEMENT
  else if Py.geb support_percentage 0.4 then DIVIDED_OPINION
  else STRONG_DISAGREEMENT.

Definition _create_consensus_outcome
    (recommendation : ExecutiveRecommendation)
    (support_metrics : SupportMetrics) (conflicts : Conflicts)
    (resolution_method_description : string) (modified : bool)
    (modification_summary : option string) : Py.exn + ConsensusOutcome :=
  let consensus_level :=
    _determine_consensus_level (weighted_support support_metrics) in
  new_ConsensusOutcome recommendation consensus_level
    (weighted_support support_metrics)
    [] [] []
    (critical_conflicts conflicts)
    resolution_method_description modified modification_summary.

(** [conflict_types]: how many conflicts there are of each type. *)
Definition count_types (conflicts : list Conflict) : Py.dict nat :=
  fold_left
    (fun conflict_types c =>
       let t := conflict_type c in
       match Py.get conflict_types t with
       | Some n => Py.set conflict_types t (S n)
       | None => Py.set conflict_types t 1%nat
       end)
    conflicts [].

Definition _select_resolution_method (conflicts : Conflicts)
    : ConflictResolutionMethod :=
  let conflict_types := count_types (all_conflicts conflicts) in
  if Py.gtb (Py.float (Py.get_default conflict_types "shared_concern" 0%nat))
       (Py.len (all_conflicts conflicts) / 2)
  then INTEGRATIVE
  else if (0 <? Py.get_default conflict_types "polarized_opinion" 0)%nat
  then STRUCTURED_DEBATE
  else if (0 <? Py.get_default conflict_types "role_based" 0)%nat
  then WEIGHTED_VOTING
  else EVIDENCE_BASED.

(** [weighted_concerns]: the summed weight of each concern text. *)
Definition weigh_concerns (evaluations : list ConsensusEvaluation)
    : Py.dict Q :=
  fold_left
    (fun weighted_concerns e =>
       let weight := expertise_level e * confidence e in
       fold_left
         (fun weighted_concerns c =>
            match Py.get weighted_concerns c with
            | Some w => Py.set weighted_concerns c (w + weight)
            | None => Py.set weighted_concerns c weight
            end)
         (concerns e) weighted_concerns)
    evaluations [].

(** [_apply_resolution_method] works on a deep copy of the recommendation
    and returns it; its [conflicts] and [context] arguments are unused. *)
Definition _apply_resolution_method (method : ConflictResolutionMethod)
    (recommendation : ExecutiveRecommendation)
    (evaluations : list ConsensusEvaluation) : ExecutiveRecommendation :=
  let modified_recommendation := recommendation in
  match method with
  | INTEGRATIVE =>
      let all_suggestions := flat_map suggestions evaluations in
      match all_suggestions with
      | [] => modified_recommendation
      | _ =>
          let modification_note :=
            ("Modified to address concerns: "
               ++ Py.join ", " (firstn 3 all_suggestions))%string in
          let modification_note :=
            if (3 <? List.length all_suggestions)%nat
            then (modification_note ++ " and "
                    ++ Py.str (List.length all_suggestions - 3)
                    ++ " more")%string
            else modification_note in
          with_analysis modified_recommendation "consensus_modifications"
            (ConsensusModifications all_suggestions modification_note)
      end
  | WEIGHTED_VOTING =>
      let weighted_concerns := weigh_concerns evaluations in
      let top_concerns :=
        firstn 2 (Py.sorted_desc snd (Py.items weighted_concerns)) in
      match top_concerns with
      | [] => modified_recommendation
      | _ =>
          with_analysis modified_recommendation
            "weighted_voting_adjustments"
            (WeightedVotingAdjustments (map fst top_concerns)
               "Recommendation adjusted to address highest-weighted concerns")
      end
  | STRUCTURED_DEBATE =>
      let supporting_args :=
        flat_map
          (fun e =>
             if Py.geb (agreement_level e) 0.7
             then supporting_arguments e else [])
          evaluations in
      let opposing_args :=
        flat_map
          (fun e =>
             if Py.geb (agreement_level e) 0.7 then []
             else if Py.leb (agreement_level e) 0.3 then concerns e
             else [])
          evaluations in
      with_analysis modified_recommendation "structured_debate_outcome"
        (StructuredDebateOutcome supporting_args opposing_args
           "Recommendation adjusted to acknowledge valid opposing points while maintaining core direction")
  | _ =>
      with_uncertainty modified_recommendation
        "Resolution requires additional evidence to address factual disagreements"
  end.

(** The table [method_effectiveness]; every method is a key of it, so the
    default of its [get] is never taken. *)
Definition method_effectiveness (m : ConflictResolutionMethod) : Q :=
  match m with
  | EVIDENCE_BASED => 0.15
  | WEIGHTED_VOTING => 0.20
  | DELPHI_METHOD => 0.25
  | COMPROMISE => 0.15
  | INTEGRATIVE => 0.30
  | ESCALATION => 0.05
  | STRUCTURED_DEBATE => 0.20
  | DIALECTICAL_INQUIRY => 0.25
  end.

Definition _estimate_new_support (current_support : Q)
    (conflicts : Conflicts) (resolution_method : ConflictResolutionMethod)
    : Q :=
  let base_improvement := method_effectiveness resolution_method in
  let critical_conflict_count := Py.len (critical_conflicts conflicts) in
  let conflict_penalty := Py.min (0.05 * critical_conflict_count) 0.15 in
  let new_support :=
    Py.min 0.95 (current_support + base_improvement - conflict_penalty) in
  Py.max current_support new_support.

Definition is_empty {A} (xs : list A) : bool :=
  match xs with [] => true | _ => false end.

(** [self.decision_history.append(consensus_outcome.model_dump())], when
    the outcome was built; an exception leaves the history as it is. *)
Definition record_outcome (result : Py.exn + ConsensusOutcome)
    (decision_history : list ConsensusOutcome)
    : (Py.exn + ConsensusOutcome) * list ConsensusOutcome :=
  match result with
  | inl e => (inl e, decision_history)
  | inr consensus_outcome =>
      (inr consensus_outcome, decision_history ++ [consensus_outcome])
  end.

(** [build_consensus]; the builder's [decision_history] goes in and comes
    out. The [decision_context] argument is only handed to
    [_apply_resolution_method], which ignores it. *)
Definition build_consensus (self : ConsensusBuilder)
    (recommendation : ExecutiveRecommendation)
    (executive_evaluations : list ConsensusEvaluation)
    (participating_executives : list DecisionParticipation)
    (decision_history : list ConsensusOutcome)
    : (Py.exn + ConsensusOutcome) * list ConsensusOutcome :=
  let support_metrics :=
    _calculate_support_metrics executive_evaluations
      participating_executives in
  let conflicts := _identify_conflicts executive_evaluations in
  if (Py.geb (weighted_support support_metrics) (consensus_threshold self)
      && is_empty (critical_conflicts conflicts))%bool
  then
    record_outcome
      (_create_consensus_outcome recommendation support_metrics conflicts
         "Direct consensus without conflict resolution" false None)
      decision_history
  else
    match all_conflicts conflicts with
    | _ :: _ =>
        let resolution_method := _select_resolution_method conflicts in
        let modified_recommendation :=
          _apply_resolution_method resolution_method recommendation
            executive_evaluations in
        let estimated_new_support :=
          _estimate_new_support (weighted_support support_metrics)
            conflicts resolution_method in
        record_outcome
          (new_ConsensusOutcome modified_recommendation
             (_determine_consensus_level estimated_new_support)
             estimated_new_support
             (map evaluator_id
                (filter (fun e => Py.gtb (agreement_level e) 0.6)
                   executive_evaluations))
             (map evaluator_id
                (filter (fun e => Py.ltb (agreement_level e) 0.4)
                   executive_evaluations))
             (map evaluator_id
                (filter
                   (fun e => Py.leb 0.4 (agreement_level e)
                             && Py.leb (agreement_level e) 0.6)%bool
                   executive_evaluations))
             (critical_conflicts conflicts)
             (ConflictResolutionMethod_value resolution_method)
             true
             (Some ("Recommendation modified using "
                      ++ ConflictResolutionMethod_value resolution_method
                      ++ " resolution")%string))
          decision_history
    | [] =>
        record_outcome
          (_create_consensus_outcome recommendation support_metrics
             conflicts
             "Insufficient consensus without specific conflicts" false None)
          decision_history
    end.

(** An entry of the list that [_identify_opinion_clusters] returns. *)
Record OpinionCluster : Type := {
  cluster_level : string;
  members : list string;
  cluster_avg_agreement : Q;
  size : nat
}.

(** One of the three [if len(group) >= 2: clusters.append(...)]. *)
Definition cluster_of (level : string) (group : list ConsensusEvaluation)
    : list OpinionCluster :=
  if (2 <=? List.length group)%nat then
    [{| cluster_level := level;
        members := map evaluator_id group;
        cluster_avg_agreement :=
          Py.sum (map agreement_level group) / Py.len group;
        size := List.length group |}]
  else [].

Definition _identify_opinion_clusters
    (evaluations : list ConsensusEvaluation) : list OpinionCluster :=
  if (List.length evaluations <? 3)%nat then []
  else
    let high_agreement :=
      filter (fun e => Py.geb (agreement_level e) 0.7) evaluations in
    let medium_agreement :=
      filter
        (fun e => Py.ltb 0.3 (agreement_level e)
                  && Py.ltb (agreement_level e) 0.7)%bool
        evaluations in
    let low_agreement :=
      filter (fun e => Py.leb (agreement_level e) 0.3) evaluations in
    cluster_of "high" high_agreement
    ++ cluster_of "medium" medium_agreement
    ++ cluster_of "low" low_agreement.

(** The table [category_keywords] of [_categorize_concerns]. *)
Definition category_keywords : Py.dict (list string) :=
  [("risk", ["risk"; "danger"; "threat"; "hazard"; "unsafe"]);
   ("ethics", ["ethics"; "moral"; "fair"; "unfair"; "values"; "principle"]);
   ("feasibility",
    ["feasible"; "practical"; "realistic"; "impossible"; "difficult"]);
   ("cost", ["cost"; "expense"; "budget"; "expensive"; "affordable"]);
   ("strategy",
    ["strategy"; "goal"; "mission"; "vision"; "objective"; "align"]);
   ("legal",
    ["legal"; "compliance"; "regulation"; "law"; "policy"; "governance"])].

(** The category of a concern: the first one with a keyword that occurs
    in the lowered concern, or ["other"]. *)
Definition category_of (c : string) : string :=
  let concern_lower := Py.lower c in
  match
    find
      (fun '(category, keywords) =>
         existsb (fun keyword => Py.in_str keyword concern_lower) keywords)
      (Py.items category_keywords)
  with
  | Some (category, _) => category
  | None => "other"
  end.

Definition _categorize_concerns (evaluations : list ConsensusEvaluation)
    : Py.dict nat :=
  let concern_categories :=
    [("risk", 0%nat); ("ethics", 0%nat); ("feasibility", 0%nat);
     ("cost", 0%nat); ("strategy", 0%nat); ("legal", 0%nat);
     ("other", 0%nat)] in
  fold_left
    (fun concern_categories e =>
       fold_left
         (fun concern_categories c =>
            let category := category_of c in
            Py.set concern_categories category
              (Py.get_default concern_categories category 0 + 1)%nat)
         (concerns e) concern_categories)
    evaluations concern_categories.

End Consensus.

(** ** [src/executive_team_orchestrator.py] *)

Module Orchestrator.
Import Executive Consensus.

(** [src/decision_frameworks/base_framework.py]. *)
Inductive UncertaintyType : Type :=
| STATISTICAL | SCENARIO | RECOGNIZED_IGNORANCE | TOTAL_IGNORANCE.

Inductive ComplexityLevel : Type :=
| SIMPLE | COMPLICATED | COMPLEX | CHAOTIC.

Definition is_statistical (u : UncertaintyType) : bool :=
  match u with STATISTICAL => true | _ => false end.

(** [DecisionRequest], without the free-form [context], [constraints] and
    [deadline], which the orchestrator only forwards to the executives. *)
Record DecisionRequest : Type := {
  query : string;
  required_domains : list string;
  urgency : Z;
  importance : Z;
  complexity_level : option ComplexityLevel;
  uncertainty_types : list UncertaintyType;
  decision_id : string
}.

Record ExecutiveTeamConfig : Type := {
  consensus_threshold : Q;
  min_executive_participation : Q;
  default_decision_framework : string;
  max_resolution_attempts : Z;
  human_escalation_threshold : Q;
  enable_veto : bool;
  log_decisions : bool;
  auto_select_framework : bool
}.

(** The [Field] constraints of [ExecutiveTeamConfig]. *)
Definition config_valid (c : ExecutiveTeamConfig) : bool :=
  (Py.unit_interval (consensus_threshold c)
   && Py.unit_interval (min_executive_participation c)
   && (1 <=? max_resolution_attempts c)%Z
   && Py.unit_interval (human_escalation_threshold c))%bool.

Definition new_ExecutiveTeamConfig (c : ExecutiveTeamConfig)
    : Py.exn + ExecutiveTeamConfig :=
  if config_valid c then inr c
  else inl (Py.ValidationError "ExecutiveTeamConfig" "").

(** The dictionary that [_check_for_vetos] returns. *)
Inductive VetoResult : Type :=
| NoVeto
| Veto (veto_executive veto_role veto_domain : string)
    (veto_agreement_level : Q) (veto_concerns : list string).

Definition veto_applied (r : VetoResult) : bool :=
  match r with NoVeto => false | Veto _ _ _ _ _ => true end.

(** The [decision_metrics] dictionary of a [DecisionOutcome]. *)
Record DecisionMetrics : Type := {
  metrics_resolution_attempts : Z;
  final_support_percentage : Q;
  metrics_veto_applied : bool;
  executive_count : nat;
  framework : string;
  lead_executive : string
}.

Record DecisionOutcome : Type := {
  outcome_decision_id : string;
  outcome_query : string;
  outcome_recommendation : ExecutiveRecommendation;
  consensus : ConsensusOutcome;
  participating_executives : list string;
  selected_framework : string;
  resolution_attempts : Z;
  decision_request : DecisionRequest;
  escalated_to_human : bool;
  decision_metrics : DecisionMetrics
}.

(** What [evaluate_recommendation] returns: a dictionary in which each of
    the keys that the orchestrator reads may be missing. *)
Record EvaluationResult : Type := {
  result_agreement_level : option Q;
  result_concerns : option (list string);
  result_suggestions : option (list string);
  result_supporting_arguments : option (list string);
  result_confidence : option Q
}.

Definition or_default {A} (o : option A) (default : A) : A :=
  match o with Some a => a | None => default end.

Section Team.

(** Whatever the executives read and write when they are called. *)
Variable World : Type.

(** A call of an executive's method: it may change the world, and it
    returns or raises. *)
Definition Effect (A : Type) : Type := World -> (Py.exn + A) * World.

(** [BaseExecutive]: the two attributes and the three abstract methods.
    [analyze] gets the request, from which the orchestrator derives the
    executive context. *)
Record BaseExecutive : Type := {
  name : string;
  role : string;
  analyze : DecisionRequest -> Effect ExecutiveRecommendation;
  evaluate_recommendation :
    ExecutiveRecommendation -> Effect EvaluationResult;
  integrate_feedback :
    ExecutiveRecommendation -> list ConsensusEvaluation ->
    Effect ExecutiveRecommendation
}.

Record TeamMember : Type := {
  executive : BaseExecutive;
  role_priority : Py.dict Z;
  veto_rights : list string;
  is_active : bool
}.

(** The attributes of the orchestrator that [make_decision] only reads.
    A framework is known by its [name]. *)
Record ExecutiveTeamOrchestrator : Type := {
  config : ExecutiveTeamConfig;
  executives : Py.dict TeamMember;
  frameworks : Py.dict string;
  consensus_builder : ConsensusBuilder
}.

Definition new_ExecutiveTeamOrchestrator (config : ExecutiveTeamConfig)
    : ExecutiveTeamOrchestrator :=
  {| config := config;
     executives := [];
     frameworks := [];
     consensus_builder :=
       {| Consensus.consensus_threshold := consensus_threshold config;
          min_participation := min_executive_participation config;
          automatic_resolution_threshold := 0.85 |} |}.

Definition with_executives (self : ExecutiveTeamOrchestrator)
    (executives : Py.dict TeamMember) : ExecutiveTeamOrchestrator :=
  {| config := config self;
     executives := executives;
     frameworks := frameworks self;
     consensus_builder := consensus_builder self |}.

Definition register_executive (self : ExecutiveTeamOrchestrator)
    (executive : BaseExecutive) (role_priority : Py.dict Z)
    (veto_rights : option (list string)) : ExecutiveTeamOrchestrator :=
  with_executives self
    (Py.set (executives self) (name executive)
       {| executive := executive;
          role_priority := role_priority;
          veto_rights := or_default veto_rights [];
          is_active := true |}).

Definition replace_space (c : ascii) : ascii :=
  if Ascii.eqb c " "%char then "_"%char else c.

Fixpoint framework_key (s : string) : string :=
  match s with
  | EmptyString => EmptyString
  | String c s' =>
      String (replace_space (Py.lower_ascii c)) (framework_key s')
  end.

Definition register_framework (self : ExecutiveTeamOrchestrator)
    (framework_name : string) : ExecutiveTeamOrchestrator :=
  {| config := config self;
     executives := executives self;
     frameworks :=
       Py.set (frameworks self) (framework_key framework_name)
         framework_name;
     consensus_builder := consensus_builder self |}.

Definition set_active (active : bool) (m : TeamMember) : TeamMember :=
  {| executive := executive m;
     role_priority := role_priority m;
     veto_rights := veto_rights m;
     is_active := active |}.

Definition deactivate_executive (self : ExecutiveTeamOrchestrator)
    (executive_name : string) : ExecutiveTeamOrchestrator * bool :=
  match Py.get (executives self) executive_name with
  | Some m =>
      (with_executives self
         (Py.set (executives self) executive_name (set_active false m)),
       true)
  | None => (self, false)
  end.

Definition reactivate_executive (self : ExecutiveTeamOrchestrator)
    (executive_name : string) : ExecutiveTeamOrchestrator * bool :=
  match Py.get (executives self) executive_name with
  | Some m =>
      (with_executives self
         (Py.set (executives self) executive_name (set_active true m)),
       true)
  | None => (self, false)
  end.

Definition get_active_executives (self : ExecutiveTeamOrchestrator)
    : list BaseExecutive :=
  map executive (filter is_active (Py.values (executives self))).

(** An entry of the list that [_select_relevant_executives] returns. *)
Record Selected : Type := {
  selected_executive : BaseExecutive;
  priority : Z
}.

(** The priority of a member for the requested domains; the maximum does
    not depend on the order in which the set of domains is visited. *)
Definition max_priority_of (domains : list string) (member : TeamMember)
    : Z :=
  fold_left
    (fun max_priority domain =>
       match Py.get (role_priority member) domain with
       | Some p => Z.max max_priority p
       | None => max_priority
       end)
    domains 0%Z.

Definition _select_relevant_executives (self : ExecutiveTeamOrchestrator)
    (request : DecisionRequest) : list Selected :=
  let domains := required_domains request in
  match domains with
  | [] =>
      map (fun member =>
             {| selected_executive := executive member;
                priority := 5 |})
        (filter is_active (Py.values (executives self)))
  | _ =>
      let selected :=
        flat_map
          (fun member =>
             if negb (is_active member) then []
             else
               let max_priority := max_priority_of domains member in
               if (0 <? max_priority)%Z
               then [{| selected_executive := executive member;
                        priority := max_priority |}]
               else [])
          (Py.values (executives self)) in
      let selected :=
        Py.sorted_desc (fun x => inject_Z (priority x)) selected in
      match selected with
      | [] =>
          match filter is_active (Py.values (executives self)) with
          | member :: _ =>
              [{| selected_executive := executive member;
                  priority := 1 |}]
          | [] => []
          end
      | _ => selected
      end
  end.

Definition _determine_lead_executive (selected_executives : list Selected)
    : Py.exn + BaseExecutive :=
  match selected_executives with
  | [] => inl (Py.ValueError "No executives available for this decision")
  | first :: _ => inr (selected_executive first)
  end.

Definition _select_decision_framework (self : ExecutiveTeamOrchestrator)
    (request : DecisionRequest) : string :=
  if negb (auto_select_framework (config self))
  then default_decision_framework (config self)
  else
    match complexity_level request with
    | Some SIMPLE => "eisenhower_matrix"
    | Some COMPLICATED => "kepner_tregoe"
    | Some COMPLEX => "cynefin"
    | Some CHAOTIC => "ooda"
    | None =>
        if (4 <=? urgency request)%Z then "ooda"
        else if (4 <=? importance request)%Z then "mcda"
        else if existsb is_statistical (uncertainty_types request)
        then "bayesian"
        else default_decision_framework (config self)
    end.

(** [self.frameworks.get(framework_name, next(iter(...values())))]: the
    default is evaluated first, and [next] raises [StopIteration] when no
    framework is registered. *)
Definition lookup_framework (self : ExecutiveTeamOrchestrator)
    (framework_name : string) : Py.exn + string :=
  match Py.values (frameworks self) with
  | [] => inl Py.StopIteration
  | first :: _ =>
      inr (Py.get_default (frameworks self) framework_name first)
  end.

Definition _create_participation_records
    (selected_executives : list Selected) (lead_executive : BaseExecutive)
    : list DecisionParticipation :=
  map
    (fun exec_info =>
       let executive := selected_executive exec_info in
       let participation_type :=
         if String.eqb (name executive) (name lead_executive)
         then "recommender" else "reviewer" in
       let contribution_weight :=
         Py.min 1 (inject_Z (priority exec_info) / 5) in
       let contribution_weight :=
         if String.eqb participation_type "recommender"
         then Py.max contribution_weight 0.8
         else contribution_weight in
       {| executive_id := name executive;
          executive_role := role executive;
          participation_type := participation_type;
          contribution_weight := contribution_weight;
          expertise_relevance := contribution_weight |})
    selected_executives.

(** The loop of [_check_for_vetos] over [self.executives.items()]. The
    list of which ["veto_domain"] takes element [0] is not empty where it is
    built, since [has_veto_authority] holds there. *)
Fixpoint veto_scan (recommendation_domains : list string)
    (evaluations : list ConsensusEvaluation)
    (members : list (string * TeamMember)) : VetoResult :=
  match members with
  | [] => NoVeto
  | (name_, member) :: members' =>
      if negb (is_active member)
      then veto_scan recommendation_domains evaluations members'
      else
        let has_veto_authority :=
          existsb (fun domain => Py.mem domain (veto_rights member))
            recommendation_domains in
        if negb has_veto_authority
        then veto_scan recommendation_domains evaluations members'
        else
          match
            find
              (fun evaluation =>
                 String.eqb (evaluator_id evaluation) name_
                 && Py.ltb (agreement_level evaluation) 0.2)%bool
              evaluations
          with
          | Some evaluation =>
              Veto name_ (role (executive member))
                (hd ""
                   (filter
                      (fun domain => Py.mem domain (veto_rights member))
                      recommendation_domains))
                (agreement_level evaluation) (concerns evaluation)
          | None => veto_scan recommendation_domains evaluations members'
          end
  end.

Definition _check_for_vetos (self : ExecutiveTeamOrchestrator)
    (consensus_outcome : ConsensusOutcome)
    (evaluations : list ConsensusEvaluation) : VetoResult :=
  if negb (enable_veto (config self)) then NoVeto
  else
    let recommendation_domains :=
      Py.keys
        (domain_specific_analyses (recommendation consensus_outcome)) in
    veto_scan recommendation_domains evaluations
      (Py.items (executives self)).

(** *** The stateful part: [make_decision] *)

(** What a decision run changes: the world of the executives, the
    [decision_history] of the consensus builder and the
    [decision_history] of the orchestrator. *)
Record State : Type := {
  world : World;
  consensus_history : list ConsensusOutcome;
  decision_history : list DecisionOutcome
}.

(** A run returns, raises, or is cut off when the fuel of the
    resolution loop runs out. *)
Inductive Run (A : Type) : Type :=
| Ok (a : A) (s : State)
| Raise (e : Py.exn) (s : State)
| Timeout.
Arguments Ok {A} a s.
Arguments Raise {A} e s.
Arguments Timeout {A}.

Definition M (A : Type) : Type := State -> Run A.

Definition ret {A} (a : A) : M A := fun s => Ok a s.

Definition bind {A B} (c : M A) (k : A -> M B) : M B :=
  fun s =>
    match c s with
    | Ok a s' => k a s'
    | Raise e s' => Raise e s'
    | Timeout => Timeout
    end.

Definition timeout {A} : M A := fun _ => Timeout.

(** A pure step that may raise. *)
Definition try {A} (r : Py.exn + A) : M A :=
  fun s => match r with inl e => Raise e s | inr a => Ok a s end.

(** A call of an executive's method. *)
Definition call {A} (f : Effect A) : M A :=
  fun s =>
    let '(r, w) := f (world s) in
    let s' := {| world := w;
                 consensus_history := consensus_history s;
                 decision_history := decision_history s |} in
    match r with inl e => Raise e s' | inr a => Ok a s' end.

Notation "x <- c ;; k" := (bind c (fun x => k))
  (at level 61, c at next level, right associativity).

(** The body of an [async def]: a [StopIteration] that leaves the body of a
    coroutine reaches the awaiting code as a [RuntimeError]. *)
Definition coroutine {A} (body : M A) : M A :=
  fun s =>
    match body s with
    | Raise Py.StopIteration s' =>
        Raise (Py.RuntimeError "coroutine raised StopIteration") s'
    | run => run
    end.

(** [self.consensus_builder.build_consensus(...)]. *)
Definition build_consensus_call (self : ExecutiveTeamOrchestrator)
    (recommendation : ExecutiveRecommendation)
    (evaluations : list ConsensusEvaluation)
    (participating_execs : list DecisionParticipation)
    : M ConsensusOutcome :=
  fun s =>
    let '(r, h) :=
      build_consensus (consensus_builder self) recommendation evaluations
        participating_execs (consensus_history s) in
    let s' := {| world := world s;
                 consensus_history := h;
                 decision_history := decision_history s |} in
    match r with inl e => Raise e s' | inr a => Ok a s' end.

Definition _get_executive_evaluation (executive : BaseExecutive)
    (recommendation : ExecutiveRecommendation) (priority : Z)
    : M ConsensusEvaluation :=
  coroutine
    (evaluation_result <-
       call (evaluate_recommendation executive recommendation) ;;
     let expertise_level := Py.min 1 (inject_Z priority / 5) in
     try
       (new_ConsensusEvaluation
          (title recommendation)
          (name executive)
          (role executive)
          (or_default (result_agreement_level evaluation_result) 0.5)
          (or_default (result_concerns evaluation_result) [])
          (or_default (result_suggestions evaluation_result) [])
          (or_default (result_supporting_arguments evaluation_result) [])
          expertise_level
          (or_default (result_confidence evaluation_result) 0.7))).

(** [asyncio.gather]: the results come in the order of the tasks; the
    tasks are run here in that order, and the first exception ends the
    gathering. *)
Fixpoint gather {A} (tasks : list (M A)) : M (list A) :=
  match tasks with
  | [] => ret []
  | task :: tasks' =>
      a <- task ;;
      rest <- gather tasks' ;;
      ret (a :: rest)
  end.

Definition _gather_evaluations (recommendation : ExecutiveRecommendation)
    (selected_executives : list Selected) (lead_executive : BaseExecutive)
    : M (list ConsensusEvaluation) :=
  let evaluation_tasks :=
    flat_map
      (fun exec_info =>
         let executive := selected_executive exec_info in
         if String.eqb (name executive) (name lead_executive) then []
         else [_get_executive_evaluation executive recommendation
                 (priority exec_info)])
      selected_executives in
  coroutine (gather evaluation_tasks).

(** The variables that the resolution loop of [make_decision] updates. *)
Record Round : Type := {
  evaluations : list ConsensusEvaluation;
  consensus_outcome : ConsensusOutcome;
  attempts : Z
}.

(** The condition of the [while] loop. *)
Definition needs_resolution (self : ExecutiveTeamOrchestrator)
    (r : Round) : bool :=
  (Py.mem (ConsensusLevel_value (consensus_level (consensus_outcome r)))
     ["divided_opinion"; "strong_disagreement"]
   && (attempts r <? max_resolution_attempts (config self))%Z)%bool.

(** The [while] loop; every turn costs one unit of fuel. *)
Fixpoint resolution_loop (fuel : nat) (self : ExecutiveTeamOrchestrator)
    (primary_recommendation : ExecutiveRecommendation)
    (selected_executives : list Selected) (lead_executive : BaseExecutive)
    (participating_execs : list DecisionParticipation) (r : Round)
    : M Round :=
  if needs_resolution self r then
    match fuel with
    | O => timeout
    | S fuel' =>
        updated_recommendation <-
          call (integrate_feedback lead_executive primary_recommendation
                  (evaluations r)) ;;
        evaluations' <-
          _gather_evaluations updated_recommendation selected_executives
            lead_executive ;;
        consensus_outcome' <-
          build_consensus_call self updated_recommendation evaluations'
            participating_execs ;;
        resolution_loop fuel' self primary_recommendation
          selected_executives lead_executive participating_execs
          {| evaluations := evaluations';
             consensus_outcome := consensus_outcome';
             attempts := (attempts r + 1)%Z |}
    end
  else ret r.

(** [self.decision_history.append(decision_outcome)]. *)
Definition log_decision (decision_outcome : DecisionOutcome) : M unit :=
  fun s =>
    Ok tt {| world := world s;
             consensus_history := consensus_history s;
             decision_history :=
               decision_history s ++ [decision_outcome] |}.

Definition make_decision (fuel : nat) (self : ExecutiveTeamOrchestrator)
    (request : DecisionRequest) : M DecisionOutcome :=
  coroutine
    (let selected_executives := _select_relevant_executives self request in
     let framework_name := _select_decision_framework self request in
     framework <- try (lookup_framework self framework_name) ;;
     lead_executive <- try (_determine_lead_executive selected_executives) ;;
     primary_recommendation <- call (analyze lead_executive request) ;;
     evaluations0 <-
       _gather_evaluations primary_recommendation selected_executives
         lead_executive ;;
     let participating_execs :=
       _create_participation_records selected_executives lead_executive in
     consensus_outcome0 <-
       build_consensus_call self primary_recommendation evaluations0
         participating_execs ;;
     final <-
       resolution_loop fuel self primary_recommendation selected_executives
         lead_executive participating_execs
         {| evaluations := evaluations0;
            consensus_outcome := consensus_outcome0;
            attempts := 1 |} ;;
     let final_outcome := consensus_outcome final in
     let human_escalated :=
       Py.ltb (support_percentage final_outcome)
         (human_escalation_threshold (config self)) in
     let veto_result :=
       _check_for_vetos self final_outcome (evaluations final) in
     let human_escalated :=
       if veto_applied veto_result then true else human_escalated in
     let decision_outcome :=
       {| outcome_decision_id := decision_id request;
          outcome_query := query request;
          outcome_recommendation := recommendation final_outcome;
          consensus := final_outcome;
          participating_executives :=
            map (fun e => name (selected_executive e)) selected_executives;
          selected_framework := framework;
          resolution_attempts := attempts final;
          decision_request := request;
          escalated_to_human := human_escalated;
          decision_metrics :=
            {| metrics_resolution_attempts := attempts final;
               final_support_percentage :=
                 support_percentage final_outcome;
               metrics_veto_applied := veto_applied veto_result;
               executive_count := List.length selected_executives;
               framework := framework;
               lead_executive := name lead_executive |} |} in
     if log_decisions (config self)
     then (_ <- log_decision decision_outcome ;; ret decision_outcome)
     else ret decision_outcome).

End Team.

(** Outside the section the world is inferred from the arguments. *)
Arguments name {World} _.
Arguments role {World} _.
Arguments analyze {World} _ _ _.
Arguments evaluate_recommendation {World} _ _ _.
Arguments integrate_feedback {World} _ _ _ _.
Arguments executive {World} _.
Arguments role_priority {World} _.
Arguments veto_rights {World} _.
Arguments is_active {World} _.
Arguments config {World} _.
Arguments executives {World} _.
Arguments frameworks {World} _.
Arguments consensus_builder {World} _.
Arguments register_executive {World} self executive role_priority veto_rights.
Arguments register_framework {World} self framework_name.
Arguments deactivate_executive {World} self executive_name.
Arguments reactivate_executive {World} self executive_name.
Arguments get_active_executives {World} self.
Arguments selected_executive {World} _.
Arguments priority {World} _.
Arguments Build_Selected {World} _ _.
Arguments max_priority_of {World} domains member.
Arguments _select_relevant_executives {World} self request.
Arguments _determine_lead_executive {World} selected_executives.
Arguments _select_decision_framework {World} self request.
Arguments lookup_framework {World} self framework_name.
Arguments _create_participation_records {World} selected_executives
  lead_executive.
Arguments veto_scan {World} recommendation_domains evaluations members.
Arguments _check_for_vetos {World} self consensus_outcome evaluations.
Arguments world {World} _.
Arguments consensus_history {World} _.
Arguments decision_history {World} _.
Arguments Ok {World A} a s.
Arguments Raise {World A} e s.
Arguments Timeout {World A}.
Arguments ret {World A} a _.
Arguments bind {World A B} c k _.
Arguments try {World A} r _.
Arguments call {World A} f _.
Arguments coroutine {World A} body _.
Arguments build_consensus_call {World} self recommendation evaluations
  participating_execs _.
Arguments _get_executive_evaluation {World} executive recommendation
  priority _.
Arguments gather {World A} tasks _.
Arguments _gather_evaluations {World} recommendation selected_executives
  lead_executive _.
Arguments needs_resolution {World} self r.
Arguments resolution_loop {World} fuel self primary_recommendation
  selected_executives lead_executive participating_execs r _.
Arguments log_decision {World} decision_outcome _.
Arguments make_decision {World} fuel self request _.
Arguments set_active {World} active m.
Arguments with_executives {World} self executives.

(** [_calculate_framework_usage], on the orchestrator's
    [decision_history]. *)
Definition _calculate_framework_usage (decision_history : list DecisionOutcome)
    : Py.dict nat :=
  fold_left
    (fun framework_counts decision =>
       let framework := selected_framework decision in
       match Py.get framework_counts framework with
       | Some n => Py.set framework_counts framework (S n)
       | None => Py.set framework_counts framework 1%nat
       end)
    decision_history [].

End Orchestrator.

(** ** A small team, for running the model on concrete inputs *)

Module Boardroom.
Import Executive Consensus Orchestrator.

(** A recommendation that carries a ["risk"] analysis. *)
Definition proposal : ExecutiveRecommendation :=
  {| title := "Expand";
     summary := "Enter the new market";
     domain_specific_analyses := [("risk", ProposerAnalysis "exposure")];
     uncertainty_factors := [] |}.

(** An executive whose methods ignore the world: it proposes [proposal],
    leaves a recommendation as it is when asked to integrate feedback, and
    always reports the same agreement level. *)
Definition steady (name role : string) (agreement : Q)
    : BaseExecutive unit :=
  {| name := name;
     role := role;
     analyze := fun _ w => (inr proposal, w);
     evaluate_recommendation :=
       fun _ w =>
         (inr {| result_agreement_level := Some agreement;
                 result_concerns := None;
                 result_suggestions := None;
                 result_supporting_arguments := None;
                 result_confidence := None |}, w);
     integrate_feedback := fun r _ w => (inr r, w) |}.

Definition default_config : ExecutiveTeamConfig :=
  {| consensus_threshold := 0.7;
     min_executive_participation := 0.6;
     default_decision_framework := "bayesian";
     max_resolution_attempts := 3;
     human_escalation_threshold := 0.3;
     enable_veto := true;
     log_decisions := true;
     auto_select_framework := true |}.

Definition empty_team : ExecutiveTeamOrchestrator unit :=
  register_framework (new_ExecutiveTeamOrchestrator unit default_config)
    "Bayesian".

(** A strategist leads; the risk officer holds a veto on ["risk"] and
    rates every proposal [0.1]; two more reviewers are in favour. *)
Definition board : ExecutiveTeamOrchestrator unit :=
  register_executive
    (register_executive
       (register_executive
          (register_executive empty_team
             (steady "cso" "strategy" 0.9) [("growth", 5%Z)] None)
          (steady "cro" "risk" 0.1) [("growth", 3%Z)] (Some ["risk"]))
       (steady "cfo" "finance" 0.9) [("growth", 4%Z)] None)
    (steady "coo" "operations" 0.9) [("growth", 2%Z)] None.

(** A team of one. *)
Definition solo : ExecutiveTeamOrchestrator unit :=
  register_executive empty_team
    (steady "cso" "strategy" 0.9) [("growth", 5%Z)] None.

Definition request : DecisionRequest :=
  {| query := "Enter the new market?";
     required_domains := ["growth"];
     urgency := 1;
     importance := 1;
     complexity_level := None;
     uncertainty_types := [];
     decision_id := "d-1" |}.

Definition start : State unit :=
  {| world := tt; consensus_history := []; decision_history := [] |}.

Definition review (id role : string) (agreement : Q) : ConsensusEvaluation :=
  {| recommendation_id := "Expand";
     evaluator_id := id;
     evaluator_role := role;
     agreement_level := agreement;
     concerns := [];
     suggestions := [];
     supporting_arguments := [];
     expertise_level := 1;
     confidence := 0.7 |}.

Definition builder : ConsensusBuilder :=
  {| Consensus.consensus_threshold := 0.7;
     min_participation := 0.5;
     automatic_resolution_threshold := 0.85 |}.

(** A consensus outcome on [proposal] with a comfortable support. *)
Definition approved : ConsensusOutcome :=
  {| recommendation := proposal;
     consensus_level := GENERAL_CONSENSUS;
     support_percentage := 0.8;
     supporting_executives := ["cfo"; "coo"];
     opposing_executives := ["cro"];
     abstaining_executives := [];
     key_conflicts := [];
     resolution_method := "structured_debate";
     modified_from_original := true;
     modification_summary := None |}.

(** The registry entry of the risk officer in [board]. *)
Definition risk_officer : TeamMember unit :=
  {| executive := steady "cro" "risk" 0.1;
     role_priority := [("growth", 3%Z)];
     veto_rights := ["risk"];
     is_active := true |}.

End Boardroom.

(** ** Vocabulary of the statements *)

Module Reference.
Import Executive Consensus.

(** The consensus levels in increasing order of agreement. *)
Definition level_rank (l : ConsensusLevel) : nat :=
  match l with
  | STRONG_DISAGREEMENT => 0
  | DIVIDED_OPINION => 1
  | MAJORITY_AGREEMENT => 2
  | GENERAL_CONSENSUS => 3
  | STRONG_CONSENSUS => 4
  end.

(** The three kinds of conflict. *)
Definition is_shared_concern (c : Conflict) : bool :=
  match c with shared_concern _ _ _ => true | _ => false end.

Definition is_polarized_opinion (c : Conflict) : bool :=
  match c with polarized_opinion _ _ _ _ => true | _ => false end.

Definition is_role_based (c : Conflict) : bool :=
  match c with role_based _ _ _ _ _ => true | _ => false end.


(** A step of a decision run that is not a consensus round: it ends, and
    it leaves the history of the consensus builder as it is. *)
Definition quiet {World A : Type} (c : Orchestrator.M World A) : Prop :=
  forall s,
    match c s with
    | Orchestrator.Ok _ s' | Orchestrator.Raise _ s' =>
        Orchestrator.consensus_history s' = Orchestrator.consensus_history s
    | Orchestrator.Timeout => False
    end.

(** The levels at which the resolution loop asks for another round. *)
Definition unsettled (outcome : ConsensusOutcome) : Prop :=
  consensus_level outcome = DIVIDED_OPINION
  \/ consensus_level outcome = STRONG_DISAGREEMENT.

(** The round's outcome is the last one that the builder recorded. *)
Definition recorded {World : Type} (r : Orchestrator.Round)
    (s : Orchestrator.State World) : Prop :=
  exists earlier,
    Orchestrator.consensus_history s
    = earlier ++ [Orchestrator.consensus_outcome r].

(** The last round of a decision run: the lead proposes, the others
    evaluate, the builder builds a first consensus, and the resolution loop
    ends on the round [final]. *)
Definition final_round {World : Type} (fuel : nat)
    (self : Orchestrator.ExecutiveTeamOrchestrator World)
    (request : Orchestrator.DecisionRequest) (s : Orchestrator.State World)
    (final : Orchestrator.Round)
    (after : Orchestrator.State World) : Prop :=
  let selected := Orchestrator._select_relevant_executives self request in
  exists lead primary s1 evaluations0 s2 outcome0 s3,
    Orchestrator._determine_lead_executive selected = inr lead
    /\ Orchestrator.call (Orchestrator.analyze lead request) s
       = Orchestrator.Ok primary s1
    /\ Orchestrator._gather_evaluations primary selected lead s1
       = Orchestrator.Ok evaluations0 s2
    /\ Orchestrator.build_consensus_call self primary evaluations0
         (Orchestrator._create_participation_records selected lead) s2
       = Orchestrator.Ok outcome0 s3
    /\ Orchestrator.resolution_loop fuel self primary selected lead
         (Orchestrator._create_participation_records selected lead)
         {| Orchestrator.evaluations := evaluations0;
            Orchestrator.consensus_outcome := outcome0;
            Orchestrator.attempts := 1 |} s3
       = Orchestrator.Ok final after.

(** The reviewers: the selected executives whose name is not the lead's. *)
Definition reviewers {World : Type}
    (selected : list (Orchestrator.Selected World))
    (lead : Orchestrator.BaseExecutive World)
    : list (Orchestrator.Selected World) :=
  filter
    (fun exec_info =>
       negb
         (String.eqb
            (Orchestrator.name (Orchestrator.selected_executive exec_info))
            (Orchestrator.name lead)))
    selected.

(** What holds of a critical conflict: a shared concern among them has
    medium severity, any other conflict has high severity. *)
Definition critical_severity (c : Conflict) : Prop :=
  match c with
  | shared_concern _ _ s => s = medium
  | _ => conflict_severity c = high
  end.

(** A shared concern was mentioned at least twice: it lists at least two
    affected executives (the same one twice when one evaluator repeats a
    concern). *)
Definition mentioned_twice (c : Conflict) : Prop :=
  match c with
  | shared_concern _ affected _ => (2 <= List.length affected)%nat
  | _ => True
  end.

(** A role-based conflict opposes two different roles of the evaluators,
    more than 0.4 apart, and is high exactly above 0.6. *)
Definition opposes_roles (evaluations : list ConsensusEvaluation)
    (c : Conflict) : Prop :=
  match c with
  | role_based _ supporting_role opposing_role difference severity =>
      supporting_role <> opposing_role
      /\ In supporting_role (map evaluator_role evaluations)
      /\ In opposing_role (map evaluator_role evaluations)
      /\ 0.4 < difference
      /\ (severity = high <-> 0.6 < difference)
  | _ => False
  end.

(** The keys under which conflict resolution stores its annotations. *)
Definition annotation_keys : list string :=
  ["consensus_modifications"; "weighted_voting_adjustments";
   "structured_debate_outcome"].

(** [revised] is [original] with annotations added: the same title and
    summary, every analysis key still there, every analysis outside the
    annotation keys untouched, and the uncertainty factors extended. *)
Definition annotates (original revised : ExecutiveRecommendation) : Prop :=
  title revised = title original
  /\ summary revised = summary original
  /\ incl (Py.keys (domain_specific_analyses original))
       (Py.keys (domain_specific_analyses revised))
  /\ (forall k,
        ~ In k annotation_keys ->
        Py.get (domain_specific_analyses revised) k
        = Py.get (domain_specific_analyses original) k)
  /\ (exists notes,
        uncertainty_factors revised = uncertainty_factors original ++ notes).

(** The band of agreement levels that a cluster level stands for. *)
Definition in_band (level : string) (agreement : Q) : Prop :=
  (level = "high" /\ 0.7 <= agreement)
  \/ (level = "medium" /\ 0.3 < agreement < 0.7)
  \/ (level = "low" /\ agreement <= 0.3).

(** A cluster has at least two members, as many as its size, and its
    members are the evaluators whose agreement level is in the band of its
    level. *)
Definition cluster_in_band (evaluations : list ConsensusEvaluation)
    (c : OpinionCluster) : Prop :=
  (2 <= size c)%nat
  /\ List.length (members c) = size c
  /\ (forall evaluator,
        In evaluator (members c) <->
        exists e,
          In e evaluations
          /\ evaluator_id e = evaluator
          /\ in_band (cluster_level c) (agreement_level e)).

(** The seven categories of concerns, in the order of the source. *)
Definition concern_category_names : list string :=
  ["risk"; "ethics"; "feasibility"; "cost"; "strategy"; "legal"; "other"].

(** The registry of the orchestrator is keyed by the names of the
    executives, each name once. *)
Definition registry_wf {World : Type}
    (executives : Py.dict (Orchestrator.TeamMember World)) : Prop :=
  NoDup (Py.keys executives)
  /\ Forall
       (fun entry =>
          Orchestrator.name (Orchestrator.executive (snd entry)) = fst entry)
       executives.

(** A step of a decision run that leaves the decision history of the
    orchestrator as it is. *)
Definition keeps_log {World A : Type} (c : Orchestrator.M World A) : Prop :=
  forall s,
    match c s with
    | Orchestrator.Ok _ s' | Orchestrator.Raise _ s' =>
        Orchestrator.decision_history s' = Orchestrator.decision_history s
    | Orchestrator.Timeout => True
    end.

(** A list in non-increasing order of a key. *)
Definition descending {A : Type} (key : A -> Q) (xs : list A) : Prop :=
  StronglySorted (fun a b => key b <= key a) xs.

(** A selected executive is the executive of an active member of the
    registry, with a priority of at least one. *)
Definition selected_from {World : Type}
    (self : Orchestrator.ExecutiveTeamOrchestrator World)
    (x : Orchestrator.Selected World) : Prop :=
  (exists m,
     In m (Py.values (Orchestrator.executives self))
     /\ Orchestrator.is_active m = true
     /\ Orchestrator.selected_executive x = Orchestrator.executive m)
  /\ (1 <= Orchestrator.priority x)%Z.

(** A participation record as the orchestrator builds them. *)
Definition sound_participation (p : DecisionParticipation) : Prop :=
  0.2 <= contribution_weight p <= 1
  /\ expertise_relevance p = contribution_weight p
  /\ ((participation_type p = "recommender" /\ 0.8 <= contribution_weight p)
      \/ participation_type p = "reviewer").


(** The grounds of a veto: an active member registered under the vetoing
    name, with a veto right on a domain of the recommendation and an
    evaluation below 0.2 whose agreement level and concerns the veto
    reports. *)
Definition veto_grounds {World : Type}
    (self : Orchestrator.ExecutiveTeamOrchestrator World)
    (outcome : ConsensusOutcome) (evaluations : list ConsensusEvaluation)
    (veto : Orchestrator.VetoResult) : Prop :=
  match veto with
  | Orchestrator.NoVeto => True
  | Orchestrator.Veto who role_ domain agreement concerns_ =>
      exists member evaluation,
        In (who, member) (Py.items (Orchestrator.executives self))
        /\ Orchestrator.is_active member = true
        /\ role_ = Orchestrator.role (Orchestrator.executive member)
        /\ In domain
             (Py.keys (domain_specific_analyses (recommendation outcome)))
        /\ In domain (Orchestrator.veto_rights member)
        /\ In evaluation evaluations
        /\ evaluator_id evaluation = who
        /\ agreement = agreement_level evaluation
        /\ agreement < 0.2
        /\ concerns_ = concerns evaluation
  end.

End Reference.

(** * Properties *)

(** ** The comparisons and the folds of the model *)

Module PyFacts.

Lemma geb_true (x y : Q) : Py.geb x y = true <-> y <= x.
Proof. unfold Py.geb. apply Qle_bool_iff. Qed.

Lemma leb_true (x y : Q) : Py.leb x y = true <-> x <= y.
Proof. unfold Py.leb. apply Qle_bool_iff. Qed.

Lemma ltb_true (x y : Q) : Py.ltb x y = true <-> x < y.
Proof.
  unfold Py.ltb. rewrite negb_true_iff, <- not_true_iff_false, Qle_bool_iff.
  split; [apply Qnot_le_lt | apply Qlt_not_le].
Qed.

Lemma gtb_true (x y : Q) : Py.gtb x y = true <-> y < x.
Proof.
  unfold Py.gtb. rewrite negb_true_iff, <- not_true_iff_false, Qle_bool_iff.
  split; [apply Qnot_le_lt | apply Qlt_not_le].
Qed.

Lemma geb_false (x y : Q) : Py.geb x y = false <-> x < y.
Proof.
  rewrite <- not_true_iff_false, geb_true.
  split; [apply Qnot_le_lt | apply Qlt_not_le].
Qed.

Lemma leb_false (x y : Q) : Py.leb x y = false <-> y < x.
Proof.
  rewrite <- not_true_iff_false, leb_true.
  split; [apply Qnot_le_lt | apply Qlt_not_le].
Qed.

Lemma ltb_false (x y : Q) : Py.ltb x y = false <-> y <= x.
Proof.
  rewrite <- not_true_iff_false, ltb_true.
  split; [apply Qnot_lt_le | apply Qle_not_lt].
Qed.

Lemma gtb_false (x y : Q) : Py.gtb x y = false <-> x <= y.
Proof.
  rewrite <- not_true_iff_false, gtb_true.
  split; [apply Qnot_lt_le | apply Qle_not_lt].
Qed.

(** Case analysis on a comparison, with the order fact in the context. *)
Ltac by_cases_on c :=
  let E := fresh "E" in
  destruct c eqn:E;
  [ first [ apply geb_true in E | apply leb_true in E
          | apply ltb_true in E | apply gtb_true in E ]
  | first [ apply geb_false in E | apply leb_false in E
          | apply ltb_false in E | apply gtb_false in E ] ].

Lemma unit_interval_true (x : Q) :
  Py.unit_interval x = true <-> 0 <= x <= 1.
Proof.
  unfold Py.unit_interval. rewrite andb_true_iff, geb_true, leb_true.
  tauto.
Qed.

(** Python's [min] and [max] are the minimum and the maximum. *)
Lemma min_is_Qmin (a b : Q) : Py.min a b == Qmin a b.
Proof.
  unfold Py.min. by_cases_on (Py.ltb b a).
  - symmetry. apply Q.min_r. apply Qlt_le_weak, E.
  - symmetry. apply Q.min_l. exact E.
Qed.

Lemma max_is_Qmax (a b : Q) : Py.max a b == Qmax a b.
Proof.
  unfold Py.max. by_cases_on (Py.gtb b a).
  - symmetry. apply Q.max_r. apply Qlt_le_weak, E.
  - symmetry. apply Q.max_l. exact E.
Qed.

Lemma max_ge_l (a b : Q) : a <= Py.max a b.
Proof.
  unfold Py.max. by_cases_on (Py.gtb b a); lra.
Qed.

Lemma min_le_l (a b : Q) : Py.min a b <= a.
Proof.
  unfold Py.min. by_cases_on (Py.ltb b a); lra.
Qed.

Lemma min_le_r (a b : Q) : Py.min a b <= b.
Proof.
  unfold Py.min. by_cases_on (Py.ltb b a); lra.
Qed.

Lemma min_glb (a b c : Q) : c <= a -> c <= b -> c <= Py.min a b.
Proof.
  intros. unfold Py.min. destruct (Py.ltb b a); assumption.
Qed.

Lemma max_lub (a b c : Q) : a <= c -> b <= c -> Py.max a b <= c.
Proof.
  intros. unfold Py.max. destruct (Py.gtb b a); assumption.
Qed.




(** Division by a positive number, cleared from an inequality. *)
Lemma div_lt (a b c : Q) : 0 < c -> (a / c < b <-> a < b * c).
Proof.
  intro Hc. split; intro H.
  - assert (E : a == a / c * c) by (field; lra).
    rewrite E. apply Qmult_lt_compat_r; assumption.
  - apply Qlt_shift_div_r; assumption.
Qed.

Lemma div_le (a b c : Q) : 0 < c -> (a / c <= b <-> a <= b * c).
Proof.
  intro Hc. split; intro H.
  - assert (E : a == a / c * c) by (field; lra).
    rewrite E. apply Qmult_le_compat_r; [assumption | lra].
  - apply Qle_shift_div_r; assumption.
Qed.

Lemma le_div (a b c : Q) : 0 < c -> (b <= a / c <-> b * c <= a).
Proof.
  intro Hc. split; intro H.
  - assert (E : a == a / c * c) by (field; lra).
    rewrite E. apply Qmult_le_compat_r; [assumption | lra].
  - apply Qle_shift_div_l; assumption.
Qed.

Lemma float_nonneg (n : nat) : 0 <= Py.float n.
Proof.
  unfold Py.float. change 0 with (inject_Z 0). rewrite <- Zle_Qle. lia.
Qed.


Lemma float_le (n m : nat) : (n <= m)%nat <-> Py.float n <= Py.float m.
Proof.
  unfold Py.float. rewrite <- Zle_Qle. lia.
Qed.

Lemma float_lt (n m : nat) : (n < m)%nat <-> Py.float n < Py.float m.
Proof.
  unfold Py.float. rewrite <- Zlt_Qlt. lia.
Qed.

End PyFacts.

(** ** The consensus builder *)

Module ConsensusFacts.
Import Executive Consensus Reference PyFacts.

(** *** The consensus level *)

Lemma level_strong_consensus (s : Q) :
  0.9 <= s -> _determine_consensus_level s = STRONG_CONSENSUS.
Proof.
  intro H. unfold _determine_consensus_level.
  by_cases_on (Py.geb s 0.9); [reflexivity | lra].
Qed.

Lemma level_general_consensus (s : Q) :
  0.75 <= s < 0.9 -> _determine_consensus_level s = GENERAL_CONSENSUS.
Proof.
  intro H. unfold _determine_consensus_level.
  by_cases_on (Py.geb s 0.9); [lra |].
  by_cases_on (Py.geb s 0.75); [reflexivity | lra].
Qed.

Lemma level_majority_agreement (s : Q) :
  0.6 <= s < 0.75 -> _determine_consensus_level s = MAJORITY_AGREEMENT.
Proof.
  intro H. unfold _determine_consensus_level.
  by_cases_on (Py.geb s 0.9); [lra |].
  by_cases_on (Py.geb s 0.75); [lra |].
  by_cases_on (Py.geb s 0.6); [reflexivity | lra].
Qed.

Lemma level_divided_opinion (s : Q) :
  0.4 <= s < 0.6 -> _determine_consensus_level s = DIVIDED_OPINION.
Proof.
  intro H. unfold _determine_consensus_level.
  by_cases_on (Py.geb s 0.9); [lra |].
  by_cases_on (Py.geb s 0.75); [lra |].
  by_cases_on (Py.geb s 0.6); [lra |].
  by_cases_on (Py.geb s 0.4); [reflexivity | lra].
Qed.

Lemma level_strong_disagreement (s : Q) :
  s < 0.4 -> _determine_consensus_level s = STRONG_DISAGREEMENT.
Proof.
  intro H. unfold _determine_consensus_level.
  by_cases_on (Py.geb s 0.9); [lra |].
  by_cases_on (Py.geb s 0.75); [lra |].
  by_cases_on (Py.geb s 0.6); [lra |].
  by_cases_on (Py.geb s 0.4); [lra | reflexivity].
Qed.

(** The band of support in which each level lies. *)
Lemma level_band (s : Q) :
  match _determine_consensus_level s with
  | STRONG_CONSENSUS => 0.9 <= s
  | GENERAL_CONSENSUS => 0.75 <= s < 0.9
  | MAJORITY_AGREEMENT => 0.6 <= s < 0.75
  | DIVIDED_OPINION => 0.4 <= s < 0.6
  | STRONG_DISAGREEMENT => s < 0.4
  end.
Proof.
  unfold _determine_consensus_level.
  by_cases_on (Py.geb s 0.9); [assumption |].
  by_cases_on (Py.geb s 0.75); [split; assumption |].
  by_cases_on (Py.geb s 0.6); [split; assumption |].
  by_cases_on (Py.geb s 0.4); [split; assumption | assumption].
Qed.

(** C4. The consensus level is a function of the support percentage alone,
    fixed by the thresholds 0.9, 0.75, 0.6 and 0.4: strong consensus from
    0.9, general consensus from 0.75, majority agreement from 0.6, divided
    opinion from 0.4 and strong disagreement below; and a larger support
    never gives a lower level. *)
Theorem consensus_level_thresholds_monotone :
  (forall s : Q,
     (0.9 <= s -> _determine_consensus_level s = STRONG_CONSENSUS)
     /\ (0.75 <= s < 0.9 ->
         _determine_consensus_level s = GENERAL_CONSENSUS)
     /\ (0.6 <= s < 0.75 ->
         _determine_consensus_level s = MAJORITY_AGREEMENT)
     /\ (0.4 <= s < 0.6 -> _determine_consensus_level s = DIVIDED_OPINION)
     /\ (s < 0.4 -> _determine_consensus_level s = STRONG_DISAGREEMENT))
  /\ (forall s1 s2 : Q,
        s1 <= s2 ->
        (level_rank (_determine_consensus_level s1)
         <= level_rank (_determine_consensus_level s2))%nat).
Proof.
  split.
  - intro s.
    repeat split;
      auto using level_strong_consensus, level_general_consensus,
        level_majority_agreement, level_divided_opinion,
        level_strong_disagreement.
  - intros s1 s2 Hle.
    pose proof (level_band s1) as B1. pose proof (level_band s2) as B2.
    destruct (_determine_consensus_level s1), (_determine_consensus_level s2);
      simpl; try lia; exfalso; lra.
Qed.

Lemma consensus_level_thresholds_monotone_witness :
  _determine_consensus_level 0.8 = GENERAL_CONSENSUS
  /\ (level_rank (_determine_consensus_level 0.5)
      <= level_rank (_determine_consensus_level 0.8))%nat.
Proof.
  split.
  - apply (proj1 consensus_level_thresholds_monotone 0.8). lra.
  - apply (proj2 consensus_level_thresholds_monotone 0.5 0.8). lra.
Defined.

(** *** The estimate of the support after a resolution *)

(** C5. The estimated new support is the current support plus the
    effectiveness of the method minus the penalty
    [min (0.05 * critical conflicts) 0.15], capped at 0.95 and then floored
    at the current support; the effectiveness constants are those of the
    table; so the estimate is never below the current support. *)
Theorem estimate_new_support_formula (current_support : Q)
    (conflicts : Conflicts) (m : ConflictResolutionMethod) :
  _estimate_new_support current_support conflicts m
  == Qmax current_support
       (Qmin 0.95
          (current_support + method_effectiveness m
           - Qmin (0.05 * Py.len (critical_conflicts conflicts)) 0.15))
  /\ (method_effectiveness EVIDENCE_BASED = 0.15
      /\ method_effectiveness WEIGHTED_VOTING = 0.20
      /\ method_effectiveness DELPHI_METHOD = 0.25
      /\ method_effectiveness COMPROMISE = 0.15
      /\ method_effectiveness INTEGRATIVE = 0.30
      /\ method_effectiveness ESCALATION = 0.05
      /\ method_effectiveness STRUCTURED_DEBATE = 0.20
      /\ method_effectiveness DIALECTICAL_INQUIRY = 0.25)
  /\ current_support <= _estimate_new_support current_support conflicts m.
Proof.
  split; [| split].
  - unfold _estimate_new_support.
    rewrite max_is_Qmax, min_is_Qmin.
    rewrite (min_is_Qmin (0.05 * _) 0.15). reflexivity.
  - repeat split.
  - unfold _estimate_new_support. apply max_ge_l.
Qed.

(** *** The choice of the resolution method *)

Lemma get_set_same {V} (d : Py.dict V) (k : string) (v : V) :
  Py.get (Py.set d k v) k = Some v.
Proof.
  induction d as [|[k' v'] d IH]; simpl.
  - now rewrite String.eqb_refl.
  - destruct (String.eqb k' k) eqn:E; simpl; rewrite E; auto.
Qed.

Lemma get_set_other {V} (d : Py.dict V) (k k2 : string) (v : V) :
  k <> k2 -> Py.get (Py.set d k v) k2 = Py.get d k2.
Proof.
  intro Hne. induction d as [|[k' v'] d IH]; simpl.
  - destruct (String.eqb k k2) eqn:E; [| reflexivity].
    apply String.eqb_eq in E. contradiction.
  - destruct (String.eqb k' k) eqn:E; simpl.
    + apply String.eqb_eq in E. subst k'.
      destruct (String.eqb k k2) eqn:E2; [| reflexivity].
      apply String.eqb_eq in E2. contradiction.
    + destruct (String.eqb k' k2); auto.
Qed.

(** The counting loop counts: the entry of a type is the number of
    conflicts of that type. *)
Lemma count_types_step (conflicts : list Conflict) (types : Py.dict nat)
    (k : string) :
  Py.get_default
    (fold_left
       (fun conflict_types c =>
          let t := conflict_type c in
          match Py.get conflict_types t with
          | Some n => Py.set conflict_types t (S n)
          | None => Py.set conflict_types t 1%nat
          end)
       conflicts types) k 0%nat
  = (Py.get_default types k 0
     + count_where (fun c => String.eqb (conflict_type c) k) conflicts)%nat.
Proof.
  revert types. induction conflicts as [|c cs IH]; intro types; simpl.
  - unfold count_where. simpl. lia.
  - rewrite IH. unfold count_where. simpl.
    destruct (String.eqb (conflict_type c) k) eqn:E.
    + apply String.eqb_eq in E. rewrite E. unfold Py.get_default.
      destruct (Py.get types k); rewrite get_set_same; simpl; lia.
    + apply String.eqb_neq in E. unfold Py.get_default.
      destruct (Py.get types (conflict_type c));
        rewrite (get_set_other _ _ _ _ E); lia.
Qed.

Lemma count_types_counts (conflicts : list Conflict) (k : string) :
  Py.get_default (count_types conflicts) k 0%nat
  = count_where (fun c => String.eqb (conflict_type c) k) conflicts.
Proof.
  unfold count_types. rewrite count_types_step. reflexivity.
Qed.

Lemma count_where_ext {A} (p q : A -> bool) (xs : list A) :
  (forall x, p x = q x) -> count_where p xs = count_where q xs.
Proof.
  intro H. unfold count_where. f_equal. apply filter_ext. exact H.
Qed.

Lemma existsb_pointwise {A} (p q : A -> bool) (xs : list A) :
  (forall x, p x = q x) -> existsb p xs = existsb q xs.
Proof.
  intro H. induction xs as [|x xs IH]; simpl; [reflexivity |].
  now rewrite H, IH.
Qed.

Lemma count_where_pos {A} (p : A -> bool) (xs : list A) :
  (0 <? count_where p xs)%nat = existsb p xs.
Proof.
  unfold count_where. induction xs as [|x xs IH]; simpl; [reflexivity |].
  destruct (p x); simpl; auto.
Qed.

Lemma more_than_half (shared total : nat) :
  Py.gtb (Py.float shared) (Py.float total / 2) = true
  <-> (total < 2 * shared)%nat.
Proof.
  rewrite gtb_true. unfold Py.float.
  assert (H : inject_Z (Z.of_nat total) / 2 < inject_Z (Z.of_nat shared)
              <-> inject_Z (Z.of_nat total)
                  < inject_Z (Z.of_nat (2 * shared))).
  { rewrite Nat2Z.inj_mul, inject_Z_mult. simpl (Z.of_nat 2).
    change (inject_Z 2) with 2. rewrite div_lt by lra.
    split; intro; lra. }
  rewrite H, <- Zlt_Qlt. lia.
Qed.

(** The selector, as a cascade on the three counts. *)
Lemma select_resolution_method_cascade (conflicts : Conflicts) :
  _select_resolution_method conflicts =
  let all := all_conflicts conflicts in
  if Py.gtb (Py.float (count_where is_shared_concern all)) (Py.len all / 2)
  then INTEGRATIVE
  else if existsb is_polarized_opinion all then STRUCTURED_DEBATE
  else if existsb is_role_based all then WEIGHTED_VOTING
  else EVIDENCE_BASED.
Proof.
  unfold _select_resolution_method. cbv zeta.
  rewrite !count_types_counts, !count_where_pos.
  rewrite (count_where_ext _ is_shared_concern)
    by (intros []; reflexivity).
  rewrite (existsb_pointwise _ is_polarized_opinion)
    by (intros []; reflexivity).
  rewrite (existsb_pointwise
             (fun c => String.eqb (conflict_type c) "role_based")
             is_role_based)
    by (intros []; reflexivity).
  reflexivity.
Qed.

(** C6. The selector returns one method by a fixed order of priority:
    integrative when the shared concerns are more than half of all
    conflicts; otherwise structured debate when some conflict is a
    polarized opinion; otherwise weighted voting when some conflict is role
    based; otherwise evidence based. *)
Theorem resolution_method_priority (conflicts : Conflicts) :
  let all := all_conflicts conflicts in
  let shared := count_where is_shared_concern all in
  ((List.length all < 2 * shared)%nat ->
   _select_resolution_method conflicts = INTEGRATIVE)
  /\ ((2 * shared <= List.length all)%nat ->
      existsb is_polarized_opinion all = true ->
      _select_resolution_method conflicts = STRUCTURED_DEBATE)
  /\ ((2 * shared <= List.length all)%nat ->
      existsb is_polarized_opinion all = false ->
      existsb is_role_based all = true ->
      _select_resolution_method conflicts = WEIGHTED_VOTING)
  /\ ((2 * shared <= List.length all)%nat ->
      existsb is_polarized_opinion all = false ->
      existsb is_role_based all = false ->
      _select_resolution_method conflicts = EVIDENCE_BASED).
Proof.
  intros all shared.
  rewrite select_resolution_method_cascade. fold all. cbv zeta. fold shared.
  unfold Py.len.
  destruct (Py.gtb (Py.float shared) (Py.float (List.length all) / 2)) eqn:E.
  - apply more_than_half in E.
    repeat split; intros; try reflexivity; exfalso; lia.
  - assert (Hle : (2 * shared <= List.length all)%nat).
    { apply Nat.nlt_ge. intro Hlt. apply more_than_half in Hlt.
      congruence. }
    repeat split.
    + intro. exfalso. lia.
    + intros _ ->. reflexivity.
    + intros _ -> ->. reflexivity.
    + intros _ -> ->. reflexivity.
Qed.

Lemma resolution_method_priority_witness :
  _select_resolution_method
    {| all_conflicts :=
         [shared_concern "cost" ["cfo"; "coo"] medium;
          shared_concern "timing" ["cfo"; "cro"] low;
          polarized_opinion "divide" ["cso"] ["cro"] medium];
       critical_conflicts := [] |} = INTEGRATIVE
  /\ _select_resolution_method
       {| all_conflicts :=
            [shared_concern "cost" ["cfo"; "coo"] medium;
             polarized_opinion "divide" ["cso"] ["cro"] medium;
             role_based "roles" "strategy" "risk" 0.5 medium];
          critical_conflicts := [] |} = STRUCTURED_DEBATE
  /\ _select_resolution_method
       {| all_conflicts :=
            [shared_concern "cost" ["cfo"; "coo"] medium;
             role_based "roles" "strategy" "risk" 0.5 medium];
          critical_conflicts := [] |} = WEIGHTED_VOTING
  /\ _select_resolution_method
       {| all_conflicts := []; critical_conflicts := [] |} = EVIDENCE_BASED.
Proof.
  split; [| split; [| split]].
  - apply (proj1 (resolution_method_priority _)). vm_compute. lia.
  - apply (proj1 (proj2 (resolution_method_priority _)));
      [vm_compute; lia | reflexivity].
  - apply (proj1 (proj2 (proj2 (resolution_method_priority _))));
      [vm_compute; lia | reflexivity | reflexivity].
  - apply (proj2 (proj2 (proj2 (resolution_method_priority _))));
      [vm_compute; lia | reflexivity | reflexivity].
Defined.

(** *** The detection of polarized opinions *)

Lemma filter_none {A} (p : A -> bool) (xs : list A) :
  Forall (fun x => p x = false) xs -> filter p xs = [].
Proof.
  induction 1 as [|x xs Hx _ IH]; simpl; [reflexivity |].
  now rewrite Hx.
Qed.

(** The loop over the frequent concerns adds shared concerns only. *)
Lemma shared_concerns_only (evaluations : list ConsensusEvaluation)
    (frequent : list ConcernEntry) (acc : list Conflict * list Conflict) :
  Forall (fun c => is_polarized_opinion c = false) (fst acc) ->
  Forall (fun c => is_polarized_opinion c = false) (snd acc) ->
  let acc' := fold_left (add_shared_concern evaluations) frequent acc in
  Forall (fun c => is_polarized_opinion c = false) (fst acc')
  /\ Forall (fun c => is_polarized_opinion c = false) (snd acc').
Proof.
  revert acc. induction frequent as [|c cs IH]; intros acc H1 H2; simpl.
  - split; assumption.
  - apply IH; unfold add_shared_concern; simpl.
    + apply Forall_app. split; [assumption |].
      constructor; [reflexivity | constructor].
    + destruct (Py.gtb _ (Py.len evaluations / 2)); [| assumption].
      apply Forall_app. split; [assumption |].
      constructor; [reflexivity | constructor].
Qed.

(** The role pass adds role-based conflicts only. *)
Lemma role_conflicts_only (evaluations : list ConsensusEvaluation) :
  Forall (fun c => is_polarized_opinion c = false)
    (_identify_role_conflicts evaluations).
Proof.
  unfold _identify_role_conflicts.
  destruct (1 <? List.length (group_by_role evaluations))%nat;
    [| constructor].
  apply Forall_forall. intros c Hc.
  apply in_flat_map in Hc. destruct Hc as [[role1 group1] [_ Hc]].
  apply in_flat_map in Hc. destruct Hc as [[role2 group2] [_ Hc]].
  destruct (String.leb role2 role1); [contradiction |].
  destruct (Py.gtb _ 0.4); [| contradiction].
  destruct Hc as [<- | []]. reflexivity.
Qed.

(** What the polarization step leaves in the two lists. *)
Lemma polarization_step (evaluations : list ConsensusEvaluation)
    (acc : list Conflict * list Conflict) :
  Forall (fun c => is_polarized_opinion c = false) (fst acc) ->
  Forall (fun c => is_polarized_opinion c = false) (snd acc) ->
  let supportive := supportive_of evaluations in
  let opposing := opposing_of evaluations in
  let severity :=
    if ((2 <=? List.length supportive)%nat
        && (2 <=? List.length opposing)%nat)%bool
    then high else medium in
  let conflict :=
    polarized_opinion
      "Significant divide between supporting and opposing executives"
      (map evaluator_id supportive) (map evaluator_id opposing) severity in
  let acc' := add_polarization evaluations acc in
  (supportive <> [] /\ opposing <> [] ->
   filter is_polarized_opinion (fst acc') = [conflict]
   /\ filter is_polarized_opinion (snd acc')
      = if is_high severity then [conflict] else [])
  /\ (supportive = [] \/ opposing = [] ->
      filter is_polarized_opinion (fst acc') = []
      /\ filter is_polarized_opinion (snd acc') = []).
Proof.
  intros H1 H2. cbv zeta. unfold add_polarization.
  destruct (supportive_of evaluations) as [|s ss] eqn:Es;
    destruct (opposing_of evaluations) as [|o os] eqn:Eo.
  - split; [intros [[] _]; reflexivity |].
    intros _. split; apply filter_none; assumption.
  - split; [intros [[] _]; reflexivity |].
    intros _. split; apply filter_none; assumption.
  - split; [intros [_ []]; reflexivity |].
    intros _. split; apply filter_none; assumption.
  - split; [| intros [H | H]; discriminate H].
    intros _. cbn [fst snd].
    change (1 <? List.length (s :: ss))%nat
      with (2 <=? List.length (s :: ss))%nat.
    change (1 <? List.length (o :: os))%nat
      with (2 <=? List.length (o :: os))%nat.
    split.
    + rewrite filter_app, (filter_none _ _ H1). reflexivity.
    + cbn [conflict_severity].
      destruct (is_high _).
      * rewrite filter_app, (filter_none _ _ H2). reflexivity.
      * apply filter_none. assumption.
Qed.

(** C7. For at least two evaluations, the detector emits one polarized
    opinion exactly when some evaluator agrees at 0.7 or more and some
    evaluator agrees at 0.3 or less, and none otherwise; its severity is
    high when both groups have at least two members and medium otherwise;
    and it is among the critical conflicts exactly when its severity is
    high. *)
Theorem polarization_conflict (evaluations : list ConsensusEvaluation) :
  (2 <= List.length evaluations)%nat ->
  let supportive :=
    filter (fun e => Qle_bool 0.7 (agreement_level e)) evaluations in
  let opposing :=
    filter (fun e => Qle_bool (agreement_level e) 0.3) evaluations in
  let severity :=
    if ((2 <=? List.length supportive)%nat
        && (2 <=? List.length opposing)%nat)%bool
    then high else medium in
  let conflict :=
    polarized_opinion
      "Significant divide between supporting and opposing executives"
      (map evaluator_id supportive) (map evaluator_id opposing) severity in
  let detected := _identify_conflicts evaluations in
  (supportive <> [] /\ opposing <> [] ->
   filter is_polarized_opinion (all_conflicts detected) = [conflict]
   /\ filter is_polarized_opinion (critical_conflicts detected)
      = if is_high severity then [conflict] else [])
  /\ (supportive = [] \/ opposing = [] ->
      filter is_polarized_opinion (all_conflicts detected) = []
      /\ filter is_polarized_opinion (critical_conflicts detected) = []).
Proof.
  intro Hlen. cbv zeta. unfold _identify_conflicts.
  destruct (List.length evaluations <? 2)%nat eqn:E;
    [apply Nat.ltb_lt in E; lia |].
  cbn [all_conflicts critical_conflicts].
  set (frequent := filter _ (Py.values (count_concerns evaluations))).
  destruct (shared_concerns_only evaluations frequent ([], []))
    as [S1 S2]; [constructor | constructor |].
  cbv zeta in S1, S2.
  set (acc := fold_left (add_shared_concern evaluations) frequent ([], []))
    in *.
  pose proof (polarization_step evaluations acc S1 S2) as P.
  cbv zeta in P. unfold supportive_of, opposing_of, Py.geb, Py.leb in P.
  pose proof (role_conflicts_only evaluations) as R.
  assert (R' : Forall (fun c => is_polarized_opinion c = false)
                 (filter (fun c => is_high (conflict_severity c))
                    (_identify_role_conflicts evaluations))).
  { apply Forall_forall. intros c Hc. apply filter_In in Hc.
    rewrite Forall_forall in R. apply R, Hc. }
  rewrite !filter_app, (filter_none _ _ R), (filter_none _ _ R'), !app_nil_r.
  exact P.
Qed.

Lemma polarization_conflict_witness :
  let evaluations :=
    [Boardroom.review "cso" "strategy" 0.9;
     Boardroom.review "cfo" "finance" 0.9;
     Boardroom.review "cro" "risk" 0.1;
     Boardroom.review "clo" "legal" 0.1] in
  let conflict :=
    polarized_opinion
      "Significant divide between supporting and opposing executives"
      ["cso"; "cfo"] ["cro"; "clo"] high in
  filter is_polarized_opinion
    (all_conflicts (_identify_conflicts evaluations)) = [conflict]
  /\ filter is_polarized_opinion
       (critical_conflicts (_identify_conflicts evaluations)) = [conflict].
Proof.
  cbv zeta.
  apply (proj1
           (polarization_conflict
              [Boardroom.review "cso" "strategy" 0.9;
               Boardroom.review "cfo" "finance" 0.9;
               Boardroom.review "cro" "risk" 0.1;
               Boardroom.review "clo" "legal" 0.1]
              (le_S _ _ (le_S _ _ (le_n 2))))).
  split; discriminate.
Defined.

(** *** The support metrics *)




(** The metrics of a non-empty evaluation set, with the weighting loop
    named. *)
Lemma support_metrics_nonempty (e : ConsensusEvaluation)
    (es : list ConsensusEvaluation)
    (participating : list DecisionParticipation) :
  let evaluations := e :: es in
  let acc := fold_left (weigh participating) evaluations ([], 0) in
  let unweighted :=
    if Py.gtb (Py.len evaluations) 0
    then Py.sum (map agreement_level evaluations) / Py.len evaluations
    else 0 in
  let metrics := _calculate_support_metrics evaluations participating in
  unweighted_support metrics = unweighted
  /\ weighted_support metrics
     = (if Py.gtb (snd acc) 0 then Py.sum (fst acc) / snd acc
        else unweighted)
  /\ participation_rate metrics
     = (if Py.gtb (Py.len participating) 0
        then Py.len evaluations / Py.len participating else 1).
Proof.
  cbv zeta. unfold _calculate_support_metrics.
  destruct (fold_left (weigh participating) (e :: es) ([], 0))
    as [weighted_agreements total_weight].
  cbn [fst snd weighted_support unweighted_support participation_rate].
  repeat split.
Qed.




(** *** The lists of supporting, opposing and abstaining executives *)

(** The outcome built on the resolution path classifies the evaluators by
    their agreement level. *)
Lemma resolution_path_classifies (self : ConsensusBuilder)
    (rec : ExecutiveRecommendation)
    (evaluations : list ConsensusEvaluation)
    (participating : list DecisionParticipation)
    (history : list ConsensusOutcome) (outcome : ConsensusOutcome) :
  fst (build_consensus self rec evaluations participating history)
  = inr outcome ->
  modified_from_original outcome = true ->
  supporting_executives outcome
  = map evaluator_id
      (filter (fun e => Py.gtb (agreement_level e) 0.6) evaluations)
  /\ opposing_executives outcome
     = map evaluator_id
         (filter (fun e => Py.ltb (agreement_level e) 0.4) evaluations)
  /\ abstaining_executives outcome
     = map evaluator_id
         (filter
            (fun e => Py.leb 0.4 (agreement_level e)
                      && Py.leb (agreement_level e) 0.6)%bool
            evaluations).
Proof.
  unfold build_consensus, _create_consensus_outcome, new_ConsensusOutcome,
    record_outcome.
  destruct (_ && _)%bool.
  - destruct (Py.unit_interval _); simpl; intros [= <-]; discriminate.
  - destruct (all_conflicts (_identify_conflicts evaluations)).
    + destruct (Py.unit_interval _); simpl; intros [= <-]; discriminate.
    + destruct (Py.unit_interval _); simpl; intros [= <-] _;
        repeat split.
Qed.

(** C1, on the two paths that go through [_create_consensus_outcome]: with
    two reviewers agreeing at 0.9 and 0.8 the consensus is direct, and with
    a single reviewer at 0.5 it is insufficient without conflicts; on both
    the three lists of the outcome are empty, although the first set of
    evaluations has two evaluators above 0.6 and the second has one
    evaluator in the band from 0.4 to 0.6. *)
Theorem consensus_outcome_lists_left_empty :
  let agreeing :=
    [Boardroom.review "cfo" "finance" 0.9;
     Boardroom.review "coo" "operations" 0.8] in
  let undecided := [Boardroom.review "cfo" "finance" 0.5] in
  (exists outcome,
     fst (build_consensus Boardroom.builder Boardroom.proposal agreeing [] [])
     = inr outcome
     /\ resolution_method outcome
        = "Direct consensus without conflict resolution"
     /\ supporting_executives outcome = []
     /\ map evaluator_id
          (filter (fun e => Py.gtb (agreement_level e) 0.6) agreeing)
        = ["cfo"; "coo"])
  /\ (exists outcome,
        fst (build_consensus Boardroom.builder Boardroom.proposal undecided
               [] [])
        = inr outcome
        /\ resolution_method outcome
           = "Insufficient consensus without specific conflicts"
        /\ abstaining_executives outcome = []
        /\ map evaluator_id
             (filter
                (fun e => Py.leb 0.4 (agreement_level e)
                          && Py.leb (agreement_level e) 0.6)%bool
                undecided)
           = ["cfo"]).
Proof.
  split; eexists; (split; [vm_compute; reflexivity |]); repeat split.
Qed.

(** *** Validation of the inputs *)







End ConsensusFacts.

(** ** The orchestrator *)

Module OrchestratorFacts.
Import Executive Consensus Orchestrator Reference PyFacts.

Section Runs.

Variable World : Type.

(** *** Steps that are not consensus rounds *)

Lemma quiet_ret {A} (a : A) : quiet (@ret World A a).
Proof. intro s. reflexivity. Qed.

Lemma quiet_try {A} (r : Py.exn + A) : quiet (@try World A r).
Proof. intro s. unfold try. destruct r; reflexivity. Qed.

Lemma quiet_call {A} (f : Effect World A) : quiet (call f).
Proof.
  intro s. unfold call. destruct (f (world s)) as [[e | a] w]; reflexivity.
Qed.

Lemma quiet_bind {A B} (c : M World A) (k : A -> M World B) :
  quiet c -> (forall a, quiet (k a)) -> quiet (bind c k).
Proof.
  intros Hc Hk s. unfold bind. specialize (Hc s).
  destruct (c s) as [a s1 | e s1 |]; [| assumption | contradiction].
  specialize (Hk a s1). destruct (k a s1); congruence.
Qed.

(** A coroutine returns what its body returns, and leaves the state that
    its body leaves. *)
Lemma coroutine_returns {A} (body : M World A) (s s' : State World)
    (a : A) :
  coroutine body s = Ok a s' -> body s = Ok a s'.
Proof.
  unfold coroutine. destruct (body s) as [b t | [] t |];
    intro H; try exact H; discriminate H.
Qed.

Lemma coroutine_run {A} (body : M World A) (s : State World)
    (P : A -> State World -> Prop) (Q : State World -> Prop) (T : Prop) :
  match body s with
  | Ok a s' => P a s'
  | Raise _ s' => Q s'
  | Timeout => T
  end ->
  match coroutine body s with
  | Ok a s' => P a s'
  | Raise _ s' => Q s'
  | Timeout => T
  end.
Proof.
  unfold coroutine. destruct (body s) as [b t | [] t |]; intro H; exact H.
Qed.

Lemma quiet_coroutine {A} (body : M World A) :
  quiet body -> quiet (coroutine body).
Proof.
  intros H s. apply coroutine_run with (P := fun _ s' => _ s' = _).
  exact (H s).
Qed.

Lemma quiet_gather {A} (tasks : list (M World A)) :
  Forall quiet tasks -> quiet (gather tasks).
Proof.
  induction 1 as [|task tasks Ht _ IH]; simpl.
  - apply quiet_ret.
  - apply quiet_bind; [assumption |]. intro a.
    apply quiet_bind; [assumption |]. intro rest. apply quiet_ret.
Qed.

Lemma quiet_get_executive_evaluation (executive : BaseExecutive World)
    (recommendation : ExecutiveRecommendation) (priority : Z) :
  quiet (_get_executive_evaluation executive recommendation priority).
Proof.
  unfold _get_executive_evaluation. apply quiet_coroutine.
  apply quiet_bind; [apply quiet_call |]. intro r. apply quiet_try.
Qed.

Lemma quiet_gather_evaluations (recommendation : ExecutiveRecommendation)
    (selected : list (Selected World)) (lead : BaseExecutive World) :
  quiet (_gather_evaluations recommendation selected lead).
Proof.
  unfold _gather_evaluations. apply quiet_coroutine, quiet_gather.
  apply Forall_forall. intros task Ht.
  apply in_flat_map in Ht. destruct Ht as [exec_info [_ Ht]].
  destruct (String.eqb _ _); [contradiction |].
  destruct Ht as [<- | []]. apply quiet_get_executive_evaluation.
Qed.

(** *** A consensus round *)

Lemma build_consensus_records (self : ConsensusBuilder)
    (rec : ExecutiveRecommendation)
    (evaluations : list ConsensusEvaluation)
    (participating : list DecisionParticipation)
    (history : list ConsensusOutcome) :
  match build_consensus self rec evaluations participating history with
  | (inr outcome, history') => history' = history ++ [outcome]
  | (inl _, history') => history' = history
  end.
Proof.
  unfold build_consensus, record_outcome.
  destruct (_ && _)%bool.
  - destruct (_create_consensus_outcome _ _ _ _ _ _); reflexivity.
  - destruct (all_conflicts _).
    + destruct (_create_consensus_outcome _ _ _ _ _ _); reflexivity.
    + destruct (new_ConsensusOutcome _ _ _ _ _ _ _ _ _ _); reflexivity.
Qed.

(** A call of [build_consensus] ends; it records its outcome when it
    returns one, and nothing when it raises. *)
Lemma build_consensus_call_records (self : ExecutiveTeamOrchestrator World)
    (rec : ExecutiveRecommendation)
    (evaluations : list ConsensusEvaluation)
    (participating : list DecisionParticipation) (s : State World) :
  match build_consensus_call self rec evaluations participating s with
  | Ok outcome s' =>
      consensus_history s' = consensus_history s ++ [outcome]
  | Raise _ s' => consensus_history s' = consensus_history s
  | Timeout => False
  end.
Proof.
  unfold build_consensus_call.
  pose proof (build_consensus_records (consensus_builder self) rec
                evaluations participating (consensus_history s)) as H.
  destruct (build_consensus _ _ _ _ _) as [[e | outcome] history'];
    exact H.
Qed.

(** *** The resolution loop *)

Lemma needs_resolution_true (self : ExecutiveTeamOrchestrator World)
    (r : Round) :
  needs_resolution self r = true <->
  (consensus_level (consensus_outcome r) = DIVIDED_OPINION
   \/ consensus_level (consensus_outcome r) = STRONG_DISAGREEMENT)
  /\ (attempts r < max_resolution_attempts (config self))%Z.
Proof.
  unfold needs_resolution. rewrite andb_true_iff, Z.ltb_lt.
  destruct (consensus_level (consensus_outcome r)); cbn;
    intuition (discriminate || auto).
Qed.

(** Every turn of the loop is one consensus round and one more attempt;
    the loop ends within the budget that is left. *)
Lemma resolution_loop_bounded (fuel : nat)
    (self : ExecutiveTeamOrchestrator World)
    (primary : ExecutiveRecommendation) (selected : list (Selected World))
    (lead : BaseExecutive World)
    (participating : list DecisionParticipation) (r : Round)
    (s : State World) :
  let budget := max_resolution_attempts (config self) in
  (attempts r <= budget)%Z ->
  (Z.to_nat (budget - attempts r) <= fuel)%nat ->
  match
    resolution_loop fuel self primary selected lead participating r s
  with
  | Ok r' s' =>
      (attempts r <= attempts r' <= budget)%Z
      /\ List.length (consensus_history s')
         = (List.length (consensus_history s)
            + Z.to_nat (attempts r' - attempts r))%nat
      /\ needs_resolution self r' = false
  | Raise _ s' =>
      (List.length (consensus_history s')
       <= List.length (consensus_history s)
          + Z.to_nat (budget - attempts r))%nat
  | Timeout => False
  end.
Proof.
  cbv zeta. revert r s.
  induction fuel as [|fuel IH]; intros r s Hle Hfuel;
    cbn [resolution_loop];
    destruct (needs_resolution self r) eqn:Hneed.
  - apply needs_resolution_true in Hneed. lia.
  - cbn. repeat split; try lia. assumption.
  - apply needs_resolution_true in Hneed. destruct Hneed as [_ Hlt].
    unfold bind at 1.
    pose proof (quiet_call (integrate_feedback lead primary (evaluations r))
                  s) as H1.
    destruct (call _ s) as [updated s1 | e s1 |];
      [| rewrite H1; lia | contradiction].
    unfold bind at 1.
    pose proof (quiet_gather_evaluations updated selected lead s1) as H2.
    destruct (_gather_evaluations updated selected lead s1)
      as [evaluations' s2 | e s2 |];
      [| rewrite H2, H1; lia | contradiction].
    unfold bind at 1.
    pose proof (build_consensus_call_records self updated evaluations'
                  participating s2) as H3.
    destruct (build_consensus_call self updated evaluations' participating
                s2) as [outcome' s3 | e s3 |];
      [| rewrite H3, H2, H1; lia | contradiction].
    specialize (IH {| evaluations := evaluations';
                      consensus_outcome := outcome';
                      attempts := attempts r + 1 |} s3).
    cbn [attempts] in IH.
    assert (Hlen : List.length (consensus_history s3)
                   = S (List.length (consensus_history s))).
    { rewrite H3, length_app, H2, H1. cbn. lia. }
    destruct (resolution_loop fuel self primary selected lead participating
                _ s3) as [r' s' | e s' |].
    + destruct IH as (Ha & Hh & Hn); [lia | lia |].
      repeat split; try lia. assumption.
    + assert (IH' := IH ltac:(lia) ltac:(lia)). lia.
    + apply IH; lia.
  - cbn. repeat split; try lia. assumption.
Qed.

(** The outcomes that the loop records: a turn is taken only after an
    outcome at one of the two unsettled levels, and every turn records one
    outcome. *)
Lemma resolution_loop_rounds (fuel : nat)
    (self : ExecutiveTeamOrchestrator World)
    (primary : ExecutiveRecommendation) (selected : list (Selected World))
    (lead : BaseExecutive World)
    (participating : list DecisionParticipation) (r : Round)
    (s : State World) :
  match
    resolution_loop fuel self primary selected lead participating r s
  with
  | Ok r' s' =>
      exists between earlier,
        consensus_history s' = consensus_history s ++ between
        /\ consensus_outcome r :: between
           = earlier ++ [consensus_outcome r']
        /\ Forall unsettled earlier
  | Raise _ s' =>
      exists rounds,
        consensus_history s' = consensus_history s ++ rounds
        /\ Forall unsettled (consensus_outcome r :: rounds)
        /\ (attempts r + Z.of_nat (List.length rounds)
            < max_resolution_attempts (config self))%Z
  | Timeout => True
  end.
Proof.
  revert r s.
  induction fuel as [|fuel IH]; intros r s; cbn [resolution_loop];
    destruct (needs_resolution self r) eqn:Hneed;
    try exact I;
    try (exists [], []; cbn; rewrite app_nil_r; repeat split; constructor).
  apply needs_resolution_true in Hneed. destruct Hneed as [Hlevel Hlt].
  assert (Hstop : forall s' : State World,
            consensus_history s' = consensus_history s ->
            exists rounds,
              consensus_history s' = consensus_history s ++ rounds
              /\ Forall unsettled (consensus_outcome r :: rounds)
              /\ (attempts r + Z.of_nat (List.length rounds)
                  < max_resolution_attempts (config self))%Z).
  { intros s' Hs'. exists []. rewrite app_nil_r. cbn.
    split; [exact Hs' | split; [| lia]].
    constructor; [exact Hlevel | constructor]. }
  unfold bind at 1.
  pose proof (quiet_call (integrate_feedback lead primary (evaluations r))
                s) as H1.
  destruct (call _ s) as [updated s1 | e s1 |];
    [| apply Hstop; exact H1 | contradiction].
  unfold bind at 1.
  pose proof (quiet_gather_evaluations updated selected lead s1) as H2.
  destruct (_gather_evaluations updated selected lead s1)
    as [evaluations' s2 | e s2 |];
    [| apply Hstop; congruence | contradiction].
  unfold bind at 1.
  pose proof (build_consensus_call_records self updated evaluations'
                participating s2) as H3.
  destruct (build_consensus_call self updated evaluations' participating
              s2) as [outcome' s3 | e s3 |];
    [| apply Hstop; congruence | contradiction].
  specialize (IH {| evaluations := evaluations';
                    consensus_outcome := outcome';
                    attempts := attempts r + 1 |} s3).
  cbn [attempts consensus_outcome] in IH.
  assert (Hs3 : consensus_history s3 = consensus_history s ++ [outcome'])
    by congruence.
  destruct (resolution_loop fuel self primary selected lead participating
              _ s3) as [r' s' | e s' |]; [| | exact I].
  - destruct IH as (between & earlier & Hh & Hseq & Hall).
    exists (outcome' :: between), (consensus_outcome r :: earlier).
    repeat split.
    + rewrite Hh, Hs3, <- app_assoc. reflexivity.
    + cbn. rewrite Hseq. reflexivity.
    + constructor; assumption.
  - destruct IH as (rounds & Hh & Hall & Hn).
    exists (outcome' :: rounds). repeat split.
    + rewrite Hh, Hs3, <- app_assoc. reflexivity.
    + constructor; assumption.
    + cbn [List.length]. lia.
Qed.

(** *** The decision run *)

Lemma config_valid_budget (c : ExecutiveTeamConfig) :
  config_valid c = true -> (1 <= max_resolution_attempts c)%Z.
Proof.
  unfold config_valid. rewrite !andb_true_iff, Z.leb_le. tauto.
Qed.

(** C3. A decision run performs at most [max_resolution_attempts]
    consensus rounds: with a valid configuration and enough fuel the run
    ends; when it returns, the number of outcomes that the builder recorded
    is the number of attempts, between one and the maximum, and the loop
    was left because the level is neither divided opinion nor strong
    disagreement or because the attempts reached the maximum; a further
    round was taken only while the level was divided opinion or strong
    disagreement: the outcomes that the run recorded are those of its
    rounds, the last one is the outcome of the decision, and every outcome
    before it has one of these two levels. When the run raises, fewer rounds
    than the maximum were recorded, and each of them ended at one of these
    two levels. *)
Theorem resolution_rounds_bounded (fuel : nat)
    (self : ExecutiveTeamOrchestrator World) (request : DecisionRequest)
    (s : State World) :
  config_valid (config self) = true ->
  (Z.to_nat (max_resolution_attempts (config self)) <= fuel)%nat ->
  let budget := max_resolution_attempts (config self) in
  match make_decision fuel self request s with
  | Ok d s' =>
      (1 <= resolution_attempts d <= budget)%Z
      /\ List.length (consensus_history s')
         = (List.length (consensus_history s)
            + Z.to_nat (resolution_attempts d))%nat
      /\ ((consensus_level (consensus d) <> DIVIDED_OPINION
           /\ consensus_level (consensus d) <> STRONG_DISAGREEMENT)
          \/ resolution_attempts d = budget)
      /\ (exists earlier,
            consensus_history s'
            = consensus_history s ++ earlier ++ [consensus d]
            /\ Forall unsettled earlier)
  | Raise _ s' =>
      (List.length (consensus_history s')
       <= List.length (consensus_history s) + Z.to_nat budget)%nat
      /\ (exists rounds,
            consensus_history s' = consensus_history s ++ rounds
            /\ Forall unsettled rounds
            /\ (Z.of_nat (List.length rounds) < budget)%Z)
  | Timeout => False
  end.
Proof.
  intros Hvalid Hfuel. cbv zeta.
  apply config_valid_budget in Hvalid.
  set (selected := _select_relevant_executives self request).
  unfold make_decision. fold selected.
  apply coroutine_run.
  assert (Hstop : forall s' : State World,
            consensus_history s' = consensus_history s ->
            (List.length (consensus_history s')
             <= List.length (consensus_history s)
                + Z.to_nat (max_resolution_attempts (config self)))%nat
            /\ (exists rounds,
                  consensus_history s' = consensus_history s ++ rounds
                  /\ Forall unsettled rounds
                  /\ (Z.of_nat (List.length rounds)
                      < max_resolution_attempts (config self))%Z)).
  { intros s' Hs'. split; [rewrite Hs'; lia |].
    exists []. rewrite app_nil_r. cbn.
    repeat split; [exact Hs' | constructor | lia]. }
  unfold bind at 1.
  pose proof (quiet_try
                (lookup_framework self
                   (_select_decision_framework self request)) s) as H0.
  destruct (try _ s) as [framework s0 | e s0 |];
    [| apply Hstop; exact H0 | contradiction].
  unfold bind at 1.
  pose proof (quiet_try (_determine_lead_executive selected) s0) as H1.
  destruct (try _ s0) as [lead s1 | e s1 |];
    [| apply Hstop; congruence | contradiction].
  unfold bind at 1.
  pose proof (quiet_call (analyze lead request) s1) as H2.
  destruct (call _ s1) as [primary s2 | e s2 |];
    [| apply Hstop; congruence | contradiction].
  unfold bind at 1.
  pose proof (quiet_gather_evaluations primary selected lead s2) as H3.
  destruct (_gather_evaluations _ _ _ s2) as [evaluations0 s3 | e s3 |];
    [| apply Hstop; congruence | contradiction].
  set (participating := _create_participation_records selected lead).
  unfold bind at 1.
  pose proof (build_consensus_call_records self primary evaluations0
                participating s3) as H4.
  destruct (build_consensus_call _ _ _ _ s3) as [outcome0 s4 | e s4 |];
    [| apply Hstop; congruence | contradiction].
  assert (Hs4 : consensus_history s4 = consensus_history s ++ [outcome0])
    by congruence.
  assert (Hlen : List.length (consensus_history s4)
                 = S (List.length (consensus_history s))).
  { rewrite Hs4, length_app. cbn. lia. }
  unfold bind at 1.
  pose proof (resolution_loop_bounded fuel self primary selected lead
                participating
                {| evaluations := evaluations0;
                   consensus_outcome := outcome0;
                   attempts := 1 |} s4) as H5.
  pose proof (resolution_loop_rounds fuel self primary selected lead
                participating
                {| evaluations := evaluations0;
                   consensus_outcome := outcome0;
                   attempts := 1 |} s4) as H6.
  cbv zeta in H5. cbn [attempts consensus_outcome] in H5, H6.
  destruct (resolution_loop _ _ _ _ _ _ _ s4) as [final s5 | e s5 |].
  - destruct H5 as (Ha & Hh & Hn); [lia | lia |].
    destruct H6 as (between & earlier & Hb & Hseq & Hall).
    assert (Hexit :
              (consensus_level (consensus_outcome final) <> DIVIDED_OPINION
               /\ consensus_level (consensus_outcome final)
                  <> STRONG_DISAGREEMENT)
              \/ attempts final = max_resolution_attempts (config self)).
    { destruct (Z.eq_dec (attempts final)
                  (max_resolution_attempts (config self))) as [|Hne];
        [now right | left].
      split; intro Hl;
        assert (needs_resolution self final = true)
          by (apply needs_resolution_true; split; [auto | lia]);
        congruence. }
    assert (Hrounds :
              consensus_history s5
              = consensus_history s ++ earlier
                  ++ [consensus_outcome final]).
    { rewrite Hb, Hs4, <- Hseq, <- app_assoc. reflexivity. }
    destruct (log_decisions (config self)); cbn;
      (split; [lia | split; [lia | split; [exact Hexit |]]]);
      exists earlier; split; assumption.
  - specialize (H5 ltac:(lia) ltac:(lia)).
    destruct H6 as (rounds & Hb & Hall & Hn).
    split; [lia |].
    exists (outcome0 :: rounds). repeat split.
    + rewrite Hb, Hs4, <- app_assoc. reflexivity.
    + exact Hall.
    + cbn [List.length]. lia.
  - apply H5; lia.
Qed.

(** A property of the round that every turn of the loop keeps holds of
    the round on which the loop ends. *)
Lemma resolution_loop_invariant (P : Round -> State World -> Prop)
    (fuel : nat) (self : ExecutiveTeamOrchestrator World)
    (primary : ExecutiveRecommendation) (selected : list (Selected World))
    (lead : BaseExecutive World)
    (participating : list DecisionParticipation) :
  (forall r s updated s1 evaluations' s2 outcome' s3,
     P r s ->
     needs_resolution self r = true ->
     call (integrate_feedback lead primary (evaluations r)) s
     = Ok updated s1 ->
     _gather_evaluations updated selected lead s1 = Ok evaluations' s2 ->
     build_consensus_call self updated evaluations' participating s2
     = Ok outcome' s3 ->
     P {| evaluations := evaluations';
          consensus_outcome := outcome';
          attempts := attempts r + 1 |} s3) ->
  forall r s r' s',
    P r s ->
    resolution_loop fuel self primary selected lead participating r s
    = Ok r' s' ->
    P r' s' /\ needs_resolution self r' = false.
Proof.
  intro Hstep. induction fuel as [|fuel IH]; intros r s r' s' HP;
    cbn [resolution_loop];
    destruct (needs_resolution self r) eqn:Hneed.
  - discriminate.
  - intros [= <- <-]. split; assumption.
  - unfold bind at 1.
    destruct (call _ s) as [updated s1 | e s1 |] eqn:E1;
      [| discriminate | discriminate].
    unfold bind at 1.
    destruct (_gather_evaluations updated selected lead s1)
      as [evaluations' s2 | e s2 |] eqn:E2; [| discriminate | discriminate].
    unfold bind at 1.
    destruct (build_consensus_call self updated evaluations' participating
                s2) as [outcome' s3 | e s3 |] eqn:E3;
      [| discriminate | discriminate].
    apply IH. eapply Hstep; eassumption.
  - intros [= <- <-]. split; assumption.
Qed.


(** What a decision that [make_decision] returns is made of. *)
Lemma make_decision_returns (fuel : nat)
    (self : ExecutiveTeamOrchestrator World) (request : DecisionRequest)
    (s : State World) (d : DecisionOutcome) (s' : State World) :
  make_decision fuel self request s = Ok d s' ->
  exists final after,
    final_round fuel self request s final after
    /\ consensus_history s' = consensus_history after
    /\ consensus d = consensus_outcome final
    /\ resolution_attempts d = attempts final
    /\ metrics_veto_applied (decision_metrics d)
       = veto_applied
           (_check_for_vetos self (consensus_outcome final)
              (evaluations final))
    /\ escalated_to_human d
       = (if veto_applied
               (_check_for_vetos self (consensus_outcome final)
                  (evaluations final))
          then true
          else Py.ltb (support_percentage (consensus_outcome final))
                 (human_escalation_threshold (config self)))
    /\ executive_count (decision_metrics d)
       = List.length (_select_relevant_executives self request).
Proof.
  unfold make_decision, final_round.
  intro Hrun. apply coroutine_returns in Hrun. revert Hrun.
  unfold bind at 1. unfold try at 1.
  destruct (lookup_framework _ _) as [e | framework]; [discriminate |].
  unfold bind at 1. unfold try at 1.
  destruct (_determine_lead_executive _) as [e | lead] eqn:E1;
    [discriminate |].
  unfold bind at 1.
  destruct (call (analyze lead request) s) as [primary s1 | e s1 |] eqn:E2;
    [| discriminate | discriminate].
  unfold bind at 1.
  destruct (_gather_evaluations primary _ lead s1)
    as [evaluations0 s2 | e s2 |] eqn:E3; [| discriminate | discriminate].
  unfold bind at 1.
  destruct (build_consensus_call self primary evaluations0 _ s2)
    as [outcome0 s3 | e s3 |] eqn:E4; [| discriminate | discriminate].
  unfold bind at 1.
  destruct (resolution_loop fuel self primary _ lead _ _ s3)
    as [final s4 | e s4 |] eqn:E5; [| discriminate | discriminate].
  intro H. exists final, s4. split.
  { exists lead, primary, s1, evaluations0, s2, outcome0, s3.
    repeat split; assumption. }
  destruct (log_decisions (config self)); cbn in H;
    injection H as <- <-; repeat split.
Qed.

(** *** The veto *)

Lemma mem_In (x : string) (xs : list string) :
  Py.mem x xs = true <-> In x xs.
Proof.
  unfold Py.mem. rewrite existsb_exists. split.
  - intros [y [Hy E]]. apply String.eqb_eq in E. now subst.
  - intro H. exists x. split; [assumption | apply String.eqb_refl].
Qed.

Lemma veto_scan_fires (domains : list string)
    (evaluations : list ConsensusEvaluation)
    (members : list (string * TeamMember World)) :
  veto_applied (veto_scan domains evaluations members) = true <->
  exists name member domain evaluation,
    In (name, member) members
    /\ is_active member = true
    /\ In domain domains
    /\ In domain (veto_rights member)
    /\ In evaluation evaluations
    /\ evaluator_id evaluation = name
    /\ agreement_level evaluation < 0.2.
Proof.
  induction members as [|[name_ member] members IH]; cbn [veto_scan].
  - split; [discriminate |]. intros (n & m & _ & _ & [] & _).
  - assert (Hrest :
      (forall domain evaluation,
         is_active member = true ->
         In domain domains -> In domain (veto_rights member) ->
         In evaluation evaluations -> evaluator_id evaluation = name_ ->
         agreement_level evaluation < 0.2 -> False) ->
      ((exists name member0 domain evaluation,
         In (name, member0) members
         /\ is_active member0 = true
         /\ In domain domains
         /\ In domain (veto_rights member0)
         /\ In evaluation evaluations
         /\ evaluator_id evaluation = name
         /\ agreement_level evaluation < 0.2)
       <->
       (exists name member0 domain evaluation,
         In (name, member0) ((name_, member) :: members)
         /\ is_active member0 = true
         /\ In domain domains
         /\ In domain (veto_rights member0)
         /\ In evaluation evaluations
         /\ evaluator_id evaluation = name
         /\ agreement_level evaluation < 0.2))).
    { intro Hnot. split.
      - intros (n & m & d & ev & Hin & H). exists n, m, d, ev.
        split; [right; assumption | assumption].
      - intros (n & m & d & ev & [Heq | Hin] & Ha & Hd & Hr & He & Hid & Hl).
        + injection Heq as <- <-. exfalso. eapply Hnot; eassumption.
        + exists n, m, d, ev. repeat split; assumption. }
    destruct (is_active member) eqn:Hactive; cbn [negb].
    2:{ rewrite IH. apply Hrest. intros; discriminate. }
    destruct (existsb _ domains) eqn:Hauth; cbn [negb].
    2:{ rewrite IH. apply Hrest. intros d ev _ Hd Hr _ _ _.
        apply not_true_iff_false in Hauth. apply Hauth.
        apply existsb_exists. exists d. split; [assumption |].
        apply mem_In. assumption. }
    destruct (find _ evaluations) as [evaluation|] eqn:Hfind.
    + split; [intros _ | reflexivity].
      apply existsb_exists in Hauth. destruct Hauth as [d [Hd Hr]].
      apply mem_In in Hr.
      apply find_some in Hfind. destruct Hfind as [He Hp].
      apply andb_true_iff in Hp. destruct Hp as [Hid Hl].
      apply String.eqb_eq in Hid. apply ltb_true in Hl.
      exists name_, member, d, evaluation.
      repeat split; try assumption. left. reflexivity.
    + rewrite IH. apply Hrest. intros d ev _ _ _ He Hid Hl.
      pose proof (find_none _ _ Hfind ev He) as Hp. cbn beta in Hp.
      apply andb_false_iff in Hp. destruct Hp as [Hp | Hp].
      * apply String.eqb_neq in Hp. contradiction.
      * apply ltb_false in Hp. lra.
Qed.

(** C2. With the veto enabled, the veto check fires exactly when some
    active member has a veto right on a domain among the keys of the
    recommendation's domain-specific analyses and an evaluation of that
    member has an agreement level below 0.2. In a decision run the veto
    flag is the check on the final round; when it is set the decision is
    escalated to a human whatever the support; and the consensus outcome of
    the decision is the last one that the builder recorded, unchanged. *)
Theorem veto_fires_and_escalates (self : ExecutiveTeamOrchestrator World) :
  enable_veto (config self) = true ->
  (forall (outcome : ConsensusOutcome)
     (evaluations : list ConsensusEvaluation),
     veto_applied (_check_for_vetos self outcome evaluations) = true <->
     exists name member domain evaluation,
       In (name, member) (Py.items (executives self))
       /\ is_active member = true
       /\ In domain
            (Py.keys (domain_specific_analyses (recommendation outcome)))
       /\ In domain (veto_rights member)
       /\ In evaluation evaluations
       /\ evaluator_id evaluation = name
       /\ agreement_level evaluation < 0.2)
  /\ (forall (fuel : nat) (request : DecisionRequest) (s s' : State World)
        (d : DecisionOutcome),
        make_decision fuel self request s = Ok d s' ->
        exists final after,
          final_round fuel self request s final after
          /\ consensus d = consensus_outcome final
          /\ metrics_veto_applied (decision_metrics d)
             = veto_applied
                 (_check_for_vetos self (consensus d) (evaluations final))
          /\ (metrics_veto_applied (decision_metrics d) = true ->
              escalated_to_human d = true)
          /\ (exists earlier,
                consensus_history s' = earlier ++ [consensus d])).
Proof.
  intro Hveto. split.
  - intros outcome evaluations. unfold _check_for_vetos.
    rewrite Hveto. cbn [negb]. apply veto_scan_fires.
  - intros fuel request s s' d Hrun.
    destruct (make_decision_returns _ _ _ _ _ _ Hrun)
      as (final & after & Hfinal & Hh & Hc & _ & Hv & He & _).
    exists final, after. split; [assumption |]. split; [assumption |].
    rewrite Hc. split; [assumption |]. split.
    + intro Ht. rewrite He. rewrite Hv in Ht. rewrite Ht. reflexivity.
    + rewrite Hh.
      destruct Hfinal
        as (lead & primary & s1 & evaluations0 & s2 & outcome0 & s3
            & _ & _ & _ & Hbuild & Hloop).
      apply (resolution_loop_invariant (@recorded World)) in Hloop.
      * destruct Hloop as [Hrec _]. exact Hrec.
      * intros r t updated t1 evaluations' t2 outcome' t3 _ _ _ _ Hb.
        pose proof (build_consensus_call_records self updated
                      evaluations'
                      (_create_participation_records
                         (_select_relevant_executives self request) lead)
                      t2) as Hr.
        rewrite Hb in Hr. eexists. exact Hr.
      * pose proof (build_consensus_call_records self primary
                      evaluations0
                      (_create_participation_records
                         (_select_relevant_executives self request) lead)
                      s2) as Hr.
        rewrite Hbuild in Hr. eexists. exact Hr.
Qed.

(** *** The lead executive *)

Lemma get_executive_evaluation_id (executive : BaseExecutive World)
    (recommendation : ExecutiveRecommendation) (priority : Z)
    (s s' : State World) (evaluation : ConsensusEvaluation) :
  _get_executive_evaluation executive recommendation priority s
  = Ok evaluation s' ->
  evaluator_id evaluation = name executive.
Proof.
  unfold _get_executive_evaluation.
  intro H. apply coroutine_returns in H. revert H. unfold bind.
  destruct (call _ s) as [result s1 | e s1 |]; [| discriminate | discriminate].
  unfold try, new_ConsensusEvaluation.
  repeat (destruct (negb _); [discriminate |]).
  intros [= <- _]. reflexivity.
Qed.


Lemma gather_evaluations_reviewers (recommendation : ExecutiveRecommendation)
    (selected : list (Selected World)) (lead : BaseExecutive World)
    (s s' : State World) (evaluations : list ConsensusEvaluation) :
  _gather_evaluations recommendation selected lead s = Ok evaluations s' ->
  map evaluator_id evaluations
  = map (fun exec_info => name (selected_executive exec_info))
      (reviewers selected lead).
Proof.
  unfold _gather_evaluations, reviewers.
  intro H. apply coroutine_returns in H. revert s evaluations H.
  induction selected as [|x selected IH]; intros s evaluations; cbn.
  - intros [= <- _]. reflexivity.
  - destruct (String.eqb (name (selected_executive x)) (name lead));
      cbn [negb app].
    + apply IH.
    + cbn [gather]. unfold bind at 1.
      destruct (_get_executive_evaluation _ _ _ s) as [a s1 | e s1 |] eqn:Ea;
        [| discriminate | discriminate].
      unfold bind at 1.
      destruct (gather _ s1) as [rest s2 | e s2 |] eqn:Er;
        [| discriminate | discriminate].
      intros [= <- <-]. cbn [map]. f_equal.
      * eapply get_executive_evaluation_id. eassumption.
      * eapply IH. eassumption.
Qed.

Lemma reviewers_exclude_lead (selected : list (Selected World))
    (lead : BaseExecutive World) :
  ~ In (name lead)
      (map (fun exec_info => name (selected_executive exec_info))
         (reviewers selected lead)).
Proof.
  intro H. apply in_map_iff in H. destruct H as [x [Hx Hin]].
  apply filter_In in Hin. destruct Hin as [_ Hne].
  rewrite Hx, String.eqb_refl in Hne. discriminate.
Qed.

Lemma reviewers_fewer (selected : list (Selected World))
    (lead : BaseExecutive World) :
  _determine_lead_executive selected = inr lead ->
  (List.length (reviewers selected lead) <= List.length selected - 1)%nat.
Proof.
  destruct selected as [|first rest]; [discriminate |].
  intros [= <-]. unfold reviewers. cbn [filter].
  rewrite String.eqb_refl. cbn [negb List.length].
  pose proof (filter_length_le
                (fun exec_info =>
                   negb (String.eqb (name (selected_executive exec_info))
                           (name (selected_executive first)))) rest).
  lia.
Qed.

Lemma build_consensus_empty (self : ConsensusBuilder)
    (rec : ExecutiveRecommendation)
    (participating : list DecisionParticipation)
    (history history' : list ConsensusOutcome) (outcome : ConsensusOutcome) :
  build_consensus self rec [] participating history
  = (inr outcome, history') ->
  support_percentage outcome = 0.
Proof.
  unfold build_consensus, record_outcome, _create_consensus_outcome,
    new_ConsensusOutcome.
  cbn [_calculate_support_metrics weighted_support _identify_conflicts
         List.length Nat.ltb Nat.leb all_conflicts critical_conflicts
         is_empty andb].
  destruct (Py.geb 0 _); cbn;
    intros [= <- _]; reflexivity.
Qed.


Lemma build_consensus_call_empty (self : ExecutiveTeamOrchestrator World)
    (rec : ExecutiveRecommendation)
    (participating : list DecisionParticipation) (s s' : State World)
    (outcome : ConsensusOutcome) :
  build_consensus_call self rec [] participating s = Ok outcome s' ->
  support_percentage outcome = 0.
Proof.
  unfold build_consensus_call.
  destruct (build_consensus _ rec [] participating _)
    as [[e | outcome'] history'] eqn:E; [discriminate |].
  intros [= <- _]. eapply build_consensus_empty. exact E.
Qed.

Lemma lead_has_record (selected : list (Selected World))
    (lead : BaseExecutive World) :
  _determine_lead_executive selected = inr lead ->
  exists p,
    In p (_create_participation_records selected lead)
    /\ executive_id p = name lead
    /\ participation_type p = "recommender".
Proof.
  destruct selected as [|first rest]; [discriminate |].
  intros [= <-]. eexists. split; [left; reflexivity |].
  cbn. rewrite String.eqb_refl. split; reflexivity.
Qed.

Lemma gathered_evaluations (recommendation : ExecutiveRecommendation)
    (selected : list (Selected World)) (lead : BaseExecutive World)
    (s s' : State World) (evaluations : list ConsensusEvaluation) :
  _determine_lead_executive selected = inr lead ->
  _gather_evaluations recommendation selected lead s = Ok evaluations s' ->
  ~ In (name lead) (map evaluator_id evaluations)
  /\ (List.length evaluations <= List.length selected - 1)%nat.
Proof.
  intros Hlead Hgather.
  apply gather_evaluations_reviewers in Hgather. split.
  - rewrite Hgather. apply reviewers_exclude_lead.
  - rewrite <- (length_map evaluator_id), Hgather, length_map.
    apply reviewers_fewer. assumption.
Qed.

Lemma participation_rate_bound (evaluations : list ConsensusEvaluation)
    (participating : list DecisionParticipation) :
  (1 <= List.length participating)%nat ->
  (List.length evaluations <= List.length participating - 1)%nat ->
  participation_rate (_calculate_support_metrics evaluations participating)
  <= Py.float (List.length participating - 1)
     / Py.float (List.length participating).
Proof.
  intros Hn Hle.
  assert (Hpos : 0 < Py.float (List.length participating)).
  { change 0 with (Py.float 0). apply float_lt. lia. }
  destruct evaluations as [|e es].
  - cbn [_calculate_support_metrics participation_rate].
    apply le_div; [assumption |]. rewrite Qmult_0_l. apply float_nonneg.
  - destruct (ConsensusFacts.support_metrics_nonempty e es participating)
      as (_ & _ & Hrate).
    cbv zeta in Hrate. rewrite Hrate. unfold Py.len.
    by_cases_on (Py.gtb (Py.float (List.length participating)) 0);
      [| lra].
    apply div_le; [assumption |].
    assert (Hd : Py.float (List.length participating - 1)
                 / Py.float (List.length participating)
                 * Py.float (List.length participating)
                 == Py.float (List.length participating - 1))
      by (field; lra).
    rewrite Hd. apply float_le. assumption.
Qed.

(** C10. The lead executive has a participation record, as recommender,
    and no evaluation: the evaluations gathered from [n] selected
    executives are at most [n - 1], none of them the lead's, so the
    participation rate is at most [(n - 1) / n]; with a single selected
    executive the evaluation set is empty and every support metric is zero.
    The same holds of the final round of every decision run, whose support
    percentage is then zero. *)
Theorem lead_never_evaluates (self : ExecutiveTeamOrchestrator World)
    (request : DecisionRequest) (lead : BaseExecutive World) :
  let selected := _select_relevant_executives self request in
  let n := List.length selected in
  let participating := _create_participation_records selected lead in
  _determine_lead_executive selected = inr lead ->
  (exists p,
     In p participating
     /\ executive_id p = name lead
     /\ participation_type p = "recommender")
  /\ (forall (recommendation : ExecutiveRecommendation) (s s' : State World)
        (evaluations : list ConsensusEvaluation),
        _gather_evaluations recommendation selected lead s
        = Ok evaluations s' ->
        ~ In (name lead) (map evaluator_id evaluations)
        /\ (List.length evaluations <= n - 1)%nat
        /\ participation_rate
             (_calculate_support_metrics evaluations participating)
           <= Py.float (n - 1) / Py.float n
        /\ (n = 1%nat ->
            evaluations = []
            /\ _calculate_support_metrics evaluations participating
               = {| weighted_support := 0;
                    unweighted_support := 0;
                    participation_rate := 0;
                    strong_support := 0;
                    moderate_support := 0;
                    neutral := 0;
                    moderate_opposition := 0;
                    strong_opposition := 0 |}))
  /\ (forall (fuel : nat) (s s' : State World) (d : DecisionOutcome),
        make_decision fuel self request s = Ok d s' ->
        exists final after,
          final_round fuel self request s final after
          /\ consensus d = consensus_outcome final
          /\ ~ In (name lead) (map evaluator_id (evaluations final))
          /\ (List.length (evaluations final) <= n - 1)%nat
          /\ (n = 1%nat ->
              evaluations final = []
              /\ support_percentage (consensus d) = 0)).
Proof.
  intros selected n participating Hlead.
  assert (Hn : (1 <= n)%nat).
  { subst n. destruct selected; [discriminate | cbn; lia]. }
  assert (Hparts : List.length participating = n).
  { subst participating n. unfold _create_participation_records.
    apply length_map. }
  split; [apply lead_has_record; assumption |]. split.
  - intros recommendation s s' evaluations Hgather.
    destruct (gathered_evaluations _ _ _ _ _ _ Hlead Hgather)
      as [Hnot Hlen].
    fold n in Hlen.
    split; [assumption |]. split; [assumption |]. split.
    + rewrite <- Hparts. apply participation_rate_bound; lia.
    + intro H1. assert (evaluations = []) as ->
        by (destruct evaluations; [reflexivity | cbn in Hlen; lia]).
      split; reflexivity.
  - intros fuel s s' d Hrun.
    destruct (make_decision_returns _ _ _ _ _ _ Hrun)
      as (final & after & Hfinal & _ & Hc & _).
    exists final, after. split; [assumption |]. split; [assumption |].
    destruct Hfinal
      as (lead' & primary & s1 & evaluations0 & s2 & outcome0 & s3
          & Hlead' & _ & Hgather & Hbuild & Hloop).
    fold selected in Hlead', Hgather, Hbuild, Hloop.
    assert (lead' = lead) as -> by congruence.
    fold participating in Hbuild, Hloop.
    apply (resolution_loop_invariant
             (fun r _ =>
                ~ In (name lead) (map evaluator_id (evaluations r))
                /\ (List.length (evaluations r) <= n - 1)%nat
                /\ (n = 1%nat ->
                    evaluations r = []
                    /\ support_percentage (consensus_outcome r) = 0)))
      in Hloop.
    + destruct Hloop as [(H1 & H2 & H3) _]. rewrite Hc.
      repeat split; try assumption; apply H3; assumption.
    + intros r t updated t1 evaluations' t2 outcome' t3 _ _ _ Hg Hb.
      cbn [evaluations consensus_outcome].
      destruct (gathered_evaluations _ _ _ _ _ _ Hlead Hg) as [Hnot Hlen].
      fold n in Hlen. split; [assumption |]. split; [assumption |].
      intro H1. assert (evaluations' = []) as ->
        by (destruct evaluations'; [reflexivity | cbn in Hlen; lia]).
      split; [reflexivity |].
      eapply build_consensus_call_empty. eassumption.
    + cbn [evaluations consensus_outcome].
      destruct (gathered_evaluations _ _ _ _ _ _ Hlead Hgather)
        as [Hnot Hlen].
      fold n in Hlen. split; [assumption |]. split; [assumption |].
      intro H1. assert (evaluations0 = []) as ->
        by (destruct evaluations0; [reflexivity | cbn in Hlen; lia]).
      split; [reflexivity |].
      eapply build_consensus_call_empty. eassumption.
Qed.

End Runs.

(** *** The properties on the board of four and on the team of one *)

Lemma resolution_rounds_bounded_witness :
  match
    make_decision 3 Boardroom.solo Boardroom.request Boardroom.start
  with
  | Ok d s' =>
      (1 <= resolution_attempts d <= 3)%Z
      /\ List.length (consensus_history s')
         = (List.length (consensus_history Boardroom.start)
            + Z.to_nat (resolution_attempts d))%nat
      /\ ((consensus_level (consensus d) <> DIVIDED_OPINION
           /\ consensus_level (consensus d) <> STRONG_DISAGREEMENT)
          \/ resolution_attempts d = 3%Z)
      /\ (exists earlier,
            consensus_history s'
            = consensus_history Boardroom.start ++ earlier ++ [consensus d]
            /\ Forall unsettled earlier)
  | Raise _ s' =>
      (List.length (consensus_history s')
       <= List.length (consensus_history Boardroom.start) + Z.to_nat 3)%nat
      /\ (exists rounds,
            consensus_history s'
            = consensus_history Boardroom.start ++ rounds
            /\ Forall unsettled rounds
            /\ (Z.of_nat (List.length rounds) < 3)%Z)
  | Timeout => False
  end.
Proof.
  exact (resolution_rounds_bounded unit 3 Boardroom.solo Boardroom.request
           Boardroom.start eq_refl (le_n 3)).
Defined.

Lemma veto_fires_and_escalates_witness :
  veto_applied
    (_check_for_vetos Boardroom.board Boardroom.approved
       [Boardroom.review "cfo" "finance" 0.9;
        Boardroom.review "cro" "risk" 0.1])
  = true.
Proof.
  apply (proj1 (veto_fires_and_escalates unit Boardroom.board eq_refl)).
  exists "cro", Boardroom.risk_officer, "risk",
    (Boardroom.review "cro" "risk" 0.1).
  split; [right; left; reflexivity |].
  split; [reflexivity |].
  split; [left; reflexivity |].
  split; [left; reflexivity |].
  split; [right; left; reflexivity |].
  split; [reflexivity |].
  cbn. lra.
Defined.

Lemma lead_never_evaluates_witness :
  exists p,
    In p
      (_create_participation_records
         (_select_relevant_executives Boardroom.board Boardroom.request)
         (Boardroom.steady "cso" "strategy" 0.9))
    /\ executive_id p = "cso"
    /\ participation_type p = "recommender".
Proof.
  exact (proj1
           (lead_never_evaluates unit Boardroom.board Boardroom.request
              (Boardroom.steady "cso" "strategy" 0.9) eq_refl)).
Defined.

(** The board of four: the reviewers' support is about 0.75, above the
    escalation threshold of 0.3, and the risk officer's veto alone escalates
    the decision. *)
Example board_vetoed :
  exists d s',
    make_decision 3 Boardroom.board Boardroom.request Boardroom.start
    = Ok d s'
    /\ metrics_veto_applied (decision_metrics d) = true
    /\ escalated_to_human d = true
    /\ Py.ltb (support_percentage (consensus d)) 0.3 = false
    /\ resolution_attempts d = 1%Z.
Proof.
  eexists. eexists. split; [vm_compute; reflexivity |]. repeat split.
Qed.

(** The team of one: no evaluation is ever gathered, the three rounds all
    end in strong disagreement with a support of zero. *)
Example solo_exhausts_budget :
  exists d s',
    make_decision 3 Boardroom.solo Boardroom.request Boardroom.start
    = Ok d s'
    /\ resolution_attempts d = 3%Z
    /\ List.length (consensus_history s') = 3%nat
    /\ consensus_level (consensus d) = STRONG_DISAGREEMENT
    /\ support_percentage (consensus d) = 0
    /\ escalated_to_human d = true.
Proof.
  eexists. eexists. split; [vm_compute; reflexivity |]. repeat split.
Qed.

End OrchestratorFacts.

(** ** More about the consensus builder *)

Module ConsensusExtras.
Import Executive Consensus Reference PyFacts.

(** *** The agreement bands *)

Lemma support_metrics_bands (e : ConsensusEvaluation)
    (es : list ConsensusEvaluation)
    (participating : list DecisionParticipation) :
  let evaluations := e :: es in
  let metrics := _calculate_support_metrics evaluations participating in
  strong_support metrics
  = count_where (fun e => Py.geb (agreement_level e) 0.8) evaluations
  /\ moderate_support metrics
     = count_where
         (fun e => Py.leb 0.6 (agreement_level e)
                   && Py.ltb (agreement_level e) 0.8)%bool evaluations
  /\ neutral metrics
     = count_where
         (fun e => Py.leb 0.4 (agreement_level e)
                   && Py.ltb (agreement_level e) 0.6)%bool evaluations
  /\ moderate_opposition metrics
     = count_where
         (fun e => Py.leb 0.2 (agreement_level e)
                   && Py.ltb (agreement_level e) 0.4)%bool evaluations
  /\ strong_opposition metrics
     = count_where (fun e => Py.ltb (agreement_level e) 0.2) evaluations.
Proof.
  cbv zeta. unfold _calculate_support_metrics.
  destruct (fold_left (weigh participating) (e :: es) ([], 0))
    as [weighted_agreements total_weight].
  cbn [strong_support moderate_support neutral moderate_opposition
         strong_opposition].
  repeat split.
Qed.

(** Every agreement level falls in exactly one of the five bands. *)
Lemma one_band (a : Q) :
  ((if Py.geb a 0.8 then 1 else 0)
   + (if (Py.leb 0.6 a && Py.ltb a 0.8)%bool then 1 else 0)
   + (if (Py.leb 0.4 a && Py.ltb a 0.6)%bool then 1 else 0)
   + (if (Py.leb 0.2 a && Py.ltb a 0.4)%bool then 1 else 0)
   + (if Py.ltb a 0.2 then 1 else 0) = 1)%nat.
Proof.
  by_cases_on (Py.geb a 0.8); by_cases_on (Py.leb 0.6 a);
    by_cases_on (Py.ltb a 0.8); by_cases_on (Py.leb 0.4 a);
    by_cases_on (Py.ltb a 0.6); by_cases_on (Py.leb 0.2 a);
    by_cases_on (Py.ltb a 0.4); by_cases_on (Py.ltb a 0.2);
    cbn; try reflexivity; exfalso; lra.
Qed.

Lemma count_where_cons {A} (p : A -> bool) (x : A) (xs : list A) :
  count_where p (x :: xs)
  = ((if p x then 1 else 0) + count_where p xs)%nat.
Proof.
  unfold count_where. cbn [filter]. destruct (p x); reflexivity.
Qed.

(** X1. The five band counts of the support metrics add up to the number
    of evaluations: every evaluator is counted in exactly one band. *)
Theorem agreement_bands_partition (evaluations : list ConsensusEvaluation)
    (participating : list DecisionParticipation) :
  let metrics := _calculate_support_metrics evaluations participating in
  (strong_support metrics + moderate_support metrics + neutral metrics
   + moderate_opposition metrics + strong_opposition metrics
   = List.length evaluations)%nat.
Proof.
  cbv zeta. destruct evaluations as [|e es]; [reflexivity |].
  destruct (support_metrics_bands e es participating)
    as (-> & -> & -> & -> & ->).
  generalize (e :: es). intro l.
  induction l as [|x l IH]; [reflexivity |].
  rewrite !count_where_cons. cbn [List.length].
  pose proof (one_band (agreement_level x)). lia.
Qed.

(** *** The detected conflicts *)

Lemma majority_is_frequent (count total : nat) :
  Py.gtb (Py.float count) (Py.float total / 2) = true ->
  Py.gtb (Py.float count) (Py.float total / 3) = true.
Proof.
  rewrite !gtb_true, !div_lt by lra.
  pose proof (float_nonneg count). pose proof (float_nonneg total).
  intro. lra.
Qed.

Lemma shared_concerns_critical (evaluations : list ConsensusEvaluation)
    (frequent : list ConcernEntry) (acc : list Conflict * list Conflict) :
  incl (snd acc) (fst acc) ->
  Forall critical_severity (snd acc) ->
  let acc' := fold_left (add_shared_concern evaluations) frequent acc in
  incl (snd acc') (fst acc') /\ Forall critical_severity (snd acc').
Proof.
  revert acc. induction frequent as [|c cs IH]; intros acc Hi Hs; cbv zeta.
  - split; assumption.
  - cbn [fold_left]. apply IH; unfold add_shared_concern; cbn [fst snd].
    + destruct (Py.gtb _ (Py.len evaluations / 2)).
      * apply incl_app_app; [assumption | apply incl_refl].
      * apply incl_appl. assumption.
    + destruct (Py.gtb _ (Py.len evaluations / 2)) eqn:E; [| assumption].
      apply Forall_app. split; [assumption |].
      constructor; [| constructor]. cbn.
      unfold Py.len in *. rewrite (majority_is_frequent _ _ E). reflexivity.
Qed.

Lemma polarization_critical (evaluations : list ConsensusEvaluation)
    (acc : list Conflict * list Conflict) :
  incl (snd acc) (fst acc) ->
  Forall critical_severity (snd acc) ->
  let acc' := add_polarization evaluations acc in
  incl (snd acc') (fst acc') /\ Forall critical_severity (snd acc').
Proof.
  intros Hi Hs. cbv zeta. unfold add_polarization.
  destruct (supportive_of evaluations); [split; assumption |].
  destruct (opposing_of evaluations); [split; assumption |].
  cbn [fst snd conflict_severity].
  destruct (is_high _) eqn:E.
  - split.
    + apply incl_app_app; [assumption | apply incl_refl].
    + apply Forall_app. split; [assumption |].
      constructor; [| constructor]. cbn.
      destruct (_ && _)%bool; [reflexivity | discriminate E].
  - split; [apply incl_appl |]; assumption.
Qed.

(** X3. Every critical conflict is among the detected conflicts; a critical
    shared concern has medium severity, and every other critical conflict
    has high severity. *)
Theorem critical_conflicts_are_detected
    (evaluations : list ConsensusEvaluation) :
  let detected := _identify_conflicts evaluations in
  incl (critical_conflicts detected) (all_conflicts detected)
  /\ Forall critical_severity (critical_conflicts detected).
Proof.
  cbv zeta. unfold _identify_conflicts.
  destruct (List.length evaluations <? 2)%nat.
  - split; [apply incl_refl | constructor].
  - cbn [all_conflicts critical_conflicts].
    set (frequent := filter _ (Py.values (count_concerns evaluations))).
    destruct (shared_concerns_critical evaluations frequent ([], []))
      as [S1 S2]; [apply incl_refl | constructor |].
    cbv zeta in S1, S2.
    destruct (polarization_critical evaluations _ S1 S2) as [P1 P2].
    cbv zeta in P1, P2. split.
    + apply incl_app_app; [assumption |].
      intros c Hc. apply filter_In in Hc. apply Hc.
    + apply Forall_app. split; [assumption |].
      apply Forall_forall. intros c Hc. apply filter_In in Hc.
      destruct Hc as [Hin Hh].
      destruct c; cbn in *.
      * unfold _identify_role_conflicts in Hin.
        destruct (1 <? _)%nat; [| contradiction].
        apply in_flat_map in Hin. destruct Hin as [[r1 g1] [_ Hin]].
        apply in_flat_map in Hin. destruct Hin as [[r2 g2] [_ Hin]].
        destruct (String.leb r2 r1); [contradiction |].
        destruct (Py.gtb _ 0.4); [| contradiction].
        destruct Hin as [Hin | []]. discriminate Hin.
      * destruct severity; (reflexivity || discriminate).
      * destruct severity; (reflexivity || discriminate).
Qed.

(** *** Dictionaries *)

Lemma contains_keys {V} (d : Py.dict V) (k : string) :
  Py.contains d k = true <-> In k (Py.keys d).
Proof.
  unfold Py.contains. induction d as [|[k' v] d IH]; cbn.
  - split; [discriminate | contradiction].
  - destruct (String.eqb k' k) eqn:E.
    + apply String.eqb_eq in E. split; [left; assumption | reflexivity].
    + apply String.eqb_neq in E. rewrite IH. split; [right; assumption |].
      intros [H | H]; [contradiction | assumption].
Qed.

Lemma keys_set {V} (d : Py.dict V) (k : string) (v : V) :
  Py.keys (Py.set d k v)
  = if Py.contains d k then Py.keys d else Py.keys d ++ [k].
Proof.
  unfold Py.contains, Py.keys. induction d as [|[k' v'] d IH]; cbn.
  - reflexivity.
  - destruct (String.eqb k' k) eqn:E; cbn; [reflexivity |].
    rewrite IH. destruct (Py.get d k); reflexivity.
Qed.

Lemma keys_set_incl {V} (d : Py.dict V) (k : string) (v : V) :
  incl (Py.keys d) (Py.keys (Py.set d k v)).
Proof.
  rewrite keys_set. destruct (Py.contains d k);
    [apply incl_refl | apply incl_appl, incl_refl].
Qed.

Lemma keys_set_NoDup {V} (d : Py.dict V) (k : string) (v : V) :
  NoDup (Py.keys d) -> NoDup (Py.keys (Py.set d k v)).
Proof.
  intro H. rewrite keys_set. destruct (Py.contains d k) eqn:E;
    [assumption |].
  apply NoDup_app; [assumption | repeat constructor; intros [] |].
  intros x Hx [<- | []].
  apply contains_keys in Hx. congruence.
Qed.

Lemma get_in_values {V} (d : Py.dict V) (k : string) (v : V) :
  Py.get d k = Some v -> In v (Py.values d).
Proof.
  induction d as [|[k' v'] d IH]; cbn; [discriminate |].
  destruct (String.eqb k' k); [intros [= ->]; left; reflexivity |].
  intro H. right. apply IH, H.
Qed.

Lemma values_set_Forall {V} (P : V -> Prop) (d : Py.dict V) (k : string)
    (v : V) :
  Forall P (Py.values d) -> P v -> Forall P (Py.values (Py.set d k v)).
Proof.
  intros Hd Hv. induction d as [|[k' v'] d IH]; cbn.
  - constructor; [assumption | constructor].
  - inversion Hd as [|? ? Hv' Hd']; subst.
    destruct (String.eqb k' k); cbn; constructor; auto.
Qed.

(** *** Shared concerns *)

(** Every entry of [concern_count] lists one evaluator per mention. *)
Lemma count_concerns_mentions (evaluations : list ConsensusEvaluation) :
  Forall (fun entry => List.length (evaluators entry) = count entry)
    (Py.values (count_concerns evaluations)).
Proof.
  unfold count_concerns.
  assert (H : forall (d : Py.dict ConcernEntry),
             Forall (fun entry => List.length (evaluators entry) = count entry)
               (Py.values d) ->
             Forall (fun entry => List.length (evaluators entry) = count entry)
               (Py.values
                  (fold_left
                     (fun concern_count e =>
                        fold_left (note_concern (evaluator_id e))
                          (concerns e) concern_count)
                     evaluations d))).
  { induction evaluations as [|e es IH]; intros d Hd; cbn [fold_left];
      [assumption |].
    apply IH. generalize (concerns e). intro cs. revert d Hd.
    induction cs as [|c cs IHc]; intros d Hd; cbn [fold_left];
      [assumption |].
    apply IHc. unfold note_concern.
    destruct (Py.get d (Py.lower c)) as [entry|] eqn:E.
    - apply values_set_Forall; [assumption |]. cbn.
      rewrite length_app. cbn.
      pose proof (get_in_values _ _ _ E) as Hin.
      rewrite Forall_forall in Hd. rewrite (Hd _ Hin). lia.
    - apply values_set_Forall; [assumption | reflexivity]. }
  apply H. constructor.
Qed.

Lemma shared_concerns_mentioned (evaluations : list ConsensusEvaluation)
    (frequent : list ConcernEntry) (acc : list Conflict * list Conflict) :
  Forall (fun c => (2 <= List.length (evaluators c))%nat) frequent ->
  Forall mentioned_twice (fst acc) ->
  Forall mentioned_twice
    (fst (fold_left (add_shared_concern evaluations) frequent acc)).
Proof.
  intro Hf. revert acc.
  induction Hf as [|c cs Hc _ IH]; intros acc Hacc; cbn [fold_left];
    [assumption |].
  apply IH. unfold add_shared_concern. cbn [fst].
  apply Forall_app. split; [assumption |].
  constructor; [exact Hc | constructor].
Qed.

(** *** Role-based conflicts *)

Lemma group_by_role_keys (evaluations : list ConsensusEvaluation) :
  NoDup (Py.keys (group_by_role evaluations))
  /\ incl (Py.keys (group_by_role evaluations))
       (map evaluator_role evaluations).
Proof.
  unfold group_by_role.
  assert (H : forall (d : Py.dict (list ConsensusEvaluation))
                     (seen : list string),
             NoDup (Py.keys d) -> incl (Py.keys d) seen ->
             let d' :=
               fold_left
                 (fun role_groups e =>
                    let role := evaluator_role e in
                    let role_groups :=
                      if negb (Py.contains role_groups role)
                      then Py.set role_groups role [] else role_groups in
                    Py.set role_groups role
                      (Py.get_default role_groups role [] ++ [e]))
                 evaluations d in
             NoDup (Py.keys d')
             /\ incl (Py.keys d') (seen ++ map evaluator_role evaluations)).
  { induction evaluations as [|e es IH]; intros d seen Hn Hi; cbv zeta;
      cbn [fold_left map].
    - rewrite app_nil_r. split; assumption.
    - set (d1 := if negb (Py.contains d (evaluator_role e))
                 then Py.set d (evaluator_role e) [] else d).
      assert (H1 : NoDup (Py.keys d1)
                   /\ incl (Py.keys d1) (seen ++ [evaluator_role e])).
      { subst d1. destruct (Py.contains d (evaluator_role e)) eqn:E;
          cbn [negb].
        - split; [assumption | apply incl_appl; assumption].
        - split; [apply keys_set_NoDup; assumption |].
          rewrite keys_set, E.
          apply incl_app_app; [assumption | apply incl_refl]. }
      destruct H1 as [Hn1 Hi1].
      destruct (IH (Py.set d1 (evaluator_role e)
                      (Py.get_default d1 (evaluator_role e) [] ++ [e]))
                  (seen ++ [evaluator_role e])) as [I1 I2].
      + apply keys_set_NoDup. assumption.
      + rewrite keys_set.
        destruct (Py.contains d1 (evaluator_role e)); [assumption |].
        apply incl_app; [assumption |]. apply incl_appr, incl_refl.
      + cbv zeta in I1, I2. split; [assumption |].
        rewrite <- app_assoc in I2. exact I2. }
  destruct (H [] [] ltac:(constructor) ltac:(apply incl_refl)) as [H1 H2].
  split; assumption.
Qed.

Lemma role_conflicts_oppose (evaluations : list ConsensusEvaluation) :
  Forall (opposes_roles evaluations) (_identify_role_conflicts evaluations).
Proof.
  unfold _identify_role_conflicts.
  destruct (1 <? List.length (group_by_role evaluations))%nat;
    [| constructor].
  destruct (group_by_role_keys evaluations) as [_ Hkeys].
  apply Forall_forall. intros c Hc.
  apply in_flat_map in Hc. destruct Hc as [[role1 group1] [H1 Hc]].
  apply in_flat_map in Hc. destruct Hc as [[role2 group2] [H2 Hc]].
  destruct (String.leb role2 role1) eqn:Eleb; [contradiction |].
  by_cases_on (Py.gtb (Qabs (avg_agreement group1 - avg_agreement group2))
                 0.4); [| contradiction].
  destruct Hc as [<- | []].
  assert (Hne : role1 <> role2).
  { intros ->. destruct (String.leb_total role2 role2); congruence. }
  assert (Hr1 : In role1 (map evaluator_role evaluations)).
  { apply Hkeys. apply (in_map fst) in H1. exact H1. }
  assert (Hr2 : In role2 (map evaluator_role evaluations)).
  { apply Hkeys. apply (in_map fst) in H2. exact H2. }
  unfold opposes_roles, role_conflict. cbv beta iota zeta.
  destruct (Py.gtb (avg_agreement group1) (avg_agreement group2));
    (split; [congruence |]); (split; [assumption |]);
    (split; [assumption |]); (split; [assumption |]);
    (by_cases_on (Py.gtb (Qabs (avg_agreement group1 - avg_agreement group2))
                    0.6);
     (split; intro Hs);
     [assumption | reflexivity | discriminate Hs | exfalso; lra]).
Qed.

(** X4. Every shared concern among the detected conflicts lists at least
    two affected executives, one per mention of the concern. *)
Theorem shared_concerns_are_mentioned_twice
    (evaluations : list ConsensusEvaluation) :
  Forall mentioned_twice (all_conflicts (_identify_conflicts evaluations)).
Proof.
  unfold _identify_conflicts.
  destruct (List.length evaluations <? 2)%nat; [constructor |].
  cbn [all_conflicts]. apply Forall_app. split.
  - unfold add_polarization.
    set (acc := fold_left _ _ _).
    assert (Hacc : Forall mentioned_twice (fst acc)).
    { subst acc. apply shared_concerns_mentioned; [| constructor].
      apply Forall_forall. intros c Hc. apply filter_In in Hc.
      destruct Hc as [Hin Hcount]. apply Nat.ltb_lt in Hcount.
      pose proof (count_concerns_mentions evaluations) as Hm.
      rewrite Forall_forall in Hm. rewrite (Hm _ Hin). lia. }
    destruct (supportive_of evaluations); [assumption |].
    destruct (opposing_of evaluations); [assumption |].
    cbn [fst]. apply Forall_app. split; [assumption |].
    repeat constructor.
  - eapply Forall_impl; [| apply role_conflicts_oppose].
    intros [] H; cbn in *; tauto.
Qed.

(** X5. Every role-based conflict opposes two different roles found among
    the evaluators, whose average agreement levels are more than 0.4
    apart; its severity is high exactly when they are more than 0.6
    apart. *)
Theorem role_conflicts_are_well_formed
    (evaluations : list ConsensusEvaluation) :
  Forall (opposes_roles evaluations) (_identify_role_conflicts evaluations).
Proof.
  exact (role_conflicts_oppose evaluations).
Qed.

(** X6. When all the evaluators have the same role no role-based conflict
    is detected. *)
Theorem single_role_has_no_role_conflict
    (evaluations : list ConsensusEvaluation) (role : string) :
  Forall (fun e => evaluator_role e = role) evaluations ->
  _identify_role_conflicts evaluations = [].
Proof.
  intro Hall.
  destruct (group_by_role_keys evaluations) as [Hn Hi].
  assert (Hkeys : forall k, In k (Py.keys (group_by_role evaluations)) ->
                            k = role).
  { intros k Hk. apply Hi in Hk. apply in_map_iff in Hk.
    destruct Hk as [e [<- He]]. rewrite Forall_forall in Hall.
    apply Hall, He. }
  unfold _identify_role_conflicts.
  destruct (1 <? List.length (group_by_role evaluations))%nat eqn:E;
    [| reflexivity].
  apply Nat.ltb_lt in E. exfalso.
  unfold Py.keys in *. rewrite <- (length_map fst) in E.
  destruct (map fst (group_by_role evaluations)) as [|a [|b l]];
    cbn in E; try lia.
  assert (a = role) by (apply Hkeys; left; reflexivity).
  assert (b = role) by (apply Hkeys; right; left; reflexivity).
  subst. inversion Hn as [|? ? Hnot _]. apply Hnot. left. reflexivity.
Qed.

Lemma single_role_has_no_role_conflict_witness :
  _identify_role_conflicts
    [Boardroom.review "cfo" "finance" 0.9;
     Boardroom.review "treasurer" "finance" 0.1] = [].
Proof.
  apply (single_role_has_no_role_conflict _ "finance").
  repeat constructor.
Defined.

(** *** The revised recommendation *)

Lemma annotates_refl (r : ExecutiveRecommendation) : annotates r r.
Proof.
  repeat split; try apply incl_refl. exists []. now rewrite app_nil_r.
Qed.

Lemma with_analysis_annotates (r : ExecutiveRecommendation) (k : string)
    (a : Analysis) :
  In k annotation_keys -> annotates r (with_analysis r k a).
Proof.
  intro Hk. unfold annotates, with_analysis. cbn.
  repeat split.
  - apply keys_set_incl.
  - intros k' Hk'. apply ConsensusFacts.get_set_other.
    intros ->. apply Hk', Hk.
  - exists []. now rewrite app_nil_r.
Qed.

Lemma apply_resolution_annotates (method : ConflictResolutionMethod)
    (rec : ExecutiveRecommendation)
    (evaluations : list ConsensusEvaluation) :
  annotates rec (_apply_resolution_method method rec evaluations).
Proof.
  unfold _apply_resolution_method.
  destruct method;
    try (unfold annotates, with_uncertainty; cbn; repeat split;
         [apply incl_refl | eexists; reflexivity]).
  - destruct (firstn 2 _); [apply annotates_refl |].
    apply with_analysis_annotates. cbn. tauto.
  - destruct (flat_map suggestions evaluations); [apply annotates_refl |].
    apply with_analysis_annotates. cbn. tauto.
  - apply with_analysis_annotates. cbn. tauto.
Qed.

(** X7. Applying a resolution method only annotates the recommendation:
    title and summary stay, no analysis key is lost, the analyses outside
    the three annotation keys are untouched, and the uncertainty factors
    are only extended. *)
Theorem resolution_only_annotates (method : ConflictResolutionMethod)
    (rec : ExecutiveRecommendation)
    (evaluations : list ConsensusEvaluation) :
  annotates rec (_apply_resolution_method method rec evaluations).
Proof.
  exact (apply_resolution_annotates method rec evaluations).
Qed.

(** *** The outcome of a consensus round *)

(** The three ways in which [build_consensus] returns an outcome. *)
Lemma build_consensus_cases (self : ConsensusBuilder)
    (rec : ExecutiveRecommendation)
    (evaluations : list ConsensusEvaluation)
    (participating : list DecisionParticipation)
    (history history' : list ConsensusOutcome) (outcome : ConsensusOutcome) :
  build_consensus self rec evaluations participating history
  = (inr outcome, history') ->
  let metrics := _calculate_support_metrics evaluations participating in
  let conflicts := _identify_conflicts evaluations in
  (exists description,
     new_ConsensusOutcome rec
       (_determine_consensus_level (weighted_support metrics))
       (weighted_support metrics) [] [] []
       (critical_conflicts conflicts) description false None
     = inr outcome)
  \/ (let method := _select_resolution_method conflicts in
      let support :=
        _estimate_new_support (weighted_support metrics) conflicts method in
      exists supporting opposing abstaining summary,
        new_ConsensusOutcome
          (_apply_resolution_method method rec evaluations)
          (_determine_consensus_level support) support
          supporting opposing abstaining
          (critical_conflicts conflicts)
          (ConflictResolutionMethod_value method) true summary
        = inr outcome).
Proof.
  unfold build_consensus, record_outcome, _create_consensus_outcome.
  cbv zeta.
  destruct (_ && _)%bool.
  - destruct (new_ConsensusOutcome _ _ _ _ _ _ _ _ _ _) eqn:E;
      [discriminate |].
    intros [= <- _]. left. eexists. exact E.
  - destruct (all_conflicts (_identify_conflicts evaluations)).
    + destruct (new_ConsensusOutcome _ _ _ _ _ _ _ _ _ _) eqn:E;
        [discriminate |].
      intros [= <- _]. left. eexists. exact E.
    + destruct (new_ConsensusOutcome _ _ _ _ _ _ _ _ _ _) eqn:E;
        [discriminate |].
      intros [= <- _]. right. do 4 eexists. exact E.
Qed.

Lemma new_ConsensusOutcome_fields (rec : ExecutiveRecommendation)
    (level : ConsensusLevel) (support : Q)
    (supporting opposing abstaining : list string)
    (conflicts : list Conflict) (method : string) (modified : bool)
    (summary : option string) (outcome : ConsensusOutcome) :
  new_ConsensusOutcome rec level support supporting opposing abstaining
    conflicts method modified summary = inr outcome ->
  outcome
  = Build_ConsensusOutcome rec level support supporting opposing abstaining
      conflicts method modified summary
  /\ 0 <= support <= 1.
Proof.
  unfold new_ConsensusOutcome.
  destruct (Py.unit_interval support) eqn:E; [| discriminate].
  intros [= <-]. split; [reflexivity |].
  apply unit_interval_true, E.
Qed.

(** X8. Every outcome that [build_consensus] returns has a support
    percentage in the unit interval that is at least the weighted support
    of the evaluations, the consensus level of that support percentage, and
    the critical conflicts of the evaluations as its key conflicts. *)
Theorem consensus_outcome_is_consistent (self : ConsensusBuilder)
    (rec : ExecutiveRecommendation)
    (evaluations : list ConsensusEvaluation)
    (participating : list DecisionParticipation)
    (history history' : list ConsensusOutcome) (outcome : ConsensusOutcome) :
  build_consensus self rec evaluations participating history
  = (inr outcome, history') ->
  0 <= support_percentage outcome <= 1
  /\ weighted_support (_calculate_support_metrics evaluations participating)
     <= support_percentage outcome
  /\ consensus_level outcome
     = _determine_consensus_level (support_percentage outcome)
  /\ key_conflicts outcome
     = critical_conflicts (_identify_conflicts evaluations).
Proof.
  intro H. apply build_consensus_cases in H. cbv zeta in H.
  destruct H as [[description H] | (a & b & c & d & H)];
    apply new_ConsensusOutcome_fields in H; destruct H as [-> Hs];
    cbn [support_percentage consensus_level key_conflicts];
    repeat split; try apply Hs.
  - apply Qle_refl.
  - unfold _estimate_new_support. apply max_ge_l.
Qed.

Lemma consensus_outcome_is_consistent_witness :
  exists outcome,
    fst (build_consensus Boardroom.builder Boardroom.proposal
           [Boardroom.review "cfo" "finance" 0.9;
            Boardroom.review "cro" "risk" 0.1] [] [])
    = inr outcome
    /\ consensus_level outcome
       = _determine_consensus_level (support_percentage outcome).
Proof.
  eexists. split; [vm_compute; reflexivity |].
  eapply (consensus_outcome_is_consistent Boardroom.builder
            Boardroom.proposal
            [Boardroom.review "cfo" "finance" 0.9;
             Boardroom.review "cro" "risk" 0.1] [] []).
  vm_compute. reflexivity.
Defined.

(** X9. The recommendation of every outcome that [build_consensus] returns
    is the input recommendation with annotations added, and it is the input
    recommendation itself when the outcome is not marked as modified. *)
Theorem consensus_keeps_the_recommendation (self : ConsensusBuilder)
    (rec : ExecutiveRecommendation)
    (evaluations : list ConsensusEvaluation)
    (participating : list DecisionParticipation)
    (history history' : list ConsensusOutcome) (outcome : ConsensusOutcome) :
  build_consensus self rec evaluations participating history
  = (inr outcome, history') ->
  annotates rec (recommendation outcome)
  /\ (modified_from_original outcome = false ->
      recommendation outcome = rec).
Proof.
  intro H. apply build_consensus_cases in H. cbv zeta in H.
  destruct H as [[description H] | (a & b & c & d & H)];
    apply new_ConsensusOutcome_fields in H; destruct H as [-> _];
    cbn [recommendation modified_from_original].
  - split; [apply annotates_refl | reflexivity].
  - split; [apply apply_resolution_annotates | discriminate].
Qed.

Lemma consensus_keeps_the_recommendation_witness :
  exists outcome,
    fst (build_consensus Boardroom.builder Boardroom.proposal
           [Boardroom.review "cfo" "finance" 0.9;
            Boardroom.review "cro" "risk" 0.1] [] [])
    = inr outcome
    /\ annotates Boardroom.proposal (recommendation outcome).
Proof.
  eexists. split; [vm_compute; reflexivity |].
  eapply (consensus_keeps_the_recommendation Boardroom.builder
            Boardroom.proposal
            [Boardroom.review "cfo" "finance" 0.9;
             Boardroom.review "cro" "risk" 0.1] [] []).
  vm_compute. reflexivity.
Defined.

(** X10. [build_consensus] appends the outcome it returns to the decision
    history and changes nothing else in it; when it raises, the history is
    as before. *)
Theorem consensus_history_is_append_only (self : ConsensusBuilder)
    (rec : ExecutiveRecommendation)
    (evaluations : list ConsensusEvaluation)
    (participating : list DecisionParticipation)
    (history : list ConsensusOutcome) :
  let result :=
    build_consensus self rec evaluations participating history in
  (forall outcome, fst result = inr outcome ->
                   snd result = history ++ [outcome])
  /\ (forall e, fst result = inl e -> snd result = history).
Proof.
  cbv zeta.
  pose proof (OrchestratorFacts.build_consensus_records self rec evaluations
                participating history) as H.
  destruct (build_consensus self rec evaluations participating history)
    as [[e | outcome] history']; cbn [fst snd]; split;
    intros x [= <-] || intros x [=]; assumption.
Qed.

(** *** The estimate of the new support *)

(** X11. The estimated new support never exceeds 0.95 when the current
    support does not, and it is the current support itself when that is
    already above 0.95. *)
Theorem estimate_is_capped (current_support : Q) (conflicts : Conflicts)
    (m : ConflictResolutionMethod) :
  (current_support <= 0.95 ->
   _estimate_new_support current_support conflicts m <= 0.95)
  /\ (0.95 < current_support ->
      _estimate_new_support current_support conflicts m = current_support).
Proof.
  unfold _estimate_new_support. split; intro H.
  - apply max_lub; [assumption | apply min_le_l].
  - unfold Py.max.
    by_cases_on (Py.gtb
                   (Py.min 0.95
                      (current_support + method_effectiveness m
                       - Py.min
                           (0.05 * Py.len (critical_conflicts conflicts))
                           0.15))
                   current_support); [| reflexivity].
    exfalso.
    pose proof (min_le_l 0.95
                  (current_support + method_effectiveness m
                   - Py.min (0.05 * Py.len (critical_conflicts conflicts))
                       0.15)).
    lra.
Qed.

Lemma estimate_is_capped_witness :
  _estimate_new_support 0.5
    {| all_conflicts := []; critical_conflicts := [] |} INTEGRATIVE
  <= 0.95
  /\ _estimate_new_support 0.97
       {| all_conflicts := []; critical_conflicts := [] |} INTEGRATIVE
     = 0.97.
Proof.
  split.
  - apply (proj1 (estimate_is_capped 0.5 _ INTEGRATIVE)). lra.
  - apply (proj2 (estimate_is_capped 0.97 _ INTEGRATIVE)). lra.
Defined.

Lemma min_monotone (a b c : Q) : b <= c -> Py.min a b <= Py.min a c.
Proof.
  intro H. apply min_glb.
  - apply min_le_l.
  - apply Qle_trans with b; [apply min_le_r | assumption].
Qed.

Lemma min_monotone_l (a b c : Q) : a <= b -> Py.min a c <= Py.min b c.
Proof.
  intro H. apply min_glb.
  - apply Qle_trans with a; [apply min_le_l | assumption].
  - apply min_le_r.
Qed.

Lemma max_monotone (a b c : Q) : b <= c -> Py.max a b <= Py.max a c.
Proof.
  intro H. apply max_lub.
  - apply max_ge_l.
  - apply Qle_trans with c; [assumption |].
    unfold Py.max. by_cases_on (Py.gtb c a); lra.
Qed.

(** X12. More critical conflicts never raise the estimate: for the same
    current support and method, the estimate with at least as many critical
    conflicts is at most the estimate with fewer. *)
Theorem estimate_falls_with_critical_conflicts (current_support : Q)
    (fewer more : Conflicts) (m : ConflictResolutionMethod) :
  (List.length (critical_conflicts fewer)
   <= List.length (critical_conflicts more))%nat ->
  _estimate_new_support current_support more m
  <= _estimate_new_support current_support fewer m.
Proof.
  intro H. unfold _estimate_new_support, Py.len.
  apply float_le in H.
  apply max_monotone, min_monotone.
  assert (Py.min (0.05 * Py.float (List.length (critical_conflicts fewer)))
            0.15
          <= Py.min (0.05 * Py.float (List.length (critical_conflicts more)))
               0.15)
    by (apply min_monotone_l; lra).
  lra.
Qed.

Lemma estimate_falls_with_critical_conflicts_witness :
  _estimate_new_support 0.5
    {| all_conflicts := [];
       critical_conflicts :=
         [polarized_opinion "divide" ["cso"; "cfo"] ["cro"; "clo"] high] |}
    STRUCTURED_DEBATE
  <= _estimate_new_support 0.5
       {| all_conflicts := []; critical_conflicts := [] |}
       STRUCTURED_DEBATE.
Proof.
  apply estimate_falls_with_critical_conflicts. cbn. lia.
Defined.

(** *** Opinion clusters *)

(** The three groups share out the evaluations. *)
Lemma three_groups (evaluations : list ConsensusEvaluation) :
  (List.length
     (filter (fun e => Py.geb (agreement_level e) 0.7) evaluations)
   + List.length
       (filter
          (fun e => Py.ltb 0.3 (agreement_level e)
                    && Py.ltb (agreement_level e) 0.7)%bool evaluations)
   + List.length
       (filter (fun e => Py.leb (agreement_level e) 0.3) evaluations)
   = List.length evaluations)%nat.
Proof.
  induction evaluations as [|e es IH]; [reflexivity |].
  cbn [filter].
  by_cases_on (Py.geb (agreement_level e) 0.7);
    by_cases_on (Py.ltb 0.3 (agreement_level e));
    by_cases_on (Py.ltb (agreement_level e) 0.7);
    by_cases_on (Py.leb (agreement_level e) 0.3);
    cbn [andb List.length]; try lia; exfalso; lra.
Qed.

Lemma cluster_of_size (level : string) (group : list ConsensusEvaluation) :
  (list_sum (map size (cluster_of level group)) <= List.length group)%nat.
Proof.
  unfold cluster_of. destruct (2 <=? List.length group)%nat; cbn; lia.
Qed.

(** The cluster of a group that a band selects. *)
Lemma cluster_of_band (level : string) (p : ConsensusEvaluation -> bool)
    (evaluations : list ConsensusEvaluation) :
  (forall e, p e = true <-> in_band level (agreement_level e)) ->
  Forall (cluster_in_band evaluations)
    (cluster_of level (filter p evaluations)).
Proof.
  intro Hband. unfold cluster_of.
  destruct (2 <=? _)%nat eqn:E; [| constructor].
  apply Nat.leb_le in E. constructor; [| constructor].
  unfold cluster_in_band. cbn [size members cluster_level].
  split; [exact E |]. split; [apply length_map |].
  intro evaluator. rewrite in_map_iff. split.
  - intros (e & Hid & Hin). apply filter_In in Hin.
    exists e. repeat split; [apply Hin | exact Hid |].
    apply Hband, Hin.
  - intros (e & Hin & Hid & Hb). exists e. split; [exact Hid |].
    apply filter_In. split; [exact Hin | apply Hband, Hb].
Qed.

(** X13. Every opinion cluster has at least two members, as many as its
    size, and its members are exactly the evaluators whose agreement level
    is in the band of its level (0.7 or more for high, strictly between 0.3
    and 0.7 for medium, 0.3 or less for low); the sizes of the clusters add
    up to at most the number of evaluations; and fewer than three
    evaluations give no cluster. *)
Theorem opinion_clusters_are_in_band
    (evaluations : list ConsensusEvaluation) :
  let clusters := _identify_opinion_clusters evaluations in
  Forall (cluster_in_band evaluations) clusters
  /\ (list_sum (map size clusters) <= List.length evaluations)%nat
  /\ ((List.length evaluations < 3)%nat -> clusters = []).
Proof.
  cbv zeta. unfold _identify_opinion_clusters.
  destruct (List.length evaluations <? 3)%nat eqn:E.
  - repeat split; [constructor | cbn; lia].
  - apply Nat.ltb_ge in E. split; [| split; [| lia]].
    + repeat rewrite Forall_app.
      repeat split; apply cluster_of_band; intro e; unfold in_band.
      * rewrite geb_true.
        intuition (discriminate || auto).
      * rewrite andb_true_iff, !ltb_true.
        intuition (discriminate || auto).
      * rewrite leb_true.
        intuition (discriminate || auto).
    + rewrite !map_app, !list_sum_app.
      pose proof (three_groups evaluations).
      pose proof (cluster_of_size "high"
                    (filter (fun e => Py.geb (agreement_level e) 0.7)
                       evaluations)).
      pose proof (cluster_of_size "medium"
                    (filter
                       (fun e => Py.ltb 0.3 (agreement_level e)
                                 && Py.ltb (agreement_level e) 0.7)%bool
                       evaluations)).
      pose proof (cluster_of_size "low"
                    (filter (fun e => Py.leb (agreement_level e) 0.3)
                       evaluations)).
      lia.
Qed.

(** *** The categories of concerns *)

Lemma category_of_is_a_category (c : string) :
  In (category_of c) concern_category_names.
Proof.
  unfold category_of.
  destruct (find _ (Py.items category_keywords)) as [[category keywords]|]
    eqn:E.
  - apply find_some in E. destruct E as [E _].
    cbn in E.
    repeat (destruct E as [E | E];
            [injection E as <- _; cbn; tauto |]).
    contradiction.
  - cbn. tauto.
Qed.

(** Adding one to the entry of a key that is there adds one to the total
    and keeps the keys. *)
Lemma set_increment (d : Py.dict nat) (k : string) (v : nat) :
  Py.get d k = Some v ->
  list_sum (Py.values (Py.set d k (v + 1)%nat))
  = (list_sum (Py.values d) + 1)%nat
  /\ Py.keys (Py.set d k (v + 1)%nat) = Py.keys d.
Proof.
  unfold Py.values, Py.keys.
  induction d as [|[k' v'] d IH]; cbn [Py.get Py.set]; [discriminate |].
  destruct (String.eqb k' k).
  - intros [= ->]. cbn [map fst snd list_sum fold_right].
    split; [lia | reflexivity].
  - intro H. destruct (IH H) as [I1 I2].
    cbn [map fst snd list_sum fold_right]. unfold list_sum in I1.
    rewrite I1, I2. split; [lia | reflexivity].
Qed.

Lemma increment_entry (d : Py.dict nat) (k : string) :
  In k (Py.keys d) ->
  let d' := Py.set d k (Py.get_default d k 0 + 1)%nat in
  list_sum (Py.values d') = (list_sum (Py.values d) + 1)%nat
  /\ Py.keys d' = Py.keys d.
Proof.
  intro Hin. apply contains_keys in Hin.
  unfold Py.contains in Hin. unfold Py.get_default. cbv zeta.
  destruct (Py.get d k) as [v|] eqn:E; [| discriminate].
  apply set_increment, E.
Qed.

(** X14. [_categorize_concerns] counts every concern in exactly one of the
    seven categories: the result has the seven category keys, in their
    order, and its counts add up to the number of concerns raised. *)
Theorem concerns_are_counted_once (evaluations : list ConsensusEvaluation) :
  let counts := _categorize_concerns evaluations in
  Py.keys counts = concern_category_names
  /\ list_sum (Py.values counts)
     = List.length (flat_map concerns evaluations).
Proof.
  cbv zeta. unfold _categorize_concerns. cbv zeta.
  set (start := [("risk", 0%nat); ("ethics", 0%nat); ("feasibility", 0%nat);
                 ("cost", 0%nat); ("strategy", 0%nat); ("legal", 0%nat);
                 ("other", 0%nat)]).
  assert (H : forall (d : Py.dict nat),
             Py.keys d = concern_category_names ->
             let d' :=
               fold_left
                 (fun concern_categories e =>
                    fold_left
                      (fun concern_categories c =>
                         let category := category_of c in
                         Py.set concern_categories category
                           (Py.get_default concern_categories category 0
                            + 1)%nat)
                      (concerns e) concern_categories)
                 evaluations d in
             Py.keys d' = concern_category_names
             /\ list_sum (Py.values d')
                = (list_sum (Py.values d)
                   + List.length (flat_map concerns evaluations))%nat).
  { induction evaluations as [|e es IH]; intros d Hd; cbv zeta;
      cbn [fold_left flat_map].
    - split; [assumption | cbn; lia].
    - rewrite length_app.
      assert (Hinner : forall (cs : list string) (d0 : Py.dict nat),
                 Py.keys d0 = concern_category_names ->
                 let d1 :=
                   fold_left
                     (fun concern_categories c =>
                        let category := category_of c in
                        Py.set concern_categories category
                          (Py.get_default concern_categories category 0
                           + 1)%nat)
                     cs d0 in
                 Py.keys d1 = concern_category_names
                 /\ list_sum (Py.values d1)
                    = (list_sum (Py.values d0) + List.length cs)%nat).
      { induction cs as [|c cs IHc]; intros d0 Hd0; cbv zeta;
          cbn [fold_left].
        - split; [assumption | cbn; lia].
        - destruct (increment_entry d0 (category_of c)) as [I1 I2].
          { rewrite Hd0. apply category_of_is_a_category. }
          cbv zeta in I1, I2.
          destruct (IHc _ (eq_trans I2 Hd0)) as [J1 J2].
          cbv zeta in J1, J2. split; [assumption |].
          rewrite J2, I1. cbn [List.length]. lia. }
      destruct (Hinner (concerns e) d Hd) as [K1 K2]. cbv zeta in K1, K2.
      destruct (IH _ K1) as [L1 L2]. cbv zeta in L1, L2.
      split; [assumption |]. rewrite L2, K2. lia. }
  destruct (H start eq_refl) as [H1 H2]. cbv zeta in H1, H2.
  split; [assumption |]. rewrite H2. reflexivity.
Qed.

End ConsensusExtras.

(** ** More about the orchestrator *)

Module OrchestratorExtras.
Import Executive Consensus Orchestrator Reference PyFacts.

(** *** Sorting *)

Lemma insert_desc_permutation {A} (key : A -> Q) (x : A) (xs : list A) :
  Permutation (Py.insert_desc key x xs) (x :: xs).
Proof.
  induction xs as [|y ys IH]; cbn; [reflexivity |].
  destruct (Py.geb (key x) (key y)); [reflexivity |].
  rewrite IH. apply perm_swap.
Qed.

Lemma sorted_desc_permutation {A} (key : A -> Q) (xs : list A) :
  Permutation (Py.sorted_desc key xs) xs.
Proof.
  unfold Py.sorted_desc. induction xs as [|x xs IH]; cbn; [reflexivity |].
  rewrite insert_desc_permutation. now rewrite IH.
Qed.

Lemma insert_desc_descending {A} (key : A -> Q) (x : A) (xs : list A) :
  descending key xs -> descending key (Py.insert_desc key x xs).
Proof.
  unfold descending. induction 1 as [|y ys Hs IH Hy]; cbn.
  - repeat constructor.
  - by_cases_on (Py.geb (key x) (key y)).
    + constructor; [constructor; assumption |].
      constructor; [assumption |].
      eapply Forall_impl; [| exact Hy]. cbn. intros z Hz. lra.
    + constructor; [assumption |].
      apply (Permutation_Forall
               (Permutation_sym (insert_desc_permutation key x ys))).
      constructor; [lra | assumption].
Qed.

Lemma sorted_desc_descending {A} (key : A -> Q) (xs : list A) :
  descending key (Py.sorted_desc key xs).
Proof.
  unfold Py.sorted_desc. induction xs as [|x xs IH]; cbn.
  - constructor.
  - apply insert_desc_descending, IH.
Qed.

Section Registry.

Variable World : Type.

(** *** The registry *)

Lemma set_entries_Forall {V} (P : string * V -> Prop) (d : Py.dict V)
    (k : string) (v : V) :
  Forall P d -> P (k, v) -> Forall P (Py.set d k v).
Proof.
  intros Hd Hv. induction Hd as [|[k' v'] d Hx Hd IH]; cbn.
  - constructor; [assumption | constructor].
  - destruct (String.eqb k' k) eqn:E.
    + apply String.eqb_eq in E. subst k'. constructor; assumption.
    + constructor; assumption.
Qed.

Lemma registry_wf_set (executives : Py.dict (TeamMember World))
    (k : string) (m : TeamMember World) :
  registry_wf executives -> name (executive m) = k ->
  registry_wf (Py.set executives k m).
Proof.
  intros [Hn Hf] Hk. split.
  - apply ConsensusExtras.keys_set_NoDup, Hn.
  - apply set_entries_Forall; assumption.
Qed.

(** X15. Registering an executive stores it under its name, active, with
    the given priorities and veto rights (none when omitted); the other
    entries, the configuration and the frameworks are as before; and the
    registry stays keyed by the executives' names. *)
Theorem register_then_lookup (self : ExecutiveTeamOrchestrator World)
    (e : BaseExecutive World) (priorities : Py.dict Z)
    (rights : option (list string)) :
  let self' := register_executive self e priorities rights in
  Py.get (executives self') (name e)
  = Some {| executive := e;
            role_priority := priorities;
            veto_rights := or_default rights [];
            is_active := true |}
  /\ (forall k, k <> name e ->
                Py.get (executives self') k = Py.get (executives self) k)
  /\ (registry_wf (executives self) -> registry_wf (executives self'))
  /\ config self' = config self
  /\ frameworks self' = frameworks self.
Proof.
  cbv zeta. unfold register_executive, with_executives. cbn.
  split; [apply ConsensusFacts.get_set_same |].
  split.
  { intros k Hk. apply ConsensusFacts.get_set_other. congruence. }
  split; [| split; reflexivity].
  intro Hwf. apply registry_wf_set; [assumption | reflexivity].
Qed.

Lemma set_get_same {V} (d : Py.dict V) (k : string) (v : V) :
  Py.get d k = Some v -> Py.set d k v = d.
Proof.
  induction d as [|[k' v'] d IH]; cbn; [discriminate |].
  destruct (String.eqb k' k).
  - intros [= ->]. reflexivity.
  - intro H. now rewrite IH.
Qed.

Lemma set_set {V} (d : Py.dict V) (k : string) (v1 v2 : V) :
  Py.set (Py.set d k v1) k v2 = Py.set d k v2.
Proof.
  induction d as [|[k' v'] d IH]; cbn.
  - now rewrite String.eqb_refl.
  - destruct (String.eqb k' k) eqn:E; cbn; rewrite E; [reflexivity |].
    now rewrite IH.
Qed.

(** X16. Deactivating and then reactivating a registered, active executive
    gives back the orchestrator as it was; both calls report success, and
    in between the executive is registered as inactive. *)
Theorem deactivate_then_reactivate (self : ExecutiveTeamOrchestrator World)
    (executive_name : string) (m : TeamMember World) :
  Py.get (executives self) executive_name = Some m ->
  is_active m = true ->
  let deactivated := deactivate_executive self executive_name in
  let reactivated :=
    reactivate_executive (fst deactivated) executive_name in
  snd deactivated = true
  /\ Py.get (executives (fst deactivated)) executive_name
     = Some (set_active false m)
  /\ snd reactivated = true
  /\ fst reactivated = self.
Proof.
  intros Hget Hactive. cbv zeta.
  unfold deactivate_executive. rewrite Hget. cbn [fst snd].
  unfold reactivate_executive, with_executives. cbn [executives].
  rewrite ConsensusFacts.get_set_same. cbn [fst snd config frameworks
                                            consensus_builder executives].
  repeat split.
  rewrite set_set.
  assert (set_active true (set_active false m) = m) as ->.
  { destruct m. cbn in *. subst. reflexivity. }
  rewrite (set_get_same _ _ _ Hget). destruct self. reflexivity.
Qed.

Lemma keys_set_present {V} (d : Py.dict V) (k : string) (v v' : V) :
  Py.get d k = Some v -> Py.keys (Py.set d k v') = Py.keys d.
Proof.
  intro H. rewrite ConsensusExtras.keys_set. unfold Py.contains.
  now rewrite H.
Qed.

Lemma registry_wf_get (executives : Py.dict (TeamMember World))
    (k : string) (m : TeamMember World) :
  registry_wf executives -> Py.get executives k = Some m ->
  name (executive m) = k.
Proof.
  intros [_ Hf] Hget. induction Hf as [|[k' m'] d Hx _ IH];
    cbn in Hget; [discriminate |].
  destruct (String.eqb k' k) eqn:E.
  - apply String.eqb_eq in E. injection Hget as <-. cbn in Hx. congruence.
  - apply IH, Hget.
Qed.

(** X17. Deactivating an executive reports success exactly when the name
    is registered; it keeps the names and their order, leaves every other
    entry as it is, keeps the registry keyed by the executives' names, and
    changes nothing at all when the name is not registered. The same holds
    of reactivating. *)
Theorem activation_touches_one_entry (self : ExecutiveTeamOrchestrator World)
    (executive_name : string) :
  let changed :=
    [deactivate_executive self executive_name;
     reactivate_executive self executive_name] in
  Forall
    (fun result =>
       snd result = Py.contains (executives self) executive_name
       /\ Py.keys (executives (fst result)) = Py.keys (executives self)
       /\ (forall k, k <> executive_name ->
                     Py.get (executives (fst result)) k
                     = Py.get (executives self) k)
       /\ (registry_wf (executives self) ->
           registry_wf (executives (fst result)))
       /\ (Py.get (executives self) executive_name = None ->
           fst result = self))
    changed.
Proof.
  cbv zeta. unfold deactivate_executive, reactivate_executive, Py.contains.
  destruct (Py.get (executives self) executive_name) as [m|] eqn:E.
  - assert (H : forall active,
               Py.keys (Py.set (executives self) executive_name
                          (set_active active m))
               = Py.keys (executives self)
               /\ (forall k, k <> executive_name ->
                             Py.get (Py.set (executives self) executive_name
                                       (set_active active m)) k
                             = Py.get (executives self) k)
               /\ (registry_wf (executives self) ->
                   registry_wf (Py.set (executives self) executive_name
                                  (set_active active m)))).
    { intro active. split; [eapply keys_set_present; eassumption |].
      split.
      - intros k Hk. apply ConsensusFacts.get_set_other. congruence.
      - intro Hwf. apply registry_wf_set; [assumption |].
        cbn. apply (registry_wf_get _ _ _ Hwf E). }
    constructor; [| constructor; [| constructor]];
      cbn [fst snd with_executives executives].
    + destruct (H false) as (H1 & H2 & H3).
      split; [reflexivity |]. split; [exact H1 |]. split; [exact H2 |].
      split; [exact H3 | discriminate].
    + destruct (H true) as (H1 & H2 & H3).
      split; [reflexivity |]. split; [exact H1 |]. split; [exact H2 |].
      split; [exact H3 | discriminate].
  - constructor; [| constructor; [| constructor]]; cbn [fst snd];
      (split; [reflexivity |]); (split; [reflexivity |]);
      (split; [intros; reflexivity |]);
      (split; [intro; assumption | intro; reflexivity]).
Qed.

End Registry.

Section Selection.

Variable World : Type.

(** *** The selection of the executives *)

Lemma max_priority_of_lower_bound (domains : list string)
    (member : TeamMember World) (start : Z) :
  (start
   <= fold_left
        (fun max_priority domain =>
           match Py.get (role_priority member) domain with
           | Some p => Z.max max_priority p
           | None => max_priority
           end)
        domains start)%Z.
Proof.
  revert start. induction domains as [|d ds IH]; intro start; cbn;
    [lia |].
  destruct (Py.get (role_priority member) d) as [p|].
  - specialize (IH (Z.max start p)). lia.
  - apply IH.
Qed.

Lemma selection_is_from_registry (self : ExecutiveTeamOrchestrator World)
    (request : DecisionRequest) :
  Forall (selected_from self) (_select_relevant_executives self request).
Proof.
  unfold _select_relevant_executives.
  destruct (required_domains request) as [|domain domains].
  - apply Forall_map, Forall_forall. intros m Hm.
    apply filter_In in Hm. destruct Hm as [Hin Ha].
    split; [| cbn [priority]; lia]. exists m. repeat split; assumption.
  - set (candidates := flat_map _ (Py.values (executives self))).
    assert (Hc : Forall (selected_from self) candidates).
    { apply Forall_forall. intros x Hx. apply in_flat_map in Hx.
      destruct Hx as [m [Hin Hx]].
      destruct (is_active m) eqn:Ha; cbn [negb] in Hx; [| contradiction].
      destruct (0 <? max_priority_of (domain :: domains) m)%Z eqn:Hp;
        [| contradiction].
      destruct Hx as [<- | []]. apply Z.ltb_lt in Hp.
      split; [| cbn [priority]; lia]. exists m. repeat split; assumption. }
    pose proof (sorted_desc_permutation
                  (fun x : Selected World => inject_Z (priority x))
                  candidates) as Hperm.
    destruct (Py.sorted_desc _ candidates) as [|x xs] eqn:Es.
    + destruct (filter is_active (Py.values (executives self)))
        as [|m ms] eqn:Ef; constructor; [| constructor].
      assert (Hm : In m (filter is_active (Py.values (executives self))))
        by (rewrite Ef; left; reflexivity).
      apply filter_In in Hm. destruct Hm as [Hin Ha].
      split; [| cbn [priority]; lia]. exists m. repeat split; assumption.
    + apply (Permutation_Forall (Permutation_sym Hperm)). exact Hc.
Qed.

(** X18. Every selected executive is the executive of an active member of
    the registry and has a priority of at least one. *)
Theorem selection_is_active_with_priority
    (self : ExecutiveTeamOrchestrator World) (request : DecisionRequest) :
  Forall (selected_from self) (_select_relevant_executives self request).
Proof.
  exact (selection_is_from_registry self request).
Qed.

Lemma filter_nil {A} (p : A -> bool) (xs : list A) :
  filter p xs = [] -> forall x, In x xs -> p x = false.
Proof.
  intros H x Hx. destruct (p x) eqn:E; [| reflexivity].
  assert (In x (filter p xs)) by (apply filter_In; split; assumption).
  rewrite H in *. contradiction.
Qed.

Lemma flat_map_nil {A B} (f : A -> list B) (xs : list A) :
  (forall x, In x xs -> f x = []) -> flat_map f xs = [].
Proof.
  induction xs as [|x xs IH]; intro H; cbn; [reflexivity |].
  rewrite (H x) by (left; reflexivity). apply IH.
  intros y Hy. apply H. right. assumption.
Qed.

Lemma selection_is_empty_without_active_executive_core
    (self : ExecutiveTeamOrchestrator World) (request : DecisionRequest) :
  filter is_active (Py.values (executives self)) = [] ->
  _select_relevant_executives self request = [].
Proof.
  intro Hnone. unfold _select_relevant_executives. rewrite Hnone.
  destruct (required_domains request) as [|domain domains];
    [reflexivity |].
  rewrite flat_map_nil; [reflexivity |].
  intros m Hm. rewrite (filter_nil _ _ Hnone m Hm). reflexivity.
Qed.

(** X19. No executive is selected exactly when no registered executive is
    active: then [_determine_lead_executive] raises its [ValueError], and
    otherwise it returns the first selected executive. *)
Theorem selection_is_empty_without_active_executive
    (self : ExecutiveTeamOrchestrator World) (request : DecisionRequest) :
  let selected := _select_relevant_executives self request in
  (selected = []
   <-> filter is_active (Py.values (executives self)) = [])
  /\ (selected = [] ->
      _determine_lead_executive selected
      = inl (Py.ValueError "No executives available for this decision"))
  /\ (selected <> [] ->
      exists first rest,
        selected = first :: rest
        /\ _determine_lead_executive selected
           = inr (selected_executive first)).
Proof.
  cbv zeta. split; [| split].
  - split.
    + intro H. destruct (filter is_active (Py.values (executives self)))
        as [|m ms] eqn:Ef; [reflexivity |]. exfalso.
      unfold _select_relevant_executives in H. rewrite Ef in H.
      destruct (required_domains request); [discriminate H |].
      destruct (Py.sorted_desc _ _); discriminate H.
    + apply selection_is_empty_without_active_executive_core.
  - intros ->. reflexivity.
  - intro Hne. destruct (_select_relevant_executives self request)
      as [|first rest]; [contradiction |].
    exists first, rest. split; reflexivity.
Qed.

Lemma constant_priority_descending (xs : list (TeamMember World)) :
  descending (fun x : Selected World => inject_Z (priority x))
    (map (fun member =>
            {| selected_executive := executive member; priority := 5 |})
       xs).
Proof.
  unfold descending. induction xs as [|x xs IH]; cbn; constructor;
    [assumption |].
  apply Forall_map, Forall_forall. intros y _. cbn. apply Qle_refl.
Qed.

Lemma selection_descending (self : ExecutiveTeamOrchestrator World)
    (request : DecisionRequest) :
  descending (fun x : Selected World => inject_Z (priority x))
    (_select_relevant_executives self request).
Proof.
  unfold _select_relevant_executives.
  destruct (required_domains request) as [|domain domains].
  - apply constant_priority_descending.
  - set (candidates := flat_map _ (Py.values (executives self))).
    pose proof (sorted_desc_descending
                  (fun x : Selected World => inject_Z (priority x))
                  candidates) as Hs.
    destruct (Py.sorted_desc _ candidates) as [|x xs]; [| exact Hs].
    destruct (filter is_active (Py.values (executives self)));
      repeat constructor.
Qed.

(** X20. The selected executives are in non-increasing order of priority,
    so the lead executive, the first of them, has the highest priority. *)
Theorem lead_has_highest_priority (self : ExecutiveTeamOrchestrator World)
    (request : DecisionRequest) :
  let selected := _select_relevant_executives self request in
  StronglySorted (fun a b => (priority b <= priority a)%Z) selected
  /\ (forall lead,
        _determine_lead_executive selected = inr lead ->
        exists first rest,
          selected = first :: rest
          /\ lead = selected_executive first
          /\ Forall (fun x => (priority x <= priority first)%Z) rest).
Proof.
  cbv zeta.
  assert (Hs : StronglySorted (fun a b => (priority b <= priority a)%Z)
                 (_select_relevant_executives self request)).
  { pose proof (selection_descending self request) as Hd.
    unfold descending in Hd.
    induction Hd as [|x xs _ IH Hx]; constructor; [assumption |].
    eapply Forall_impl; [| exact Hx]. cbn. intros y Hy.
    rewrite Zle_Qle. exact Hy. }
  split; [exact Hs |].
  intros lead Hlead.
  destruct (_select_relevant_executives self request) as [|first rest];
    [discriminate |].
  injection Hlead as <-. exists first, rest.
  split; [reflexivity |]. split; [reflexivity |].
  inversion Hs. assumption.
Qed.

Lemma in_values {V} (d : Py.dict V) (v : V) :
  In v (Py.values d) -> exists k, In (k, v) d.
Proof.
  unfold Py.values. intro H. apply in_map_iff in H.
  destruct H as [[k v'] [<- Hin]]. exists k. exact Hin.
Qed.

Lemma in_get {V} (d : Py.dict V) (k : string) (v : V) :
  NoDup (Py.keys d) -> In (k, v) d -> Py.get d k = Some v.
Proof.
  unfold Py.keys. induction d as [|[k' v'] d IH]; cbn; [contradiction |].
  intros Hn [Heq | Hin].
  - injection Heq as -> ->. now rewrite String.eqb_refl.
  - inversion Hn as [|? ? Hnot Hn']; subst.
    destruct (String.eqb k' k) eqn:E; [| apply IH; assumption].
    apply String.eqb_eq in E. subst k'. exfalso. apply Hnot.
    apply (in_map fst) in Hin. exact Hin.
Qed.

(** X21. In a registry keyed by the executives' names, an executive that
    was deactivated is not selected for any request. *)
Theorem deactivated_is_never_selected
    (self : ExecutiveTeamOrchestrator World) (executive_name : string)
    (request : DecisionRequest) :
  registry_wf (executives self) ->
  Forall (fun x => name (selected_executive x) <> executive_name)
    (_select_relevant_executives
       (fst (deactivate_executive self executive_name)) request).
Proof.
  intro Hwf.
  set (self1 := fst (deactivate_executive self executive_name)).
  assert (Hwf1 : registry_wf (executives self1)
                 /\ forall m,
                      Py.get (executives self1) executive_name = Some m ->
                      is_active m = false).
  { subst self1. unfold deactivate_executive.
    destruct (Py.get (executives self) executive_name) as [m0|] eqn:E;
      cbn [fst with_executives executives].
    - split.
      + apply (registry_wf_set World); [assumption |].
        cbn. apply (registry_wf_get World _ _ _ Hwf E).
      + intros m. rewrite ConsensusFacts.get_set_same.
        intros [= <-]. reflexivity.
    - split; [assumption |]. intros m Hm. congruence. }
  destruct Hwf1 as [[Hn Hf] Hinactive].
  eapply Forall_impl; [| apply selection_is_from_registry].
  intros x [(m & Hin & Ha & Hx) _] Hname.
  apply in_values in Hin. destruct Hin as [k Hin].
  rewrite Forall_forall in Hf. pose proof (Hf _ Hin) as Hk. cbn in Hk.
  rewrite Hx, Hk in Hname. subst k.
  apply (in_get _ _ _ Hn) in Hin.
  apply Hinactive in Hin. congruence.
Qed.

(** *** The participation records and the evaluations *)

Lemma weight_of_priority (p : Z) :
  (1 <= p)%Z -> 0.2 <= Py.min 1 (inject_Z p / 5) <= 1.
Proof.
  intro Hp. split; [| apply min_le_l].
  apply min_glb; [lra |].
  apply le_div; [lra |].
  rewrite Zle_Qle in Hp. change (inject_Z 1) with 1 in Hp. lra.
Qed.

Lemma participation_records_are_sound_core
    (self : ExecutiveTeamOrchestrator World) (request : DecisionRequest)
    (lead : BaseExecutive World) :
  Forall sound_participation
    (_create_participation_records
       (_select_relevant_executives self request) lead).
Proof.
  unfold _create_participation_records.
  apply Forall_map.
  eapply Forall_impl; [| apply selection_is_from_registry].
  intros x [_ Hp]. unfold sound_participation.
  cbn [contribution_weight expertise_relevance participation_type].
  pose proof (weight_of_priority _ Hp) as [Hlo Hhi].
  destruct (String.eqb (name (selected_executive x)) (name lead)); cbn.
  - split; [| split; [reflexivity | left; split; [reflexivity |]]].
    + split.
      * apply Qle_trans with (Py.min 1 (inject_Z (priority x) / 5));
          [assumption | apply max_ge_l].
      * apply max_lub; [assumption | lra].
    + unfold Py.max.
      by_cases_on (Py.gtb 0.8 (Py.min 1 (inject_Z (priority x) / 5)));
        lra.
  - split; [split; assumption |]. split; [reflexivity | right; reflexivity].
Qed.

(** X22. Every participation record that the orchestrator builds for the
    selected executives has a contribution weight between 0.2 and 1 and the
    same expertise relevance; the records of the lead are those of the
    recommender, with a weight of at least 0.8, and the others are
    reviewers. *)
Theorem participation_records_are_sound
    (self : ExecutiveTeamOrchestrator World) (request : DecisionRequest)
    (lead : BaseExecutive World) :
  Forall sound_participation
    (_create_participation_records
       (_select_relevant_executives self request) lead).
Proof.
  exact (participation_records_are_sound_core self request lead).
Qed.

End Selection.

Section Rounds.

Variable World : Type.





End Rounds.

Section Decisions.

Variable World : Type.

(** *** The veto *)

Lemma first_match {A} (p : A -> bool) (default : A) (xs : list A) :
  existsb p xs = true ->
  In (hd default (filter p xs)) xs /\ p (hd default (filter p xs)) = true.
Proof.
  intro H. apply existsb_exists in H. destruct H as [x [Hx Hp]].
  assert (Hin : In x (filter p xs)) by (apply filter_In; split; assumption).
  destruct (filter p xs) as [|y ys] eqn:E; [contradiction |].
  cbn. assert (Hy : In y (filter p xs)) by (rewrite E; left; reflexivity).
  apply filter_In in Hy. exact Hy.
Qed.

Lemma veto_scan_grounds (self : ExecutiveTeamOrchestrator World)
    (outcome : ConsensusOutcome) (evaluations : list ConsensusEvaluation)
    (members : list (string * TeamMember World)) :
  incl members (Py.items (executives self)) ->
  veto_grounds self outcome evaluations
    (veto_scan
       (Py.keys (domain_specific_analyses (recommendation outcome)))
       evaluations members).
Proof.
  induction members as [|[name_ member] members IH]; intro Hincl;
    cbn [veto_scan]; [exact I |].
  assert (Hrest : incl members (Py.items (executives self))).
  { intros x Hx. apply Hincl. right. assumption. }
  destruct (is_active member) eqn:Hactive; cbn [negb]; [| apply IH, Hrest].
  destruct (existsb _ _) eqn:Hauth; cbn [negb]; [| apply IH, Hrest].
  destruct (find _ evaluations) as [evaluation|] eqn:Hfind;
    [| apply IH, Hrest].
  apply find_some in Hfind. destruct Hfind as [He Hp].
  apply andb_true_iff in Hp. destruct Hp as [Hid Hl].
  apply String.eqb_eq in Hid. apply ltb_true in Hl.
  destruct (first_match _ "" _ Hauth) as [Hd Hr].
  apply OrchestratorFacts.mem_In in Hr.
  cbn. exists member, evaluation.
  repeat split; try assumption. apply Hincl. left. reflexivity.
Qed.

(** X24. A veto always names its grounds: the vetoing name is that of an
    active registered member, the reported role is the member's, the
    reported domain is both a key of the recommendation's analyses and one
    of the member's veto rights, and the reported agreement level, below
    0.2, and concerns are those of an evaluation under that name. *)
Theorem veto_names_its_grounds (self : ExecutiveTeamOrchestrator World)
    (outcome : ConsensusOutcome) (evaluations : list ConsensusEvaluation) :
  veto_grounds self outcome evaluations
    (_check_for_vetos self outcome evaluations).
Proof.
  unfold _check_for_vetos.
  destruct (enable_veto (config self)); cbn [negb]; [| exact I].
  apply veto_scan_grounds, incl_refl.
Qed.

(** *** The decision history *)

Lemma keeps_log_ret {A} (a : A) : keeps_log (@ret World A a).
Proof. intro s. reflexivity. Qed.

Lemma keeps_log_try {A} (r : Py.exn + A) : keeps_log (@try World A r).
Proof. intro s. unfold try. destruct r; reflexivity. Qed.

Lemma keeps_log_call {A} (f : Effect World A) : keeps_log (call f).
Proof.
  intro s. unfold call. destruct (f (world s)) as [[e | a] w]; reflexivity.
Qed.

Lemma keeps_log_bind {A B} (c : M World A) (k : A -> M World B) :
  keeps_log c -> (forall a, keeps_log (k a)) -> keeps_log (bind c k).
Proof.
  intros Hc Hk s. unfold bind. specialize (Hc s).
  destruct (c s) as [a s1 | e s1 |]; [| assumption | exact I].
  specialize (Hk a s1). destruct (k a s1); congruence.
Qed.

Lemma keeps_log_coroutine {A} (body : M World A) :
  keeps_log body -> keeps_log (coroutine body).
Proof.
  intros H s. apply OrchestratorFacts.coroutine_run. exact (H s).
Qed.

Lemma keeps_log_gather {A} (tasks : list (M World A)) :
  Forall keeps_log tasks -> keeps_log (gather tasks).
Proof.
  induction 1 as [|task tasks Ht _ IH]; cbn.
  - apply keeps_log_ret.
  - apply keeps_log_bind; [assumption |]. intro a.
    apply keeps_log_bind; [assumption |]. intro rest. apply keeps_log_ret.
Qed.

Lemma keeps_log_gather_evaluations
    (recommendation : ExecutiveRecommendation)
    (selected : list (Selected World)) (lead : BaseExecutive World) :
  keeps_log (_gather_evaluations recommendation selected lead).
Proof.
  unfold _gather_evaluations. apply keeps_log_coroutine, keeps_log_gather.
  apply Forall_forall. intros task Ht.
  apply in_flat_map in Ht. destruct Ht as [x [_ Ht]].
  destruct (String.eqb _ _); [contradiction |].
  destruct Ht as [<- | []]. unfold _get_executive_evaluation.
  apply keeps_log_coroutine.
  apply keeps_log_bind; [apply keeps_log_call |].
  intro r. apply keeps_log_try.
Qed.

Lemma keeps_log_build_consensus_call
    (self : ExecutiveTeamOrchestrator World)
    (rec : ExecutiveRecommendation)
    (evaluations : list ConsensusEvaluation)
    (participating : list DecisionParticipation) :
  keeps_log (build_consensus_call self rec evaluations participating).
Proof.
  intro s. unfold build_consensus_call.
  destruct (build_consensus _ _ _ _ _) as [[e | a] h]; reflexivity.
Qed.

Lemma keeps_log_resolution_loop (fuel : nat)
    (self : ExecutiveTeamOrchestrator World)
    (primary : ExecutiveRecommendation) (selected : list (Selected World))
    (lead : BaseExecutive World)
    (participating : list DecisionParticipation) (r : Round) :
  keeps_log
    (resolution_loop fuel self primary selected lead participating r).
Proof.
  revert r. induction fuel as [|fuel IH]; intro r; cbn [resolution_loop];
    destruct (needs_resolution self r);
    try apply keeps_log_ret; try (intro s; exact I).
  apply keeps_log_bind; [apply keeps_log_call |]. intro updated.
  apply keeps_log_bind; [apply keeps_log_gather_evaluations |].
  intro evaluations'.
  apply keeps_log_bind; [apply keeps_log_build_consensus_call |].
  intro outcome'. apply IH.
Qed.

(** X25. A decision run that returns appends its decision to the decision
    history of the orchestrator, once, when logging is configured, and
    leaves the history as it is otherwise; a run that raises leaves it as
    it is. *)
Theorem decision_is_logged_once (fuel : nat)
    (self : ExecutiveTeamOrchestrator World) (request : DecisionRequest)
    (s : State World) :
  match make_decision fuel self request s with
  | Ok d s' =>
      decision_history s'
      = if log_decisions (config self)
        then decision_history s ++ [d] else decision_history s
  | Raise _ s' => decision_history s' = decision_history s
  | Timeout => True
  end.
Proof.
  unfold make_decision.
  set (selected := _select_relevant_executives self request).
  apply OrchestratorFacts.coroutine_run.
  unfold bind at 1.
  pose proof (keeps_log_try
                (lookup_framework self
                   (_select_decision_framework self request)) s) as H0.
  destruct (try _ s) as [framework s0 | e s0 |]; [| assumption | exact I].
  unfold bind at 1.
  pose proof (keeps_log_try (_determine_lead_executive selected) s0) as H1.
  destruct (try _ s0) as [lead s1 | e s1 |]; [| congruence | exact I].
  unfold bind at 1.
  pose proof (keeps_log_call (analyze lead request) s1) as H2.
  destruct (call _ s1) as [primary s2 | e s2 |]; [| congruence | exact I].
  unfold bind at 1.
  pose proof (keeps_log_gather_evaluations primary selected lead s2) as H3.
  destruct (_gather_evaluations _ _ _ s2) as [evaluations0 s3 | e s3 |];
    [| congruence | exact I].
  set (participating := _create_participation_records selected lead).
  unfold bind at 1.
  pose proof (keeps_log_build_consensus_call self primary evaluations0
                participating s3) as H4.
  destruct (build_consensus_call _ _ _ _ s3) as [outcome0 s4 | e s4 |];
    [| congruence | exact I].
  unfold bind at 1.
  pose proof (keeps_log_resolution_loop fuel self primary selected lead
                participating
                {| evaluations := evaluations0;
                   consensus_outcome := outcome0;
                   attempts := 1 |} s4) as H5.
  destruct (resolution_loop _ _ _ _ _ _ _ s4) as [final s5 | e s5 |];
    [| congruence | exact I].
  destruct (log_decisions (config self)); cbn; congruence.
Qed.

(** *** Failing early *)

(** X26. Without a registered framework a decision run raises before any
    executive is consulted: the [StopIteration] of [next] leaves the
    coroutine as a [RuntimeError]. With a framework but no active executive
    the run raises the [ValueError] of [_determine_lead_executive]. In both
    cases nothing has changed. *)
Theorem decision_fails_early (fuel : nat)
    (self : ExecutiveTeamOrchestrator World) (request : DecisionRequest)
    (s : State World) :
  (frameworks self = [] ->
   make_decision fuel self request s
   = Raise (Py.RuntimeError "coroutine raised StopIteration") s)
  /\ (frameworks self <> [] ->
      filter is_active (Py.values (executives self)) = [] ->
      make_decision fuel self request s
      = Raise (Py.ValueError "No executives available for this decision")
          s).
Proof.
  split.
  - intro Hf. unfold make_decision, coroutine, bind, try, lookup_framework.
    rewrite Hf. reflexivity.
  - intros Hf Hnone. unfold make_decision, coroutine.
    unfold bind at 1. unfold try at 1, lookup_framework.
    destruct (frameworks self) as [|[k f] fs]; [contradiction |].
    cbn [Py.values map snd].
    apply (selection_is_empty_without_active_executive_core World self
             request) in Hnone.
    rewrite Hnone. reflexivity.
Qed.

(** *** The decision outcome *)

Lemma get_default_in_values {V} (d : Py.dict V) (k : string) (default : V) :
  In default (Py.values d) -> In (Py.get_default d k default) (Py.values d).
Proof.
  intro H. unfold Py.get_default.
  destruct (Py.get d k) as [v|] eqn:E; [| assumption].
  eapply ConsensusExtras.get_in_values. eassumption.
Qed.

Lemma lookup_framework_registered (self : ExecutiveTeamOrchestrator World)
    (framework_name framework : string) :
  lookup_framework self framework_name = inr framework ->
  In framework (Py.values (frameworks self)).
Proof.
  unfold lookup_framework.
  destruct (Py.values (frameworks self)) as [|first rest] eqn:E;
    [discriminate |].
  intros [= <-]. rewrite <- E. apply get_default_in_values.
  rewrite E. left. reflexivity.
Qed.

(** The decision that [make_decision] returns, field by field. *)
Lemma make_decision_fields (fuel : nat)
    (self : ExecutiveTeamOrchestrator World) (request : DecisionRequest)
    (s s' : State World) (d : DecisionOutcome) :
  make_decision fuel self request s = Ok d s' ->
  let selected := _select_relevant_executives self request in
  exists framework lead final,
    lookup_framework self (_select_decision_framework self request)
    = inr framework
    /\ _determine_lead_executive selected = inr lead
    /\ d = {| outcome_decision_id := decision_id request;
              outcome_query := query request;
              outcome_recommendation :=
                recommendation (consensus_outcome final);
              consensus := consensus_outcome final;
              participating_executives :=
                map (fun e => name (selected_executive e)) selected;
              selected_framework := framework;
              resolution_attempts := attempts final;
              decision_request := request;
              escalated_to_human :=
                (if veto_applied
                      (_check_for_vetos self (consensus_outcome final)
                         (evaluations final))
                 then true
                 else Py.ltb (support_percentage (consensus_outcome final))
                        (human_escalation_threshold (config self)));
              decision_metrics :=
                {| metrics_resolution_attempts := attempts final;
                   final_support_percentage :=
                     support_percentage (consensus_outcome final);
                   metrics_veto_applied :=
                     veto_applied
                       (_check_for_vetos self (consensus_outcome final)
                          (evaluations final));
                   executive_count := List.length selected;
                   framework := framework;
                   lead_executive := name lead |} |}.
Proof.
  unfold make_decision. cbv zeta.
  intro Hrun. apply OrchestratorFacts.coroutine_returns in Hrun. revert Hrun.
  unfold bind at 1. unfold try at 1.
  destruct (lookup_framework _ _) as [e | framework]; [discriminate |].
  unfold bind at 1. unfold try at 1.
  destruct (_determine_lead_executive _) as [e | lead] eqn:E1;
    [discriminate |].
  unfold bind at 1.
  destruct (call (analyze lead request) s) as [primary s1 | e s1 |];
    [| discriminate | discriminate].
  unfold bind at 1.
  destruct (_gather_evaluations primary _ lead s1)
    as [evaluations0 s2 | e s2 |]; [| discriminate | discriminate].
  unfold bind at 1.
  destruct (build_consensus_call self primary evaluations0 _ s2)
    as [outcome0 s3 | e s3 |]; [| discriminate | discriminate].
  unfold bind at 1.
  destruct (resolution_loop fuel self primary _ lead _ _ s3)
    as [final s4 | e s4 |]; [| discriminate | discriminate].
  intro H. exists framework, lead, final.
  split; [reflexivity |]. split; [reflexivity |].
  destruct (log_decisions (config self)); cbn in H;
    injection H as <- _; reflexivity.
Qed.

(** X27. The fields of a returned decision agree with each other and with
    the request: identifier, query and request are the request's; the
    recommendation is that of the consensus outcome; the participating
    executives are the names of the selected ones, the lead first; the
    metrics repeat the attempts, the support percentage, the number of
    executives and the framework; and the framework is a registered
    one. *)
Theorem decision_outcome_is_consistent (fuel : nat)
    (self : ExecutiveTeamOrchestrator World) (request : DecisionRequest)
    (s s' : State World) (d : DecisionOutcome) :
  make_decision fuel self request s = Ok d s' ->
  outcome_decision_id d = decision_id request
  /\ outcome_query d = query request
  /\ decision_request d = request
  /\ outcome_recommendation d = recommendation (consensus d)
  /\ participating_executives d
     = map (fun x => name (selected_executive x))
         (_select_relevant_executives self request)
  /\ hd_error (participating_executives d)
     = Some (lead_executive (decision_metrics d))
  /\ metrics_resolution_attempts (decision_metrics d)
     = resolution_attempts d
  /\ final_support_percentage (decision_metrics d)
     = support_percentage (consensus d)
  /\ executive_count (decision_metrics d)
     = List.length (participating_executives d)
  /\ framework (decision_metrics d) = selected_framework d
  /\ In (selected_framework d) (Py.values (frameworks self)).
Proof.
  intro H. apply make_decision_fields in H. cbv zeta in H.
  destruct H as (fw & lead & final & Hfw & Hlead & ->). cbn.
  repeat split.
  - destruct (_select_relevant_executives self request) as [|first rest];
      [discriminate |].
    injection Hlead as <-. reflexivity.
  - now rewrite length_map.
  - eapply lookup_framework_registered. eassumption.
Qed.

(** X28. A returned decision is escalated to a human exactly when the
    support percentage of its consensus outcome is below the escalation
    threshold or a veto was applied. *)
Theorem escalation_has_two_causes (fuel : nat)
    (self : ExecutiveTeamOrchestrator World) (request : DecisionRequest)
    (s s' : State World) (d : DecisionOutcome) :
  make_decision fuel self request s = Ok d s' ->
  (escalated_to_human d = true
   <-> support_percentage (consensus d)
       < human_escalation_threshold (config self)
       \/ metrics_veto_applied (decision_metrics d) = true).
Proof.
  intro H. apply make_decision_fields in H. cbv zeta in H.
  destruct H as (fw & lead & final & _ & _ & ->). cbn.
  destruct (veto_applied _).
  - split; [intro; right; reflexivity | reflexivity].
  - rewrite ltb_true. split; [intro; left; assumption |].
    intros [Hl | Hv]; [assumption | discriminate].
Qed.

End Decisions.

(** *** The usage of the frameworks *)

Lemma tally_get {A} (key : A -> string) (xs : list A) (d : Py.dict nat)
    (k : string) :
  Py.get_default
    (fold_left
       (fun counts x =>
          match Py.get counts (key x) with
          | Some n => Py.set counts (key x) (S n)
          | None => Py.set counts (key x) 1%nat
          end)
       xs d) k 0%nat
  = (Py.get_default d k 0
     + count_where (fun x => String.eqb (key x) k) xs)%nat.
Proof.
  revert d. induction xs as [|x xs IH]; intro d; cbn [fold_left].
  - unfold count_where. cbn. lia.
  - rewrite IH. unfold count_where. cbn [filter].
    destruct (String.eqb (key x) k) eqn:E.
    + apply String.eqb_eq in E. rewrite E. unfold Py.get_default.
      destruct (Py.get d k); rewrite ConsensusFacts.get_set_same;
        cbn [List.length]; lia.
    + apply String.eqb_neq in E. unfold Py.get_default.
      destruct (Py.get d (key x));
        rewrite (ConsensusFacts.get_set_other _ _ _ _ E); lia.
Qed.

Lemma set_new_entry (d : Py.dict nat) (k : string) (v : nat) :
  Py.get d k = None ->
  list_sum (Py.values (Py.set d k v)) = (list_sum (Py.values d) + v)%nat.
Proof.
  unfold Py.values.
  induction d as [|[k' v'] d IH]; cbn [Py.get Py.set].
  - intros _. cbn. lia.
  - destruct (String.eqb k' k); [discriminate |].
    intro H. cbn [map snd list_sum fold_right]. unfold list_sum in IH.
    rewrite (IH H). lia.
Qed.

Lemma tally_total {A} (key : A -> string) (xs : list A) (d : Py.dict nat) :
  list_sum
    (Py.values
       (fold_left
          (fun counts x =>
             match Py.get counts (key x) with
             | Some n => Py.set counts (key x) (S n)
             | None => Py.set counts (key x) 1%nat
             end)
          xs d))
  = (list_sum (Py.values d) + List.length xs)%nat.
Proof.
  revert d. induction xs as [|x xs IH]; intro d; cbn [fold_left List.length].
  - lia.
  - rewrite IH. destruct (Py.get d (key x)) as [n|] eqn:E.
    + destruct (ConsensusExtras.set_increment d (key x) n E) as [H _].
      replace (S n) with (n + 1)%nat by lia. rewrite H. lia.
    + rewrite (set_new_entry _ _ _ E). lia.
Qed.

(** X29. The framework usage counts, for every framework, the decisions of
    the history that used it (zero when the framework is not a key), and
    the counts add up to the number of decisions. *)
Theorem framework_usage_counts_decisions
    (history : list DecisionOutcome) :
  let usage := _calculate_framework_usage history in
  (forall f,
     Py.get_default usage f 0%nat
     = count_where (fun d => String.eqb (selected_framework d) f) history)
  /\ list_sum (Py.values usage) = List.length history.
Proof.
  cbv zeta. unfold _calculate_framework_usage. split.
  - intro f. apply (tally_get selected_framework).
  - apply (tally_total selected_framework history []).
Qed.

(** *** The properties on the board of four *)

Lemma deactivate_then_reactivate_witness :
  fst (reactivate_executive
         (fst (deactivate_executive Boardroom.board "cro")) "cro")
  = Boardroom.board.
Proof.
  apply (deactivate_then_reactivate unit Boardroom.board "cro"
           Boardroom.risk_officer eq_refl eq_refl).
Defined.

Lemma deactivated_is_never_selected_witness :
  Forall (fun x => name (selected_executive x) <> "cro")
    (_select_relevant_executives
       (fst (deactivate_executive Boardroom.board "cro"))
       Boardroom.request).
Proof.
  apply (deactivated_is_never_selected unit Boardroom.board "cro"
           Boardroom.request).
  split.
  - repeat constructor; cbn; intuition discriminate.
  - repeat constructor.
Defined.


Lemma decision_outcome_is_consistent_witness :
  exists d s',
    make_decision 3 Boardroom.board Boardroom.request Boardroom.start
    = Ok d s'
    /\ outcome_recommendation d = recommendation (consensus d).
Proof.
  eexists. eexists. split; [vm_compute; reflexivity |].
  eapply (decision_outcome_is_consistent unit 3 Boardroom.board
            Boardroom.request Boardroom.start).
  vm_compute. reflexivity.
Defined.

Lemma escalation_has_two_causes_witness :
  exists d s',
    make_decision 3 Boardroom.board Boardroom.request Boardroom.start
    = Ok d s'
    /\ (escalated_to_human d = true
        <-> support_percentage (consensus d)
            < human_escalation_threshold (config Boardroom.board)
            \/ metrics_veto_applied (decision_metrics d) = true).
Proof.
  eexists. eexists. split; [vm_compute; reflexivity |].
  eapply (escalation_has_two_causes unit 3 Boardroom.board
            Boardroom.request Boardroom.start).
  vm_compute. reflexivity.
Defined.

End OrchestratorExtras.
